(** * TNN: inner-product gradient engines and the x86 unary kernel registry

    A shallow embedding of
    - [source/tnn/train/grad/inner_product_layer_grad.cc]
      ([InnerProductLayerGrad::OnGrad], module [Train]),
    - [source/tnn/device/arm/acc/gradient/arm_inner_product_grad.cc]
      ([ExecWeightGrad], [ExecInputGrad], [ExecBiasGrad],
      [ArmInnerProductLayerGrad::OnGrad], module [Arm]),
    - [source/tnn/device/x86/acc/x86_unary2_layer_acc.cc]
      (the kernel map, [RegisterUnary2Kernel], [GetUnary2Kernel],
      [X86_UNARY2_CALCULATE], [Init], [DoForward], [Reshape], module [X86]).

    Conventions.
    - A [float *] is a [list R] of scalars together with an element offset;
      [p[i]] is a checked access.  An access outside the buffer is undefined
      behaviour in C++; here it is the fault [None] of the [option] monad.
    - The scalar type [R] is any commutative ring ([Scalar]); the integers
      and the canonical rationals [Qc] are instances.  Rounding of [float]
      is not modelled.
    - [int] dimensions and loop counters are natural numbers: a [DimsVector]
      holds non-negative extents, and the loops below never see a negative
      counter.  [ic - 3] is the truncated subtraction, which gives the same
      (empty) iteration space as the negative C++ bound.  The two size tests
      that guard the arithmetic ([output_count * input_count * GetBytesSize]
      against [GetBytesSize()], [GetDataCount()] against [oc * ic]) are
      computed on 32-bit [int]s with their wrap-around ([int32]); the index
      and allocation arithmetic behind them is on natural numbers.
    - Code of the repository that the three files call but that is outside
      this source tree is either a parameter of the model (a [Variable] of
      the section) or a definition whose comment starts "Modelled from the
      spec:".
    - The [OMP_PARALLEL_FOR_] loops run in index order.

    The definitions come first; the properties start at "Properties". *)

From Stdlib Require Import ZArith QArith Qcanon Ring Ring_theory ZArithRing String.
From stdpp Require Import base option list gmap strings numbers.

Open Scope nat_scope.

(** ** Scalars *)

Class Scalar (R : Type) := {
  sc0 : R;
  sc1 : R;
  scadd : R → R → R;
  scmul : R → R → R;
  scsub : R → R → R;
  scopp : R → R;
  sc_ring : ring_theory sc0 sc1 scadd scmul scsub scopp (@eq R)
}.

Declare Scope scalar_scope.
Delimit Scope scalar_scope with S.
Infix "+" := scadd : scalar_scope.
Infix "*" := scmul : scalar_scope.
Infix "-" := scsub : scalar_scope.
Notation "- x" := (scopp x) : scalar_scope.

#[export] Instance Z_scalar : Scalar Z :=
  {| sc0 := 0%Z; sc1 := 1%Z; scadd := Z.add; scmul := Z.mul;
     scsub := Z.sub; scopp := Z.opp; sc_ring := Zth |}.

#[export] Instance Qc_scalar : Scalar Qc :=
  {| sc0 := 0%Qc; sc1 := 1%Qc; scadd := Qcplus; scmul := Qcmult;
     scsub := Qcminus; scopp := Qcopp; sc_ring := Qcrt |}.

#[export] Instance scalar_inhabited `{Scalar R} : Inhabited R := populate sc0.

(** [sum_upto n f] is [f 0 + f 1 + ... + f (n-1)]. *)
Fixpoint sum_upto `{Scalar R} (n : nat) (f : nat → R) : R :=
  match n with
  | 0 => sc0
  | S n' => (sum_upto n' f + f n')%S
  end.

(** ** Checked memory accesses and loops *)

Section Memory.
Context `{Scalar R}.

(** [p[i]] as an rvalue. *)
Definition load (buf : list R) (i : nat) : option R := buf !! i.

(** [p[i] = v]. *)
Definition store (buf : list R) (i : nat) (v : R) : option (list R) :=
  if decide (i < length buf) then Some (<[i:=v]> buf) else None.

(** [memset(p, 0, n * sizeof(float))]. *)
Definition memset0 (buf : list R) (n : nat) : option (list R) :=
  if decide (n ≤ length buf) then Some (replicate n sc0 ++ drop n buf) else None.

(** [memcpy(dst, src, n * sizeof(float))]. *)
Definition memcpy (dst src : list R) (n : nat) : option (list R) :=
  if decide (n ≤ length dst ∧ n ≤ length src)
  then Some (take n src ++ drop n dst) else None.

End Memory.

Section Loops.
Context {St : Type}.

(** [for (int i = lo; i < lo + n; ++i) body]. *)
Fixpoint for_from (lo n : nat) (body : nat → St → option St) (s : St) : option St :=
  match n with
  | 0 => Some s
  | S n' => body lo s ≫= for_from (S lo) n' body
  end.

(** [for (int i = 0; i < n; ++i) body]. *)
Definition for_ (n : nat) (body : nat → St → option St) (s : St) : option St :=
  for_from 0 n body s.

(** [for (int j = lo; j < hi; j += 4) body]; [fuel] bounds the number of
    iterations, and [hi] is always enough of it. *)
Fixpoint for_step4_from (fuel lo hi : nat) (body : nat → St → option St) (s : St)
  : option St :=
  match fuel with
  | 0 => Some s
  | S fuel' =>
      if decide (lo < hi) then body lo s ≫= for_step4_from fuel' (lo + 4) hi body
      else Some s
  end.

Definition for_step4 (hi : nat) (body : nat → St → option St) (s : St) : option St :=
  for_step4_from hi 0 hi body s.

End Loops.

(** ** [int] arithmetic *)

(** What a 32-bit [int] holds when the mathematical result is [z]: the
    two's complement wrap-around, as the compiled code computes it. *)
Definition int32 (z : Z) : Z := ((z + 2 ^ 31) mod 2 ^ 32 - 2 ^ 31)%Z.

(** [a * b] on [int]s. *)
Definition int_mul (a b : Z) : Z := int32 (a * b).

(** The [int] that holds the count [n]: extents, [num_output], and what
    [GetBytesSize()] and [GetDataCount()] return are [int]s. *)
Definition as_int (n : nat) : Z := int32 (Z.of_nat n).

(** ** Status and the tensor data model

    [Status], [Blob], [BlobDesc], [RawBuffer] and the layer parameter and
    resource classes are declared in headers outside this source tree.  The
    records below hold the members the three source files read or write,
    under the names they use. *)

(** Modelled from the spec: the status codes, "every fallible operation
    returns a typed failure"; the four codes the source files name. *)
Inductive StatusCode :=
  | TNN_OK | TNNERR_PARAM_ERR | TNN_TRAIN_ERROR | TNNERR_TRAIN_ERROR.

#[export] Instance StatusCode_eq_dec : EqDecision StatusCode.
Proof. solve_decision. Defined.

(** Modelled from the spec: [Status], "failures carry a human-readable
    description plus the error kind". *)
Record Status := mkStatus { code : StatusCode; description : string }.

(** [Status(TNN_OK)] and the implicit conversion of [TNN_OK] to a [Status]. *)
Definition Status_OK : Status := mkStatus TNN_OK "".

(** Modelled from the spec: the [DataType] enumeration of [tnn/core/common.h],
    which is not in this source tree; "dtype: enum{float32, int8, bfp16, ...}". *)
Inductive DataType :=
  | DATA_TYPE_FLOAT | DATA_TYPE_HALF | DATA_TYPE_INT8 | DATA_TYPE_INT32 | DATA_TYPE_BFP16.

#[export] Instance DataType_eq_dec : EqDecision DataType.
Proof. solve_decision. Defined.

(** Modelled from the spec: [DataTypeUtils::GetBytesSize], "size_of(dtype)". *)
Definition GetBytesSize (t : DataType) : nat :=
  match t with
  | DATA_TYPE_FLOAT => 4
  | DATA_TYPE_HALF => 2
  | DATA_TYPE_INT8 => 1
  | DATA_TYPE_INT32 => 4
  | DATA_TYPE_BFP16 => 2
  end.

(** Modelled from the spec: the [DataFormat] enumeration, "layout:
    enum{canonical (batch-major, channel-second), packed-N (channel blocked by
    N), ...}"; the two formats the gradient code names. *)
Inductive DataFormat := DATA_FORMAT_NCHW | DATA_FORMAT_NC4HW4.

#[export] Instance DataFormat_eq_dec : EqDecision DataFormat.
Proof. solve_decision. Defined.

(** [DimsVector], a [std::vector<int>] of extents. *)
Definition DimsVector := list nat.

(** Modelled from the spec: [DimsVectorUtils::Count(dims, start)],
    "element_count(dims)" over the extents from [start] on. *)
Definition Count (dims : DimsVector) (start : nat) : nat :=
  foldr Nat.mul 1 (drop start dims).

(** Modelled from the spec: [BlobDesc], the "dims", "dtype" and "layout" of
    a Tensor / Blob. *)
Record BlobDesc := mkBlobDesc {
  dims : DimsVector;
  data_type : DataType;
  data_format : DataFormat
}.

Section Tensors.
Context {R : Type}.

(** Modelled from the spec: [Blob], "a view over storage"; its address
    (blobs are map keys), its descriptor, and the floats found at
    [GetHandle().base + GetHandle().bytes_offset]. *)
Record Blob := mkBlob {
  blob_addr : nat;
  blob_desc : BlobDesc;
  blob_data : list R
}.

(** Modelled from the spec: [RawBuffer], "an owned byte buffer with an
    associated dims, dtype, layout"; its declared byte size
    ([GetBytesSize()], "bytes_size() returns declared byte length") and the
    floats seen through [force_to<float *>()]. *)
Record RawBuffer := mkRawBuffer {
  bytes_size : nat;
  buffer_dims : DimsVector;
  buffer_type : DataType;
  buffer_format : DataFormat;
  buffer_data : list R
}.

End Tensors.
Arguments Blob : clear implicits.
Arguments RawBuffer : clear implicits.

(** [InnerProductLayerParam]: the two members the gradient code reads. *)
Record InnerProductLayerParam := mkInnerProductLayerParam {
  num_output : nat;
  has_bias : bool
}.

(** Modelled from the spec: [InnerProductLayerResource], the "persistent
    per-operator parameters (weight, bias), each a RawBuffer". *)
Record InnerProductLayerResource (R : Type) := mkInnerProductLayerResource {
  weight_handle : RawBuffer R;
  bias_handle : RawBuffer R
}.
Arguments weight_handle {R} _.
Arguments bias_handle {R} _.

(** ** The ARM inner-product gradient kernels
    ([arm_inner_product_grad.cc]) *)

Module Arm.
Section Kernels.
Context `{Scalar R}.

(** Modelled from the spec: the [Float4] vector of
    [tnn/device/arm/acc/Float4.h], which is not in this source tree; the
    "vector width" is 4, and [+] and [*] act lane by lane. *)
Record Float4 := mkFloat4 { lane0 : R; lane1 : R; lane2 : R; lane3 : R }.

(** [Float4 ug(x)]: every lane holds [x]. *)
Definition Float4_splat (x : R) : Float4 := mkFloat4 x x x x.

Definition Float4_add (u v : Float4) : Float4 :=
  mkFloat4 (lane0 u + lane0 v)%S (lane1 u + lane1 v)%S
           (lane2 u + lane2 v)%S (lane3 u + lane3 v)%S.

Definition Float4_mul (u v : Float4) : Float4 :=
  mkFloat4 (lane0 u * lane0 v)%S (lane1 u * lane1 v)%S
           (lane2 u * lane2 v)%S (lane3 u * lane3 v)%S.

(** [Float4::load(p)] reads [p[0..3]]. *)
Definition Float4_load (buf : list R) (p : nat) : option Float4 :=
  a ← load buf p; b ← load buf (p + 1); c ← load buf (p + 2); d ← load buf (p + 3);
  Some (mkFloat4 a b c d).

(** [Float4::save(p, v)] writes [p[0..3]]. *)
Definition Float4_save (buf : list R) (p : nat) (v : Float4) : option (list R) :=
  buf ← store buf p (lane0 v);
  buf ← store buf (p + 1) (lane1 v);
  buf ← store buf (p + 2) (lane2 v);
  store buf (p + 3) (lane3 v).

(** [n << 2 >> 2], which C++ reads as [(n << 2) >> 2]. *)
Definition shl2_shr2 (n : nat) : nat := Nat.shiftr (Nat.shiftl n 2) 2.

(** [ExecWeightGrad<acc_weight>(batch, oc, ic, weight_grad, output_grad, input)];
    the result is the contents of [weight_grad].  The [OMP_PARALLEL_FOR_]
    loop over [i] runs in index order. *)
Definition ExecWeightGrad (acc_weight : bool) (batch oc ic : nat)
    (weight_grad output_grad input : list R) : option (list R) :=
  weight_grad ← (if negb acc_weight then memset0 weight_grad (oc * ic)
                 else Some weight_grad);
  for_ batch (λ b weight_grad,
    let o_ptr := oc * b in
    let i_ptr := ic * b in
    for_ oc (λ i weight_grad,
      let w_ptr := ic * i in
      o ← load output_grad (o_ptr + i);
      let ug := Float4_splat o in
      weight_grad ← for_step4 (ic - 3) (λ j weight_grad,
        x0 ← Float4_load input (i_ptr + j);
        w ← Float4_load weight_grad (w_ptr + j);
        Float4_save weight_grad (w_ptr + j) (Float4_add (Float4_mul ug x0) w))
        weight_grad;
      let remain := ic mod 4 in
      let w_ptr := w_ptr + shl2_shr2 ic in
      for_ remain (λ j weight_grad,
        w ← load weight_grad (w_ptr + j);
        x ← load input (i_ptr + (j + shl2_shr2 ic));
        o ← load output_grad (o_ptr + i);
        store weight_grad (w_ptr + j) (w + x * o)%S) weight_grad)
      weight_grad)
    weight_grad.

(** Modelled from the spec: [GemmFloatPackAB(m, n, k, a, pack_a, lda, b,
    pack_b, ldb, c, ldc)] of [tnn/device/arm/acc/compute/gemm_function.h],
    which is not in this source tree.  "A dedicated packed-matmul path ... is
    used for the input-gradient matrix multiply", [input_grad[b,i] = Σ_o
    output_grad[b,o] * weight[o,i]], and the destination is one that the
    caller "zero-initializes ... before summing" or whose "existing contents"
    are added to: [c[r,q] += Σ_l a[r,l] * b[l,q]].  The scratch operands
    [pack_a] and [pack_b] are written and read by the routine alone and are
    left out. *)
Definition GemmFloatPackAB (m n k : nat) (a : list R) (lda : nat)
    (b : list R) (ldb : nat) (c : list R) (ldc : nat) : option (list R) :=
  for_ m (λ r c,
    for_ n (λ q c,
      for_ k (λ l c,
        x ← load a (r * lda + l);
        y ← load b (l * ldb + q);
        z ← load c (r * ldc + q);
        store c (r * ldc + q) (z + x * y)%S) c) c) c.

(** [ExecInputGrad<acc_input>(batch, oc, ic, input_grad, output_grad, weight,
    context)]; the workspace obtained from [context] only backs [pack_a] and
    [pack_b]. *)
Definition ExecInputGrad (acc_input : bool) (batch oc ic : nat)
    (input_grad output_grad weight : list R) : option (list R) :=
  input_grad ← (if negb acc_input then memset0 input_grad (batch * ic)
                else Some input_grad);
  GemmFloatPackAB batch ic oc output_grad oc weight ic input_grad ic.

(** The general path of [ExecBiasGrad] (lines 77-95): what runs when the
    fast path of lines 73-76 does not return early. *)
Definition ExecBiasGrad_general (acc_bias : bool) (batch oc : nat)
    (bias_grad output_grad : list R) : option (list R) :=
  bias_grad ← (if negb acc_bias then memset0 bias_grad (batch * oc)
               else Some bias_grad);
  for_ batch (λ b bias_grad,
    let dst_ptr := 0 in
    let src_ptr := b * oc in
    bias_grad ← for_step4 (oc - 3) (λ n bias_grad,
      ug ← Float4_load output_grad (src_ptr + n);
      d ← Float4_load bias_grad (dst_ptr + n);
      Float4_save bias_grad (dst_ptr + n) (Float4_add ug d)) bias_grad;
    let remain := oc mod 4 in
    let dst_ptr := dst_ptr + shl2_shr2 oc in
    let src_ptr := src_ptr + shl2_shr2 oc in
    for_ remain (λ n bias_grad,
      d ← load bias_grad (dst_ptr + n);
      s ← load output_grad (src_ptr + n);
      store bias_grad (dst_ptr + n) (d + s)%S) bias_grad)
    bias_grad.

(** [ExecBiasGrad<acc_bias>(batch, oc, bias_grad, output_grad)]. *)
Definition ExecBiasGrad (acc_bias : bool) (batch oc : nat)
    (bias_grad output_grad : list R) : option (list R) :=
  if bool_decide (batch = 1) && negb acc_bias
  then memcpy bias_grad output_grad (batch * oc)
  else ExecBiasGrad_general acc_bias batch oc bias_grad output_grad.

(** What [ON_GRAD_PREPARATION_IOR(1, 1, 2)] binds before the body of
    [OnGrad] runs (the macro is not in this source tree, and the model
    starts after it): the forward input, the dims of the forward output, the
    output gradient, the three accumulate flags of [grad_info], and the
    results of the three [dynamic_cast]s ([None] is the null pointer). *)
Record OnGradArgs := mkOnGradArgs {
  input_0 : Blob R;
  output_0_dims : DimsVector;
  output_grad_0 : list R;
  acc_input_grad_0 : bool;
  acc_resource_grad_0 : bool;
  acc_resource_grad_1 : bool;
  arm_context : option unit;
  inner_product_param : option InnerProductLayerParam;
  inner_product_res : option (InnerProductLayerResource R)
}.

(** The three destinations: [input_grad_0], [resource_grad_0] (weight) and
    [resource_grad_1] (bias). *)
Record GradDest := mkGradDest {
  input_grad_0 : list R;
  resource_grad_0 : list R;
  resource_grad_1 : list R
}.

(** Modelled from the spec: [CHECK_PARAM_NULL], a macro of [tnn/core/macro.h]
    that is not in this source tree; "NullResource (required parameter/param
    object absent)", returned to the caller. *)
Definition CHECK_PARAM_NULL_status : Status :=
  mkStatus TNNERR_PARAM_ERR "Error: param is nil".

Section OnGrad.
(** [DimsFunctionUtils::GetDim] and [RawBuffer::GetDataCount] are not in this
    source tree and are parameters of the model. *)
Variable GetDim : DimsVector → nat → nat.
Variable GetDataCount : RawBuffer R → nat.

(** [ArmInnerProductLayerGrad::OnGrad], from line 103 on: the status
    returned and the contents of the three destinations.  The element count
    test of line 117 is computed on [int]s. *)
Definition OnGrad (args : OnGradArgs) (dst : GradDest) : option (Status * GradDest) :=
  match arm_context args with
  | None => Some (CHECK_PARAM_NULL_status, dst)
  | Some _ =>
  match inner_product_param args with
  | None => Some (CHECK_PARAM_NULL_status, dst)
  | Some param =>
  match inner_product_res args with
  | None => Some (CHECK_PARAM_NULL_status, dst)
  | Some res =>
    let weight := weight_handle res in
    let input_0_dims := dims (blob_desc (input_0 args)) in
    let batch := GetDim input_0_dims 0 in
    let ic := Count input_0_dims 1 in
    let oc := GetDim (output_0_dims args) 1 in
    if decide (as_int (GetDataCount weight) ≠ int_mul (as_int oc) (as_int ic))
    then Some (mkStatus TNNERR_TRAIN_ERROR "weight data count error", dst)
    else if decide (data_type (blob_desc (input_0 args)) = DATA_TYPE_FLOAT)
    then
      let input_ptr := blob_data (input_0 args) in
      let weight_ptr := buffer_data weight in
      let output_grad_ptr := output_grad_0 args in
      input_grad ← ExecInputGrad (acc_input_grad_0 args) batch oc ic
                     (input_grad_0 dst) output_grad_ptr weight_ptr;
      weight_grad ← ExecWeightGrad (acc_resource_grad_0 args) batch oc ic
                      (resource_grad_0 dst) output_grad_ptr input_ptr;
      bias_grad ← (if has_bias param
                   then ExecBiasGrad (acc_resource_grad_1 args) batch oc
                          (resource_grad_1 dst) output_grad_ptr
                   else Some (resource_grad_1 dst));
      Some (Status_OK, mkGradDest input_grad weight_grad bias_grad)
    else Some (mkStatus TNNERR_TRAIN_ERROR "dtype not supported", dst)
  end end end.

End OnGrad.
End Kernels.
End Arm.

(** ** The layout converter, as the gradient engine uses it *)

Section Layout.
Context `{Scalar R}.

(** The channel count rounded up to the pack width 4. *)
Definition round_up4 (c : nat) : nat := (c + 3) / 4 * 4.

(** Offset, in the channel-blocked-by-4 layout, of the element at canonical
    offset [q] of a tensor with [C] channels of [HW] elements each. *)
Definition nc4hw4_offset (C HW q : nat) : nat :=
  let n := q / (C * HW) in
  let c := (q / HW) mod C in
  let s := q mod HW in
  n * (round_up4 C * HW) + (c / 4) * (HW * 4) + s * 4 + c mod 4.

(** Offset, in the canonical layout, of the element at packed offset [p], or
    [None] for a padding lane. *)
Definition nchw_offset (C HW p : nat) : option nat :=
  let n := p / (round_up4 C * HW) in
  let c := (p / (HW * 4)) mod (round_up4 C / 4) * 4 + p mod 4 in
  let s := (p / 4) mod HW in
  if decide (c < C) then Some (n * (C * HW) + c * HW + s) else None.

(** Modelled from the spec: the unpacking direction of the Layout Converter,
    [toCanonical]; "a pure permutation/copy (channel interleave/deinterleave
    by block size, e.g. 4)" that "truncates on unpacking". *)
Definition UnpackC4 (d : DimsVector) (src : list R) : list R :=
  let C := default 1 (d !! 1) in
  let HW := Count d 2 in
  (λ q, src !!! nc4hw4_offset C HW q) <$> seq 0 (Count d 0).

(** Modelled from the spec: the packing direction of the Layout Converter,
    [toPacked]; "when the channel count is not a multiple of the pack width,
    the converter pads with a defined neutral element (zero) on the packed
    side". *)
Definition PackC4 (d : DimsVector) (src : list R) : list R :=
  let N := default 1 (d !! 0) in
  let C := default 1 (d !! 1) in
  let HW := Count d 2 in
  (λ p, match nchw_offset C HW p with
        | Some q => src !!! q
        | None => sc0
        end) <$> seq 0 (N * (round_up4 C * HW)).

(** Modelled from the spec: [ConvertToNCHW(src_ptr, dst, desc)] of
    [tnn/train/grad/utils.h], which is not in this source tree.  "Every
    gradient computation must re-express operator inputs/outputs/weights in
    canonical layout before the arithmetic": the pointer handed in designates
    the canonical-layout data afterwards ([dst] owns the converted copy). *)
Definition ConvertToNCHW (src_ptr : list R) (d : DimsVector) (f : DataFormat) : list R :=
  match f with
  | DATA_FORMAT_NCHW => src_ptr
  | DATA_FORMAT_NC4HW4 => UnpackC4 d src_ptr
  end.

(** Modelled from the spec: the [RawBuffer(bytes_size, dims)] constructor,
    "allocate(dims, dtype, layout) -> RawBuffer zero-fills"; the source relies
    on it ("already init with 0.0").  A buffer of [bytes] bytes shows
    [bytes / sizeof(float)] floats. *)
Definition new_RawBuffer (bytes : nat) (d : DimsVector) : RawBuffer R :=
  mkRawBuffer bytes d DATA_TYPE_FLOAT DATA_FORMAT_NCHW (replicate (bytes / 4) sc0).

(** Modelled from the spec: [ConvertToNC4HW4(src, desc)] of
    [tnn/train/grad/utils.h]; "results are converted back to the tensor's
    resident layout before being handed to the caller". *)
Definition ConvertToNC4HW4 (src : RawBuffer R) (desc : BlobDesc) : RawBuffer R :=
  match data_format desc with
  | DATA_FORMAT_NCHW => src
  | DATA_FORMAT_NC4HW4 =>
      let packed := PackC4 (dims desc) (buffer_data src) in
      mkRawBuffer (length packed * 4) (buffer_dims src) (buffer_type src)
                  DATA_FORMAT_NC4HW4 packed
  end.

(** [RawBuffer::SetDataType] and [RawBuffer::SetDataFormat]: they retag
    the buffer. *)
Definition SetDataType (b : RawBuffer R) (t : DataType) : RawBuffer R :=
  mkRawBuffer (bytes_size b) (buffer_dims b) t (buffer_format b) (buffer_data b).

Definition SetDataFormat (b : RawBuffer R) (f : DataFormat) : RawBuffer R :=
  mkRawBuffer (bytes_size b) (buffer_dims b) (buffer_type b) f (buffer_data b).

End Layout.

(** ** The device-independent inner-product gradient
    ([inner_product_layer_grad.cc]) *)

Module Train.

(** [LayerParam] and [LayerResource], the polymorphic bases that
    [dynamic_cast] tells apart: an inner-product payload or another one. *)
Inductive LayerParam :=
  | InnerProductParam (p : InnerProductLayerParam)
  | OtherLayerParam.

Inductive LayerResource (R : Type) :=
  | InnerProductResource (r : InnerProductLayerResource R)
  | OtherLayerResource.
Arguments InnerProductResource {R} _.
Arguments OtherLayerResource {R}.

(** [BaseLayer]: the members [OnGrad] reads; [None] is a null [param_] or
    [resource_]. *)
Record BaseLayer (R : Type) := mkBaseLayer {
  input_blobs_ : list (Blob R);
  output_blobs_ : list (Blob R);
  param_ : option LayerParam;
  resource_ : option (LayerResource R)
}.
Arguments input_blobs_ {R} _.
Arguments output_blobs_ {R} _.
Arguments param_ {R} _.
Arguments resource_ {R} _.

(** [dynamic_cast<InnerProductLayerParam *>(layer->param_)]. *)
Definition cast_param (p : option LayerParam) : option InnerProductLayerParam :=
  match p with
  | Some (InnerProductParam ip) => Some ip
  | _ => None
  end.

(** [dynamic_cast<InnerProductLayerResource *>(layer->resource_)]. *)
Definition cast_resource {R} (r : option (LayerResource R))
  : option (InnerProductLayerResource R) :=
  match r with
  | Some (InnerProductResource ir) => Some ir
  | _ => None
  end.

(** [Status(TNN_TRAIN_ERROR, msg)]. *)
Definition error (msg : string) : Status := mkStatus TNN_TRAIN_ERROR msg.

Section OnGrad.
Context `{Scalar R}.

(** [TrainContext] and [UpdateGradValue] are declared in headers that are
    not in this source tree; they are parameters of the model.
    [backward_grads_blob] is the map from a blob (its address) to its
    gradient buffer, [UpdateGradValue] hands a computed gradient over for a
    blob, [UpdateGradValue_resource] for a resource handle. *)
Variable TrainContext : Type.
Variable backward_grads_blob : TrainContext → gmap nat (RawBuffer R).
Variable UpdateGradValue : Blob R → RawBuffer R → TrainContext → TrainContext.
Variable UpdateGradValue_resource :
  RawBuffer R → RawBuffer R → TrainContext → TrainContext.

(** The state of the summation loops: [weight_grad_ptr_float],
    [input_grad_ptr_float] and [bias_grad_ptr_float] (empty when the layer
    has no bias). *)
Definition GradBuffers : Type := list R * list R * list R.

(** Lines 109-121: the three nested loops of the float branch. *)
Definition grad_loops (has_bias : bool) (input_batch input_count output_count : nat)
    (output_grad_ptr_float input_ptr_float weight_ptr_float : list R)
    (bufs : GradBuffers) : option GradBuffers :=
  for_ output_count (λ j bufs,
    for_ input_count (λ k bufs,
      for_ input_batch (λ i '(weight_grad, input_grad, bias_grad),
        g ← load output_grad_ptr_float (i * output_count + j);
        x ← load input_ptr_float (i * input_count + k);
        w0 ← load weight_grad (j * input_count + k);
        weight_grad ← store weight_grad (j * input_count + k) (w0 + g * x)%S;
        w ← load weight_ptr_float (j * input_count + k);
        g0 ← load input_grad (i * input_count + k);
        input_grad ← store input_grad (i * input_count + k) (g0 + g * w)%S;
        bias_grad ← (if has_bias && bool_decide (k = 0)
                     then b0 ← load bias_grad j; store bias_grad j (b0 + g)%S
                     else Some bias_grad);
        Some (weight_grad, input_grad, bias_grad)) bufs) bufs) bufs.

(** [InnerProductLayerGrad::OnGrad(layer, context)]: the status returned
    and the context left behind.  The source builds the bias buffer of lines
    87-92 under [has_bias]; here it is built always and used under
    [has_bias].  The converted forward output ([output_ptr], line 82) is not
    read again, as in the source; the conversions themselves are taken to
    succeed.  The weight size test of lines 59-60 is computed on [int]s. *)
Definition OnGrad (layer : BaseLayer R) (context : TrainContext)
  : option (Status * TrainContext) :=
  match input_blobs_ layer, output_blobs_ layer with
  | [input0], [output0] =>
    let input0_desc := blob_desc input0 in
    let output_desc := blob_desc output0 in
    let input0_data_type := data_type input0_desc in
    let output_data_type := data_type output_desc in
    let input0_dims := dims input0_desc in
    if decide ((output_data_type ≠ DATA_TYPE_BFP16 ∧ output_data_type ≠ DATA_TYPE_FLOAT)
               ∨ input0_data_type ≠ output_data_type)
    then Some (error "output datatype not match in InnerProductLayerGrad", context)
    else
    match cast_param (param_ layer), cast_resource (resource_ layer) with
    | Some layer_param, Some resource =>
      match backward_grads_blob context !! blob_addr output0 with
      | None => Some (error "InnerProductLayerGrad output grad not found", context)
      | Some output_grad =>
        input_batch ← input0_dims !! 0;
        let input_count := Count input0_dims 1 in
        let output_count := num_output layer_param in
        let weight_data_type := buffer_type (weight_handle resource) in
        if decide (weight_data_type ≠ DATA_TYPE_FLOAT)
        then Some (error "InnerProductLayerGrad resource don't support ", context)
        else
        let weight_dims := [output_count; input_count] in
        if decide (int_mul (int_mul (as_int output_count) (as_int input_count))
                     (as_int (GetBytesSize weight_data_type))
                   ≠ as_int (bytes_size (weight_handle resource)))
        then Some (error "InnerProductLayerGrad weight dims error", context)
        else
        let input_grad :=
          new_RawBuffer (Count input0_dims 0 * GetBytesSize input0_data_type)
                        input0_dims in
        let weight_grad :=
          new_RawBuffer (bytes_size (weight_handle resource)) weight_dims in
        let input_ptr :=
          ConvertToNCHW (blob_data input0) input0_dims (data_format input0_desc) in
        let output_ptr :=
          ConvertToNCHW (blob_data output0) (dims output_desc)
                        (data_format output_desc) in
        let output_grad_ptr :=
          ConvertToNCHW (buffer_data output_grad) (buffer_dims output_grad)
                        (buffer_format output_grad) in
        let weight_ptr := buffer_data (weight_handle resource) in
        let bias_dims := [output_count] in
        let bias_grad :=
          new_RawBuffer (Count bias_dims 0
                         * GetBytesSize (buffer_type (bias_handle resource)))
                        bias_dims in
        if decide (input0_data_type = DATA_TYPE_FLOAT)
        then
          '(weight_grad_f, input_grad_f, bias_grad_f) ←
            grad_loops (has_bias layer_param) input_batch input_count output_count
              output_grad_ptr input_ptr weight_ptr
              (buffer_data weight_grad, buffer_data input_grad,
               if has_bias layer_param then buffer_data bias_grad else []);
          let input_grad :=
            mkRawBuffer (bytes_size input_grad) (buffer_dims input_grad)
              (buffer_type input_grad) (buffer_format input_grad) input_grad_f in
          let weight_grad :=
            mkRawBuffer (bytes_size weight_grad) (buffer_dims weight_grad)
              (buffer_type weight_grad) (buffer_format weight_grad) weight_grad_f in
          let bias_grad :=
            mkRawBuffer (bytes_size bias_grad) (buffer_dims bias_grad)
              (buffer_type bias_grad) (buffer_format bias_grad) bias_grad_f in
          let input_grad := ConvertToNC4HW4 input_grad input0_desc in
          let input_grad := SetDataType input_grad input0_data_type in
          let input_grad := SetDataFormat input_grad (data_format input0_desc) in
          let context := UpdateGradValue input0 input_grad context in
          let weight_grad := SetDataType weight_grad weight_data_type in
          let weight_grad :=
            SetDataFormat weight_grad (buffer_format (weight_handle resource)) in
          let context :=
            UpdateGradValue_resource (weight_handle resource) weight_grad context in
          let context :=
            if has_bias layer_param
            then
              let bias_grad :=
                SetDataType bias_grad (buffer_type (bias_handle resource)) in
              let bias_grad :=
                SetDataFormat bias_grad (buffer_format (bias_handle resource)) in
              UpdateGradValue_resource (bias_handle resource) bias_grad context
            else context in
          Some (Status_OK, context)
        else Some (error "InnerProductLayerGrad don't support bft16 for now", context)
      end
    | _, _ => Some (error "InnerProductLayerGrad param or resource missing", context)
    end
  | _, _ =>
    Some (error "input size or output size not match in InnerProductLayerGrad", context)
  end.

End OnGrad.
End Train.

(** ** The x86 unary kernel registry ([x86_unary2_layer_acc.cc]) *)

Module X86.
Section Registry.
(** [LayerType], [LayerParam] and the element type are declared outside
    this source tree; the registry only compares and stores them. *)
Context {LayerType : Type} `{Countable LayerType}.
Context {LayerParam F : Type}.

(** What a kernel does to the destination tensor when it is called as
    [kernel(dims, src, dst, param)]; [src] is [const]. *)
Definition kernel_body : Type := DimsVector → list F → list F → LayerParam → list F.

(** [unary2_kernel_avx_func_t], a function pointer: [None] is [nullptr]. *)
Definition unary2_kernel_avx_func_t : Type := option kernel_body.

(** The function-local static [kernel_map] behind [GetUnary2KernelMap()] is
    a [gmap LayerType unary2_kernel_avx_func_t], threaded explicitly. *)

(** [RegisterUnary2Kernel(type, kernel)]: [kernel_map[type] = kernel]. *)
Definition RegisterUnary2Kernel (type : LayerType) (kernel : unary2_kernel_avx_func_t)
    (kernel_map : gmap LayerType unary2_kernel_avx_func_t)
  : Status * gmap LayerType unary2_kernel_avx_func_t :=
  (Status_OK, <[type := kernel]> kernel_map).

(** The status of a failed lookup. *)
Definition kernel_not_found : Status :=
  mkStatus TNNERR_PARAM_ERR "X86Unary2LayerAcc can not find unary kernel".

(** [GetUnary2Kernel(type, kernel)]: the status and the contents of the
    reference parameter [kernel] on return. *)
Definition GetUnary2Kernel (kernel_map : gmap LayerType unary2_kernel_avx_func_t)
    (type : LayerType)
    (kernel : unary2_kernel_avx_func_t) : Status * unary2_kernel_avx_func_t :=
  match kernel_map !! type with
  | None | Some None => (kernel_not_found, kernel)
  | Some (Some k) => (Status_OK, Some k)
  end.

(** What a dispatch leaves behind: the destination tensor and the number of
    kernel invocations it made. *)
Record Dispatched := mkDispatched { dst_after : list F; invocations : nat }.

(** [X86_UNARY2_CALCULATE(dims, src, dst, type, param)].  [RETURN_ON_NEQ]
    (a macro outside this source tree) returns the status when it differs
    from [TNN_OK]; calling a null function pointer is a fault. *)
Definition X86_UNARY2_CALCULATE (kernel_map : gmap LayerType unary2_kernel_avx_func_t)
    (d : DimsVector)
    (src dst : list F) (type : LayerType) (param : LayerParam)
  : option (Status * Dispatched) :=
  let unary2_kernel_func : unary2_kernel_avx_func_t := None in
  let '(status, unary2_kernel_func) :=
    GetUnary2Kernel kernel_map type unary2_kernel_func in
  if decide (code status ≠ TNN_OK) then Some (status, mkDispatched dst 0)
  else
    match unary2_kernel_func with
    | None => None
    | Some kernel => Some (Status_OK, mkDispatched (kernel d src dst param) 1)
    end.

(** The function-local static [kernel_map] of [GetUnary2KernelMap()] as its
    first call constructs it: the empty map. *)
Definition kernel_map_at_start : gmap LayerType unary2_kernel_avx_func_t := ∅.

(** A sequence of [RegisterUnary2Kernel] calls, first to last, on the map
    they share. *)
Definition register_all (regs : list (LayerType * unary2_kernel_avx_func_t))
    (kernel_map : gmap LayerType unary2_kernel_avx_func_t)
  : gmap LayerType unary2_kernel_avx_func_t :=
  foldl (λ kernel_map r, (RegisterUnary2Kernel r.1 r.2 kernel_map).2) kernel_map regs.

(** The pointer given by the last of the calls [regs] that registers
    [type], if one of them does. *)
Definition last_registered (type : LayerType)
    (regs : list (LayerType * unary2_kernel_avx_func_t))
  : option unary2_kernel_avx_func_t :=
  snd <$> list.last (filter (λ r, r.1 = type) regs).

(** [X86Unary2LayerAcc::Init]: the status of the base class's [Init], a
    parameter here, goes through [RETURN_ON_NEQ]. *)
Definition Init (X86LayerAcc_Init : Status) : Status :=
  if decide (code X86LayerAcc_Init ≠ TNN_OK) then X86LayerAcc_Init else Status_OK.

(** [X86Unary2LayerAcc::Reshape]. *)
Definition Reshape (inputs outputs : list (Blob F)) : Status := Status_OK.

Section DoForward.
(** The floats at [blob->GetHandle().base]; [DoForward] does not add the
    handle's [bytes_offset]. *)
Variable base : Blob F → list F.

(** [X86Unary2LayerAcc::DoForward(inputs, outputs)] of a layer whose members
    [type_] and [param_] are as given: the status returned, and what the
    dispatch left at the output's [base].  [inputs[0]] and [outputs[0]] are
    unchecked accesses; the status of [X86_UNARY2_CALCULATE] is dropped. *)
Definition DoForward (kernel_map : gmap LayerType unary2_kernel_avx_func_t)
    (type_ : LayerType) (param_ : LayerParam) (inputs outputs : list (Blob F))
  : option (Status * Dispatched) :=
  input ← inputs !! 0;
  output ← outputs !! 0;
  let d := dims (blob_desc output) in
  let count := Count d 0 in
  let input_data := base input in
  let output_data := base output in
  '(_, r) ← X86_UNARY2_CALCULATE kernel_map d input_data output_data type_ param_;
  Some (Status_OK, r).

End DoForward.

End Registry.
End X86.

(** ** The numeric contract and the scalar references *)

Section Contract.
Context `{Scalar R}.

(** [m[r,c]] for a row-major matrix with rows of [stride] elements (zero
    outside the buffer). *)
Definition at2 (m : list R) (stride r c : nat) : R := m !!! (r * stride + c).

(** [weight_grad[o,i] = Σ_b output_grad[b,o] * input[b,i]]. *)
Definition weight_grad_sum (batch oc ic : nat) (output_grad input : list R)
    (o i : nat) : R :=
  sum_upto batch (λ b, at2 output_grad oc b o * at2 input ic b i)%S.

(** [input_grad[b,i] = Σ_o output_grad[b,o] * weight[o,i]]. *)
Definition input_grad_sum (oc ic : nat) (output_grad weight : list R)
    (b i : nat) : R :=
  sum_upto oc (λ o, at2 output_grad oc b o * at2 weight ic o i)%S.

(** [bias_grad[o] = Σ_b output_grad[b,o]]. *)
Definition bias_grad_sum (batch oc : nat) (output_grad : list R) (o : nat) : R :=
  sum_upto batch (λ b, at2 output_grad oc b o).

(** The destination contents a gradient starts from: what is there when the
    flag says accumulate, zero otherwise. *)
Definition dest_init (acc : bool) (dest : list R) (p : nat) : R :=
  if acc then dest !!! p else sc0.

(** The naive scalar reference for the weight gradient: the loop nest of
    [ExecWeightGrad] with one scalar loop over all [ic] columns. *)
Definition weight_grad_reference (acc_weight : bool) (batch oc ic : nat)
    (weight_grad output_grad input : list R) : option (list R) :=
  weight_grad ← (if negb acc_weight then memset0 weight_grad (oc * ic)
                 else Some weight_grad);
  for_ batch (λ b weight_grad,
    for_ oc (λ i weight_grad,
      for_ ic (λ j weight_grad,
        w ← load weight_grad (ic * i + j);
        x ← load input (ic * b + j);
        o ← load output_grad (oc * b + i);
        store weight_grad (ic * i + j) (w + x * o)%S) weight_grad)
      weight_grad)
    weight_grad.

(** The naive scalar reference for the bias gradient: clear the [oc]
    elements unless accumulating, then add each batch row. *)
Definition bias_grad_reference (acc_bias : bool) (batch oc : nat)
    (bias_grad output_grad : list R) : option (list R) :=
  bias_grad ← (if negb acc_bias then memset0 bias_grad oc else Some bias_grad);
  for_ batch (λ b bias_grad,
    for_ oc (λ n bias_grad,
      d ← load bias_grad n;
      s ← load output_grad (b * oc + n);
      store bias_grad n (d + s)%S) bias_grad)
    bias_grad.

(** The buffer of [n] elements whose element [p] is [f p]. *)
Definition tabulate (n : nat) (f : nat → R) : list R := f <$> seq 0 n.

(** The row-major [rows × cols] matrix whose element [(r, c)] is [F r c]. *)
Definition tab2 (rows cols : nat) (F : nat → nat → R) : list R :=
  tabulate (rows * cols) (λ p, F (p / cols) (p mod cols)).

(** [v + v], the double of a gradient buffer. *)
Definition double (v : list R) : list R := (λ x, x + x)%S <$> v.

(** Two calls into one destination, which held [d0] before the first call,
    [d1] after it and [d2] after the second, for a gradient [grad].  With
    the accumulate flag the two calls add the gradient twice to what was
    there, which on a zero-initialised destination is the double of the
    single-call result; without it the second call changes nothing. *)
Definition two_calls (acc : bool) (d0 d1 d2 grad : list R) : Prop :=
  if acc
  then d2 = tabulate (length d0) (λ p, d0 !!! p + grad !!! p + grad !!! p)%S
       ∧ (d0 = replicate (length d0) sc0 → d2 = double d1)
  else d2 = d1.

End Contract.

(** ** Sample tensors and a recording context

    Concrete data, over the integers, on which the engines are run in the
    examples below. *)

(** A training context that keeps the upstream gradients and records the
    buffers handed to [UpdateGradValue], in order. *)
Record Recorder := mkRecorder {
  upstream : gmap nat (RawBuffer Z);
  handed : list (RawBuffer Z)
}.

Definition record_blob (b : Blob Z) (g : RawBuffer Z) (c : Recorder) : Recorder :=
  mkRecorder (upstream c) (handed c ++ [g]).

Definition record_resource (r g : RawBuffer Z) (c : Recorder) : Recorder :=
  mkRecorder (upstream c) (handed c ++ [g]).

Definition float_buffer (d : DimsVector) (f : DataFormat) (data : list Z)
  : RawBuffer Z :=
  mkRawBuffer (length data * 4) d DATA_TYPE_FLOAT f data.

(** An inner-product layer with input blob 1 (dims [d], layout [f], dtype
    [t], contents [x]), output blob 2, [n_out] outputs and weight [w]. *)
Definition sample_layer (t : DataType) (f : DataFormat) (d : DimsVector)
    (x : list Z) (n_out : nat) (w : list Z) (bias : bool) : Train.BaseLayer Z :=
  Train.mkBaseLayer Z
    [mkBlob 1 (mkBlobDesc d t f) x]
    [mkBlob 2 (mkBlobDesc [default 1 (d !! 0); n_out] t f) []]
    (Some (Train.InnerProductParam (mkInnerProductLayerParam n_out bias)))
    (Some (Train.InnerProductResource
       (mkInnerProductLayerResource Z
          (float_buffer [n_out; Count d 1] DATA_FORMAT_NCHW w)
          (float_buffer [n_out] DATA_FORMAT_NCHW (replicate n_out 0%Z))))).

(** The context in which blob 2 has the upstream gradient [og]. *)
Definition sample_context (og : RawBuffer Z) : Recorder :=
  mkRecorder {[ 2 := og ]} [].

Definition train_OnGrad (layer : Train.BaseLayer Z) (context : Recorder)
  : option (Status * Recorder) :=
  Train.OnGrad Recorder upstream record_blob record_resource layer context.

(** The status of a run and the contents of the buffers it handed over. *)
Definition outcome (r : option (Status * Recorder))
  : option (StatusCode * list (list Z)) :=
  (λ '(st, c), (code st, buffer_data <$> handed c)) <$> r.

Definition sample_GetDim (d : DimsVector) (i : nat) : nat := default 1 (d !! i).

Definition sample_GetDataCount (b : RawBuffer Z) : nat := length (buffer_data b).

(** The arguments of an ARM call on a canonical-layout input of dims [d],
    dtype [t] and contents [x], with [n_out] outputs, weight [w], output
    gradient [g] and the accumulate flags [ai], [aw], [ab]. *)
Definition sample_args (t : DataType) (d : DimsVector) (x : list Z) (n_out : nat)
    (w g : list Z) (bias ai aw ab : bool) : Arm.OnGradArgs (R:=Z) :=
  Arm.mkOnGradArgs
    (mkBlob 1 (mkBlobDesc d t DATA_FORMAT_NCHW) x)
    [default 1 (d !! 0); n_out] g ai aw ab (Some ())
    (Some (mkInnerProductLayerParam n_out bias))
    (Some (mkInnerProductLayerResource Z
       (float_buffer [n_out; Count d 1] DATA_FORMAT_NCHW w)
       (float_buffer [n_out] DATA_FORMAT_NCHW (replicate n_out 0%Z)))).

Definition arm_OnGrad (args : Arm.OnGradArgs) (dst : Arm.GradDest)
  : option (Status * Arm.GradDest) :=
  Arm.OnGrad sample_GetDim sample_GetDataCount args dst.

(** The numbers [1, 2, ..., n]. *)
Definition ramp (n : nat) : list Z := Z.of_nat <$> seq 1 n.

(** The 8 combinations of the input, weight and bias accumulate flags. *)
Definition flag_combinations : list (bool * bool * bool) :=
  [(false, false, false); (false, false, true); (false, true, false);
   (false, true, true); (true, false, false); (true, false, true);
   (true, true, false); (true, true, true)].

(** Two calls of [arm_OnGrad] into the same destinations: the two status
    codes and the destinations after the first and after the second call. *)
Definition arm_twice (args : Arm.OnGradArgs) (d0 : Arm.GradDest)
  : option (StatusCode * StatusCode * Arm.GradDest * Arm.GradDest) :=
  '(st1, d1) ← arm_OnGrad args d0;
  '(st2, d2) ← arm_OnGrad args d1;
  Some (code st1, code st2, d1, d2).

(** The accumulate semantics of the two calls, destination by destination:
    both calls succeed, and a destination holds after the second call the
    double of what it held after the first when its flag is set, and the
    same when it is clear. *)
Definition accumulate_semantics (flags : bool * bool * bool)
    (r : option (StatusCode * StatusCode * Arm.GradDest (R:=Z) * Arm.GradDest (R:=Z)))
  : Prop :=
  let '(ai, aw, ab) := flags in
  match r with
  | Some (c1, c2, d1, d2) =>
      c1 = TNN_OK ∧ c2 = TNN_OK
      ∧ Arm.input_grad_0 d2
        = (if ai then double (Arm.input_grad_0 d1) else Arm.input_grad_0 d1)
      ∧ Arm.resource_grad_0 d2
        = (if aw then double (Arm.resource_grad_0 d1) else Arm.resource_grad_0 d1)
      ∧ Arm.resource_grad_1 d2
        = (if ab then double (Arm.resource_grad_1 d1) else Arm.resource_grad_1 d1)
  | None => False
  end.

(** Run the binds of the [option] monad whose argument is known, leaving
    the index arithmetic as written. *)
Ltac obind := cbn [mbind option_bind negb].

(** * Properties *)

(** ** [int] arithmetic *)

Lemma int32_eq a b : (a mod 2 ^ 32 = b mod 2 ^ 32)%Z → int32 a = int32 b.
Proof.
  intros Hab. unfold int32. f_equal.
  rewrite <- (Z.add_mod_idemp_l a), <- (Z.add_mod_idemp_l b) by done.
  by rewrite Hab.
Qed.

Lemma int32_mod z : (int32 z mod 2 ^ 32 = z mod 2 ^ 32)%Z.
Proof.
  unfold int32. rewrite Zminus_mod_idemp_l. f_equal. lia.
Qed.

(** An [int] holds a count below [2 ^ 31] as it is. *)
Lemma as_int_small n : (Z.of_nat n < 2 ^ 31)%Z → as_int n = Z.of_nat n.
Proof.
  intros Hn. unfold as_int, int32.
  rewrite Z.mod_small by lia. lia.
Qed.

(** The product of [int]s is the wrap-around of the product. *)
Lemma int_mul_as_int a b : int_mul (as_int a) (as_int b) = as_int (a * b).
Proof.
  unfold int_mul, as_int. apply int32_eq.
  rewrite Nat2Z.inj_mul, Z.mul_mod, !int32_mod, <- Z.mul_mod by done. done.
Qed.

(** The byte size test lets through a size that is the product. *)
Lemma size_test_passes no ni sz bytes :
  bytes = no * ni * sz →
  int_mul (int_mul (as_int no) (as_int ni)) (as_int sz) = as_int bytes.
Proof. intros ->. by rewrite !int_mul_as_int. Qed.

(** ** Loops and buffers *)

Section LoopFacts.
Context {St : Type}.
Implicit Types (body : nat → St → option St).

Lemma for_from_S lo n body s :
  for_from lo (S n) body s = body lo s ≫= for_from (S lo) n body.
Proof. done. Qed.

Lemma for_from_ext lo n body1 body2 s :
  (∀ i s', lo ≤ i < lo + n → body1 i s' = body2 i s') →
  for_from lo n body1 s = for_from lo n body2 s.
Proof.
  revert lo s. induction n as [|n IH]; intros lo s Hb; [done|]. cbn.
  rewrite Hb by lia. destruct (body2 lo s) as [s'|]; [|done]. cbn.
  apply IH. intros i s'' Hi. apply Hb. lia.
Qed.

Lemma for_from_shift lo n body s :
  for_from (S lo) n body s = for_from lo n (λ i, body (S i)) s.
Proof.
  revert lo s. induction n as [|n IH]; intros lo s; [done|]. cbn.
  destruct (body (S lo) s) as [s'|]; [|done]. cbn. apply IH.
Qed.

(** A loop whose [i]-th iteration takes the state [G i] to [G (S i)] takes
    [G lo] to [G (lo + n)]. *)
Lemma for_from_states (G : nat → St) lo n body :
  (∀ i, lo ≤ i < lo + n → body i (G i) = Some (G (S i))) →
  for_from lo n body (G lo) = Some (G (lo + n)).
Proof.
  revert lo. induction n as [|n IH]; intros lo Hb.
  - by rewrite Nat.add_0_r.
  - cbn. rewrite Hb by lia. cbn. rewrite IH.
    + f_equal. f_equal. lia.
    + intros i Hi. apply Hb. lia.
Qed.

Lemma for_states (G : nat → St) n body :
  (∀ i, i < n → body i (G i) = Some (G (S i))) →
  for_ n body (G 0) = Some (G n).
Proof.
  intros Hb. unfold for_. rewrite (for_from_states G 0 n); [done|].
  intros i Hi. apply Hb. lia.
Qed.

(** What every successful iteration preserves holds after the loop. *)
Lemma for_from_preserves (P : St → Prop) lo n body s s' :
  (∀ i t t', P t → body i t = Some t' → P t') →
  P s → for_from lo n body s = Some s' → P s'.
Proof.
  intros Hb. revert lo s. induction n as [|n IH]; intros lo s Hs.
  - by intros [= <-].
  - rewrite for_from_S. destruct (body lo s) as [t|] eqn:Ht; [|done].
    apply IH. by eapply Hb.
Qed.

Lemma for_preserves (P : St → Prop) n body s s' :
  (∀ i t t', P t → body i t = Some t' → P t') →
  P s → for_ n body s = Some s' → P s'.
Proof. apply for_from_preserves. Qed.

Lemma for_step4_from_preserves (P : St → Prop) fuel lo hi body s s' :
  (∀ i t t', P t → body i t = Some t' → P t') →
  P s → for_step4_from fuel lo hi body s = Some s' → P s'.
Proof.
  intros Hb. revert lo s. induction fuel as [|fuel IH]; intros lo s Hs.
  - by intros [= <-].
  - cbn [for_step4_from]. case_decide; [|by intros [= <-]].
    destruct (body lo s) as [t|] eqn:Ht; [|done].
    apply IH. by eapply Hb.
Qed.

(** The last iteration of a loop. *)
Lemma for_from_snoc lo n body s :
  for_from lo (S n) body s = for_from lo n body s ≫= body (lo + n).
Proof.
  revert lo s. induction n as [|n IH]; intros lo s.
  - cbn. rewrite Nat.add_0_r. by destruct (body lo s).
  - rewrite (for_from_S lo (S n)), (for_from_S lo n).
    destruct (body lo s) as [t|]; [|done].
    cbn [mbind option_bind]. rewrite IH.
    replace (lo + S n) with (S lo + n) by lia. done.
Qed.

Lemma for_snoc n body s : for_ (S n) body s = for_ n body s ≫= body n.
Proof. apply for_from_snoc. Qed.

(** The stride-4 loop runs [body] at [lo], [lo + 4], ... *)
Lemma for_step4_from_blocks q fuel lo hi body s :
  q ≤ fuel → hi ≤ lo + 4 * q → (0 < q → lo + 4 * (q - 1) < hi) →
  for_step4_from fuel lo hi body s = for_ q (λ t, body (lo + 4 * t)) s.
Proof.
  unfold for_. revert fuel lo s.
  induction q as [|q IH]; intros fuel lo s Hf Hhi Hlast.
  - destruct fuel as [|fuel]; [done|]. cbn. case_decide; [lia|done].
  - destruct fuel as [|fuel]; [lia|].
    rewrite for_from_S. change (for_step4_from (S fuel) lo hi body s)
      with (if decide (lo < hi)
            then body lo s ≫= for_step4_from fuel (lo + 4) hi body else Some s).
    case_decide; [|lia]. rewrite Nat.mul_0_r, Nat.add_0_r.
    destruct (body lo s) as [s'|]; [|done].
    change (for_step4_from fuel (lo + 4) hi body s'
            = for_from 1 q (λ t, body (lo + 4 * t)) s').
    rewrite for_from_shift, (IH fuel (lo + 4) s') by lia.
    apply for_from_ext. intros i s'' _. f_equal. lia.
Qed.

(** [for (j = 0; j < n - 3; j += 4)] makes [n / 4] iterations. *)
Lemma for_step4_blocks n body s :
  for_step4 (n - 3) body s = for_ (n / 4) (λ t, body (4 * t)) s.
Proof.
  unfold for_step4.
  pose proof (Nat.div_mod_eq n 4) as Hn.
  pose proof (Nat.mod_upper_bound n 4) as Hm.
  rewrite (for_step4_from_blocks (n / 4)) by lia. done.
Qed.

End LoopFacts.

Section BufferFacts.
Context `{Scalar R}.
Implicit Types (f g : nat → R) (buf : list R).

Lemma length_tabulate n f : length (tabulate n f) = n.
Proof. unfold tabulate. by rewrite length_fmap, length_seq. Qed.

Lemma lookup_tabulate n f p : p < n → tabulate n f !! p = Some (f p).
Proof.
  intros Hp. unfold tabulate. rewrite list_lookup_fmap, lookup_seq_lt by done. done.
Qed.

Lemma lookup_total_tabulate n f p : p < n → tabulate n f !!! p = f p.
Proof. intros Hp. apply list_lookup_total_correct. by apply lookup_tabulate. Qed.

Lemma tabulate_ext n f g : (∀ p, p < n → f p = g p) → tabulate n f = tabulate n g.
Proof.
  intros Hfg. apply (list_eq_same_length _ _ n); try apply length_tabulate.
  intros p x y Hp. rewrite !lookup_tabulate by done. intros [= <-] [= <-]. auto.
Qed.

Lemma tabulate_self buf : tabulate (length buf) (λ p, buf !!! p) = buf.
Proof.
  apply (list_eq_same_length _ _ (length buf)); [done|apply length_tabulate|].
  intros p x y Hp. rewrite lookup_tabulate by done. intros [= <-] Hy.
  by apply list_lookup_total_correct.
Qed.

Lemma tabulate_replicate n (x : R) : replicate n x = tabulate n (λ _, x).
Proof.
  apply (list_eq_same_length _ _ n);
    [apply length_tabulate|by rewrite length_replicate|].
  intros p y z Hp. rewrite lookup_tabulate, lookup_replicate_2 by done. congruence.
Qed.

Lemma load_tabulate n f p : p < n → load (tabulate n f) p = Some (f p).
Proof. apply lookup_tabulate. Qed.

Lemma load_Some buf p : p < length buf → load buf p = Some (buf !!! p).
Proof. intros Hp. unfold load. by apply list_lookup_lookup_total_lt. Qed.

Lemma load_None buf p : length buf ≤ p → load buf p = None.
Proof. intros Hp. unfold load. by apply lookup_ge_None. Qed.

Lemma store_tabulate n f p v :
  p < n →
  store (tabulate n f) p v = Some (tabulate n (λ q, if decide (q = p) then v else f q)).
Proof.
  intros Hp. unfold store. rewrite length_tabulate. case_decide; [|lia]. f_equal.
  apply (list_eq_same_length _ _ n);
    [apply length_tabulate|by rewrite length_insert, length_tabulate|].
  intros q x y Hq. rewrite lookup_tabulate by done.
  rewrite list_lookup_insert, length_tabulate, lookup_tabulate by done.
  repeat case_decide; intros; simplify_eq; (done || lia).
Qed.

Lemma memset0_tabulate n f k :
  k ≤ n →
  memset0 (tabulate n f) k = Some (tabulate n (λ p, if decide (p < k) then sc0 else f p)).
Proof.
  intros Hk. unfold memset0. rewrite length_tabulate. case_decide; [|lia]. f_equal.
  apply (list_eq_same_length _ _ n); [apply length_tabulate| |].
  { rewrite length_app, length_replicate, length_drop, length_tabulate. lia. }
  intros p x y Hp. rewrite lookup_tabulate by done. case_decide.
  - rewrite lookup_app_l by (by rewrite length_replicate).
    rewrite lookup_replicate_2 by done. congruence.
  - rewrite lookup_app_r by (rewrite length_replicate; lia).
    rewrite length_replicate, lookup_drop.
    replace (k + (p - k)) with p by lia.
    rewrite lookup_tabulate by done. congruence.
Qed.

Lemma memcpy_tabulate n f src k :
  k ≤ n → k ≤ length src →
  memcpy (tabulate n f) src k
  = Some (tabulate n (λ p, if decide (p < k) then src !!! p else f p)).
Proof.
  intros Hk Hs. unfold memcpy. rewrite length_tabulate. case_decide; [|lia]. f_equal.
  apply (list_eq_same_length _ _ n); [apply length_tabulate| |].
  { rewrite length_app, length_take, length_drop, length_tabulate. lia. }
  intros p x y Hp. rewrite lookup_tabulate by done. case_decide.
  - rewrite lookup_app_l by (rewrite length_take; lia).
    rewrite lookup_take_lt by done. intros Hx [= <-].
    by rewrite (list_lookup_total_correct _ _ _ Hx).
  - rewrite lookup_app_r by (rewrite length_take; lia).
    rewrite length_take, Nat.min_l, lookup_drop by lia.
    replace (k + (p - k)) with p by lia.
    rewrite lookup_tabulate by done. congruence.
Qed.

Lemma store_length buf p v buf' :
  store buf p v = Some buf' → length buf' = length buf.
Proof.
  unfold store. case_decide; [|done]. intros [= <-]. apply length_insert.
Qed.

End BufferFacts.



(** ** The kernel registry *)

Section RegistryFacts.
Context {LayerType : Type} `{Countable LayerType}.
Context {LayerParam F : Type}.
Implicit Types
  (km : gmap LayerType (X86.unary2_kernel_avx_func_t (LayerParam:=LayerParam) (F:=F))).
Implicit Types (type : LayerType) (kernel : X86.unary2_kernel_avx_func_t (LayerParam:=LayerParam) (F:=F)).

Lemma GetUnary2Kernel_unregistered km type kernel :
  km !! type = None →
  X86.GetUnary2Kernel km type kernel = (X86.kernel_not_found, kernel).
Proof.
  unfold X86.GetUnary2Kernel, X86.unary2_kernel_avx_func_t in *.
  by intros ->.
Qed.

Lemma GetUnary2Kernel_null km type kernel :
  km !! type = Some None →
  X86.GetUnary2Kernel km type kernel = (X86.kernel_not_found, kernel).
Proof.
  unfold X86.GetUnary2Kernel, X86.unary2_kernel_avx_func_t in *.
  by intros ->.
Qed.

Lemma GetUnary2Kernel_ok km type kernel st k :
  X86.GetUnary2Kernel km type kernel = (st, k) →
  code st = TNN_OK →
  ∃ body, k = Some body ∧ km !! type = Some (Some body) ∧ st = Status_OK.
Proof.
  unfold X86.GetUnary2Kernel, X86.unary2_kernel_avx_func_t in *.
  destruct (km !! type) as [[body|]|] eqn:Hm; intros [= <- <-] Hc;
    try discriminate Hc.
  by exists body.
Qed.

(** C6: for an operator kind with no registered kernel, the lookup fails
    with the kernel-not-found status (and leaves the caller's pointer as it
    was), and the dispatch returns that same status without invoking any
    kernel, the destination tensor being what it was. *)
Theorem unregistered_kind_fails km type :
  km !! type = None →
  (∀ kernel, X86.GetUnary2Kernel km type kernel = (X86.kernel_not_found, kernel))
  ∧ ∀ d (src dst : list F) (param : LayerParam),
      X86.X86_UNARY2_CALCULATE km d src dst type param
      = Some (X86.kernel_not_found, X86.mkDispatched dst 0).
Proof.
  intros Hm. split.
  - intros kernel. by apply GetUnary2Kernel_unregistered.
  - intros d src dst param. unfold X86.X86_UNARY2_CALCULATE.
    by rewrite (GetUnary2Kernel_unregistered _ _ _ Hm).
Qed.

(** C7: registering [f1] and then [f2] for the same kind leaves the map as
    if only [f2] had been registered, and a lookup of the kind then succeeds
    with [f2]. *)
Theorem last_registration_wins km type kernel f1 (f2 : X86.kernel_body) :
  let km1 := (X86.RegisterUnary2Kernel type f1 km).2 in
  let km2 := (X86.RegisterUnary2Kernel type (Some f2) km1).2 in
  km2 = (X86.RegisterUnary2Kernel type (Some f2) km).2
  ∧ km2 !! type = Some (Some f2)
  ∧ X86.GetUnary2Kernel km2 type kernel = (Status_OK, Some f2).
Proof.
  cbn. split_and!.
  - apply insert_insert_eq.
  - apply lookup_insert_eq.
  - unfold X86.GetUnary2Kernel, X86.unary2_kernel_avx_func_t.
    by rewrite lookup_insert_eq.
Qed.

(** C10: a kind registered with the null pointer fails its lookup with the
    very status an unregistered kind gets, and whenever a lookup returns
    [TNN_OK] the pointer it hands back is a kernel, not null; hence the
    dispatch never calls through a null pointer. *)
Theorem lookup_never_null km type kernel :
  X86.GetUnary2Kernel (X86.RegisterUnary2Kernel type None km).2 type kernel
  = X86.GetUnary2Kernel (delete type km) type kernel
  ∧ X86.GetUnary2Kernel (X86.RegisterUnary2Kernel type None km).2 type kernel
    = (X86.kernel_not_found, kernel)
  ∧ (code (X86.GetUnary2Kernel km type kernel).1 = TNN_OK →
     ∃ body, (X86.GetUnary2Kernel km type kernel).2 = Some body)
  ∧ ∀ d (src dst : list F) (param : LayerParam),
      is_Some (X86.X86_UNARY2_CALCULATE km d src dst type param).
Proof.
  assert (Hnull : X86.GetUnary2Kernel (X86.RegisterUnary2Kernel type None km).2
                    type kernel = (X86.kernel_not_found, kernel)).
  { apply GetUnary2Kernel_null. cbn. apply lookup_insert_eq. }
  split_and!.
  - rewrite Hnull. symmetry. apply GetUnary2Kernel_unregistered, lookup_delete_eq.
  - exact Hnull.
  - destruct (X86.GetUnary2Kernel km type kernel) as [st k] eqn:Hg. cbn.
    intros Hc. destruct (GetUnary2Kernel_ok _ _ _ _ _ Hg Hc) as (body & -> & _).
    by exists body.
  - intros d src dst param. unfold X86.X86_UNARY2_CALCULATE.
    destruct (X86.GetUnary2Kernel km type None) as [st k] eqn:Hg.
    case_decide as Hc; [done|].
    assert (Hok : code st = TNN_OK) by (by destruct (code st)).
    destruct (GetUnary2Kernel_ok _ _ _ _ _ Hg Hok) as (body & -> & _). done.
Qed.

End RegistryFacts.

(** ** The ARM kernels *)

Section ArmFacts.
Context `{Scalar R}.
Add Ring scalar_ring_arm : sc_ring.
Implicit Types (f g : nat → R) (buf og input : list R).

Lemma shl2_shr2_id n : Arm.shl2_shr2 n = n.
Proof.
  unfold Arm.shl2_shr2. rewrite Nat.shiftr_div_pow2, Nat.shiftl_mul_pow2.
  change (2 ^ 2) with 4. by rewrite Nat.div_mul.
Qed.

Lemma Float4_load_Some buf k :
  k + 4 ≤ length buf →
  Arm.Float4_load buf k
  = Some (Arm.mkFloat4 (buf !!! k) (buf !!! (k + 1)) (buf !!! (k + 2)) (buf !!! (k + 3))).
Proof.
  intros Hk. unfold Arm.Float4_load. by rewrite !load_Some by lia.
Qed.

Lemma Float4_load_tabulate n f k :
  k + 4 ≤ n →
  Arm.Float4_load (tabulate n f) k
  = Some (Arm.mkFloat4 (f k) (f (k + 1)) (f (k + 2)) (f (k + 3))).
Proof.
  intros Hk. unfold Arm.Float4_load. by rewrite !load_tabulate by lia.
Qed.

Lemma Float4_save_tabulate n f k v :
  k + 4 ≤ n →
  Arm.Float4_save (tabulate n f) k v
  = Some (tabulate n (λ q,
      if decide (q = k) then Arm.lane0 v
      else if decide (q = k + 1) then Arm.lane1 v
      else if decide (q = k + 2) then Arm.lane2 v
      else if decide (q = k + 3) then Arm.lane3 v
      else f q)).
Proof.
  intros Hk. unfold Arm.Float4_save.
  rewrite store_tabulate by lia. obind.
  rewrite store_tabulate by lia. obind.
  rewrite store_tabulate by lia. obind.
  rewrite store_tabulate by lia. f_equal.
  apply tabulate_ext. intros q Hq. repeat case_decide; (done || lia).
Qed.

Lemma Float4_save_length buf k v buf' :
  Arm.Float4_save buf k v = Some buf' → length buf' = length buf.
Proof.
  unfold Arm.Float4_save. intros Hs.
  destruct (store buf k (Arm.lane0 v)) as [b1|] eqn:H1; [|done].
  cbn [mbind option_bind] in Hs.
  destruct (store b1 (k + 1) (Arm.lane1 v)) as [b2|] eqn:H2; [|done].
  cbn [mbind option_bind] in Hs.
  destruct (store b2 (k + 2) (Arm.lane2 v)) as [b3|] eqn:H3; [|done].
  cbn [mbind option_bind] in Hs.
  rewrite (store_length _ _ _ _ Hs), (store_length _ _ _ _ H3),
    (store_length _ _ _ _ H2). by apply store_length in H1.
Qed.

(** Row [i], column [j] of a matrix with rows of [w] elements. *)
Lemma flat_div w i j : j < w → (w * i + j) / w = i.
Proof.
  intros Hj. symmetry. apply (Nat.div_unique _ _ _ j); [done|lia].
Qed.

Lemma flat_mod w i j : j < w → (w * i + j) mod w = j.
Proof.
  intros Hj. symmetry. apply (Nat.mod_unique _ _ i); [done|lia].
Qed.

Lemma flat_div' w i j : j < w → (i * w + j) / w = i.
Proof. intros Hj. rewrite (Nat.mul_comm i w). by apply flat_div. Qed.

Lemma flat_mod' w i j : j < w → (i * w + j) mod w = j.
Proof. intros Hj. rewrite (Nat.mul_comm i w). by apply flat_mod. Qed.

(** *** [ExecInputGrad] *)

Section InputGrad.
Variables (acc : bool) (batch oc ic : nat) (ig og weight : list R).
Hypothesis Hig : length ig = batch * ic.
Hypothesis Hog : length og = batch * oc.
Hypothesis Hw : length weight = oc * ic.

(** Contents once the elements at flat offsets below [k] hold their full
    sums and element [k] the first [l] terms of its sum. *)
Let gemm_partial (k l : nat) : list R :=
  tabulate (batch * ic) (λ p,
    dest_init acc ig p
    + (if decide (p < k) then input_grad_sum oc ic og weight (p / ic) (p mod ic)
       else if decide (p = k)
       then sum_upto l (λ o, at2 og oc (p / ic) o * at2 weight ic o (p mod ic))
       else sc0))%S.

Lemma input_init :
  (if negb acc then memset0 ig (batch * ic) else Some ig) = Some (gemm_partial 0 0).
Proof.
  rewrite <- (tabulate_self ig), Hig. destruct acc; obind.
  - f_equal. apply tabulate_ext. intros p Hp. case_decide; [lia|].
    unfold dest_init. case_decide; cbn [sum_upto]; ring.
  - rewrite memset0_tabulate by done. f_equal. apply tabulate_ext. intros p Hp.
    case_decide; [|lia]. case_decide; [lia|].
    unfold dest_init. case_decide; cbn [sum_upto]; ring.
Qed.

Lemma gemm_next_element k : gemm_partial k oc = gemm_partial (S k) 0.
Proof.
  apply tabulate_ext. intros p Hp.
  repeat case_decide; try lia; try done.
Qed.

Lemma gemm_step r q l :
  r < batch → q < ic → l < oc →
  (x ← load og (r * oc + l);
   y ← load weight (l * ic + q);
   z ← load (gemm_partial (r * ic + q) l) (r * ic + q);
   store (gemm_partial (r * ic + q) l) (r * ic + q) (z + x * y)%S)
  = Some (gemm_partial (r * ic + q) (S l)).
Proof.
  intros Hr Hq Hl. unfold gemm_partial.
  rewrite (load_Some og) by (rewrite Hog; nia). obind.
  rewrite (load_Some weight) by (rewrite Hw; nia). obind.
  rewrite load_tabulate by nia. obind.
  rewrite store_tabulate by nia. f_equal.
  apply tabulate_ext. intros p Hp.
  repeat case_decide; try lia; try done. subst p.
  cbn [sum_upto]. unfold at2. rewrite flat_div', flat_mod' by done. ring.
Qed.

(** The matrix product adds [Σ_o output_grad[b,o] * weight[o,i]] to every
    element of the destination. *)
Lemma ExecInputGrad_correct :
  Arm.ExecInputGrad acc batch oc ic ig og weight
  = Some (tabulate (batch * ic) (λ p,
      dest_init acc ig p
      + input_grad_sum oc ic og weight (p / ic) (p mod ic))%S).
Proof.
  unfold Arm.ExecInputGrad, Arm.GemmFloatPackAB. rewrite input_init. obind.
  replace (gemm_partial 0 0) with (gemm_partial (0 * ic) 0) by (f_equal; lia).
  rewrite (for_states (λ r, gemm_partial (r * ic) 0)).
  - f_equal. apply tabulate_ext. intros p Hp. case_decide; [done|lia].
  - intros r Hr.
    replace (gemm_partial (r * ic) 0) with (gemm_partial (r * ic + 0) 0)
      by (f_equal; lia).
    rewrite (for_states (λ q, gemm_partial (r * ic + q) 0)).
    + do 2 f_equal. lia.
    + intros q Hq.
      rewrite (for_states (λ l, gemm_partial (r * ic + q) l)).
      * rewrite gemm_next_element. do 2 f_equal. lia.
      * intros l Hl. by apply gemm_step.
Qed.

End InputGrad.

(** *** [ExecWeightGrad] *)

Section WeightGrad.
Variables (acc : bool) (batch oc ic : nat) (wg og input : list R).
Hypothesis Hwg : length wg = oc * ic.
Hypothesis Hog : length og = batch * oc.
Hypothesis Hin : length input = batch * ic.

(** The term batch row [b] adds at flat offset [p]. *)
Let term (b p : nat) : R :=
  (at2 og oc b (p / ic) * at2 input ic b (p mod ic))%S.

(** Contents once the rows of batches below [b] are added in full and, of
    batch [b], the flat offsets below [k]. *)
Let partial (b k : nat) : list R :=
  tabulate (oc * ic) (λ p,
    dest_init acc wg p + weight_grad_sum b oc ic og input (p / ic) (p mod ic)
    + (if decide (p < k) then term b p else sc0))%S.

Lemma weight_init :
  (if negb acc then memset0 wg (oc * ic) else Some wg) = Some (partial 0 0).
Proof.
  rewrite <- (tabulate_self wg), Hwg. destruct acc; obind.
  - f_equal. apply tabulate_ext. intros p Hp. case_decide; [lia|].
    unfold dest_init, weight_grad_sum. cbn [sum_upto]. ring.
  - rewrite memset0_tabulate by done. f_equal. apply tabulate_ext. intros p Hp.
    case_decide; [|lia]. case_decide; [lia|].
    unfold dest_init, weight_grad_sum. cbn [sum_upto]. ring.
Qed.

Lemma weight_next_batch b : partial b (oc * ic) = partial (S b) 0.
Proof.
  apply tabulate_ext. intros p Hp. case_decide; [|lia]. case_decide; [lia|].
  unfold weight_grad_sum, term. cbn [sum_upto]. ring.
Qed.

(** One iteration of the width-4 loop. *)
Lemma weight_block b i t :
  b < batch → i < oc → 4 * t + 4 ≤ ic →
  (x0 ← Arm.Float4_load input (ic * b + 4 * t);
   w ← Arm.Float4_load (partial b (ic * i + 4 * t)) (ic * i + 4 * t);
   Arm.Float4_save (partial b (ic * i + 4 * t)) (ic * i + 4 * t)
     (Arm.Float4_add (Arm.Float4_mul (Arm.Float4_splat (og !!! (oc * b + i))) x0) w))
  = Some (partial b (ic * i + 4 * S t)).
Proof.
  intros Hb Hi Ht.
  rewrite (Float4_load_Some input) by (rewrite Hin; nia). obind.
  unfold partial. rewrite Float4_load_tabulate by nia. obind.
  rewrite Float4_save_tabulate by nia. f_equal.
  apply tabulate_ext. intros p Hp.
  cbn [Arm.Float4_add Arm.Float4_mul Arm.Float4_splat
       Arm.lane0 Arm.lane1 Arm.lane2 Arm.lane3].
  assert (Hlane : ∀ l, l < 4 → p = ic * i + 4 * t + l →
            term b p = scmul (og !!! (oc * b + i)) (input !!! (ic * b + 4 * t + l))).
  { intros l Hl ->. unfold term, at2.
    replace (ic * i + 4 * t + l) with (ic * i + (4 * t + l)) by lia.
    rewrite flat_div, flat_mod by lia.
    f_equal; f_equal; lia. }
  repeat case_decide; try lia; subst;
    first [ rewrite (Hlane 0) by lia; rewrite ?Nat.add_0_r; ring
          | rewrite (Hlane 1) by lia; ring
          | rewrite (Hlane 2) by lia; ring
          | rewrite (Hlane 3) by lia; ring
          | done ].
Qed.

Lemma weight_start_row b i : partial b (ic * i) = partial b (ic * i + 4 * 0).
Proof. f_equal. lia. Qed.

(** One iteration of the loop over the rows of [weight_grad], for [ic] a
    multiple of 4: the width-4 loop covers the whole row and the tail is
    empty. *)
Lemma weight_row b i :
  ic mod 4 = 0 → b < batch → i < oc →
  (let o_ptr := oc * b in
   let i_ptr := ic * b in
   let w_ptr := ic * i in
   o ← load og (o_ptr + i);
   let ug := Arm.Float4_splat o in
   weight_grad ← for_step4 (ic - 3) (λ j weight_grad,
     x0 ← Arm.Float4_load input (i_ptr + j);
     w ← Arm.Float4_load weight_grad (w_ptr + j);
     Arm.Float4_save weight_grad (w_ptr + j)
       (Arm.Float4_add (Arm.Float4_mul ug x0) w)) (partial b (ic * i));
   let remain := ic mod 4 in
   let w_ptr := w_ptr + Arm.shl2_shr2 ic in
   for_ remain (λ j weight_grad,
     w ← load weight_grad (w_ptr + j);
     x ← load input (i_ptr + (j + Arm.shl2_shr2 ic));
     o ← load og (o_ptr + i);
     store weight_grad (w_ptr + j) (w + x * o)%S) weight_grad)
  = Some (partial b (ic * S i)).
Proof.
  intros Hic Hb Hi. cbn zeta.
  rewrite load_Some by (rewrite Hog; nia). obind.
  rewrite for_step4_blocks.
  pose proof (Nat.div_mod_eq ic 4) as Hq.
  rewrite weight_start_row, (for_states (λ t, partial b (ic * i + 4 * t))).
  - obind. rewrite Hic. unfold for_. cbn [for_from]. do 2 f_equal. lia.
  - intros t Ht. apply weight_block; [done|done|lia].
Qed.

(** [ExecWeightGrad] for an input width that is a multiple of 4: every
    element receives its sum over the batch, on top of what the flag
    keeps of the destination. *)
Lemma ExecWeightGrad_multiple_of_4 :
  ic mod 4 = 0 →
  Arm.ExecWeightGrad acc batch oc ic wg og input
  = Some (tabulate (oc * ic) (λ p,
      dest_init acc wg p
      + weight_grad_sum batch oc ic og input (p / ic) (p mod ic))%S).
Proof.
  intros Hic. unfold Arm.ExecWeightGrad. rewrite weight_init. obind.
  rewrite (for_states (λ b, partial b 0)).
  - f_equal. apply tabulate_ext. intros p Hp. case_decide; [lia|]. ring.
  - intros b Hb.
    replace (partial b 0) with (partial b (ic * 0)) by (f_equal; lia).
    rewrite (for_states (λ i, partial b (ic * i))).
    + rewrite <- weight_next_batch. do 2 f_equal. lia.
    + intros i Hi. by apply weight_row.
Qed.

(** One iteration of the innermost loop of the scalar reference. *)
Lemma weight_reference_step b i j :
  b < batch → i < oc → j < ic →
  (w ← load (partial b (ic * i + j)) (ic * i + j);
   x ← load input (ic * b + j);
   o ← load og (oc * b + i);
   store (partial b (ic * i + j)) (ic * i + j) (w + x * o)%S)
  = Some (partial b (ic * i + S j)).
Proof.
  intros Hb Hi Hj. unfold partial.
  rewrite load_tabulate by nia. obind.
  rewrite (load_Some input) by (rewrite Hin; nia). obind.
  rewrite (load_Some og) by (rewrite Hog; nia). obind.
  rewrite store_tabulate by nia. f_equal.
  apply tabulate_ext. intros p Hp.
  repeat case_decide; try lia; try done. subst p.
  unfold term, at2. rewrite flat_div, flat_mod by done.
  replace (b * oc + i) with (oc * b + i) by lia.
  replace (b * ic + j) with (ic * b + j) by lia. ring.
Qed.

(** The scalar reference computes the sums for every width. *)
Lemma weight_grad_reference_correct :
  weight_grad_reference acc batch oc ic wg og input
  = Some (tabulate (oc * ic) (λ p,
      dest_init acc wg p
      + weight_grad_sum batch oc ic og input (p / ic) (p mod ic))%S).
Proof.
  unfold weight_grad_reference. rewrite weight_init. obind.
  rewrite (for_states (λ b, partial b 0)).
  - f_equal. apply tabulate_ext. intros p Hp. case_decide; [lia|]. ring.
  - intros b Hb.
    replace (partial b 0) with (partial b (ic * 0)) by (f_equal; lia).
    rewrite (for_states (λ i, partial b (ic * i))).
    + rewrite <- weight_next_batch. do 2 f_equal. lia.
    + intros i Hi.
      replace (partial b (ic * i)) with (partial b (ic * i + 0)) by (f_equal; lia).
      rewrite (for_states (λ j, partial b (ic * i + j))).
      * do 2 f_equal. lia.
      * intros j Hj. by apply weight_reference_step.
Qed.

(** The vectorized path agrees with the scalar reference when the width is
    a multiple of 4. *)
Lemma ExecWeightGrad_reference_multiple_of_4 :
  ic mod 4 = 0 →
  Arm.ExecWeightGrad acc batch oc ic wg og input
  = weight_grad_reference acc batch oc ic wg og input.
Proof.
  intros Hic. by rewrite ExecWeightGrad_multiple_of_4, weight_grad_reference_correct.
Qed.

End WeightGrad.

(** For an input width that is not a multiple of 4 the scalar tail starts
    [ic] elements into the row, one full row too far: on the last row of
    [weight_grad] its first access is past the end of the buffer. *)
Lemma weight_rows_fault oc ic b og input s :
  ic mod 4 ≠ 0 → 0 < oc → length s = oc * ic →
  for_ oc (λ i weight_grad,
    let w_ptr := ic * i in
    o ← load og (oc * b + i);
    let ug := Arm.Float4_splat o in
    weight_grad ← for_step4 (ic - 3) (λ j weight_grad,
      x0 ← Arm.Float4_load input (ic * b + j);
      w ← Arm.Float4_load weight_grad (w_ptr + j);
      Arm.Float4_save weight_grad (w_ptr + j)
        (Arm.Float4_add (Arm.Float4_mul ug x0) w)) weight_grad;
    let remain := ic mod 4 in
    let w_ptr := w_ptr + Arm.shl2_shr2 ic in
    for_ remain (λ j weight_grad,
      w ← load weight_grad (w_ptr + j);
      x ← load input (ic * b + (j + Arm.shl2_shr2 ic));
      o ← load og (oc * b + i);
      store weight_grad (w_ptr + j) (w + x * o)%S) weight_grad) s
  = None.
Proof.
  intros Hic Hoc Hs. cbn zeta.
  set (row := λ i weight_grad, _ : option (list R)).
  assert (Hrow : ∀ i t t', length t = oc * ic → row i t = Some t' →
            length t' = oc * ic).
  { intros i t t' Ht. unfold row.
    destruct (load og (oc * b + i)) as [o|]; [|done]. obind.
    destruct (for_step4 _ _ t) as [t1|] eqn:Ht1; [|done]. obind.
    assert (Hlen : length t1 = oc * ic).
    { revert Ht1. unfold for_step4.
      apply (for_step4_from_preserves (λ u, length u = oc * ic)); [|done].
      intros j u u' Hu. cbv beta.
      destruct (Arm.Float4_load input _) as [x0|]; [|done]. obind.
      destruct (Arm.Float4_load u _) as [w|]; [|done]. obind.
      intros Hsave. by rewrite (Float4_save_length _ _ _ _ Hsave). }
    apply (for_preserves (λ u, length u = oc * ic)); [|done].
    intros j u u' Hu. cbv beta.
    destruct (load u _) as [w|]; [|done]. obind.
    destruct (load input _) as [x|]; [|done]. obind.
    intros Hst. by rewrite (store_length _ _ _ _ Hst). }
  destruct oc as [|oc']; [lia|]. rewrite for_snoc.
  destruct (for_ oc' row s) as [s1|] eqn:Hs1; [|done].
  assert (Hlen1 : length s1 = S oc' * ic).
  { revert Hs1. by apply (for_preserves (λ u, length u = S oc' * ic)). }
  obind. unfold row.
  destruct (load og (S oc' * b + oc')) as [o|]; [|done]. obind.
  destruct (for_step4 _ _ s1) as [s2|] eqn:Hs2; [|done]. obind.
  assert (Hlen2 : length s2 = S oc' * ic).
  { revert Hs2. unfold for_step4.
    apply (for_step4_from_preserves (λ u, length u = S oc' * ic)); [|done].
    intros j u u' Hu. cbv beta.
    destruct (Arm.Float4_load input _) as [x0|]; [|done]. obind.
    destruct (Arm.Float4_load u _) as [w|]; [|done]. obind.
    intros Hsave. by rewrite (Float4_save_length _ _ _ _ Hsave). }
  destruct (ic mod 4) as [|r] eqn:Hr; [done|].
  unfold for_. rewrite for_from_S, shl2_shr2_id.
  rewrite (load_None s2) by (rewrite Hlen2; lia). done.
Qed.

Lemma ExecWeightGrad_remainder_faults acc batch oc ic wg og input :
  ic mod 4 ≠ 0 → 0 < batch → 0 < oc → length wg = oc * ic →
  Arm.ExecWeightGrad acc batch oc ic wg og input = None.
Proof.
  intros Hic Hbatch Hoc Hwg. unfold Arm.ExecWeightGrad.
  destruct (if negb acc then memset0 wg (oc * ic) else Some wg) as [wg0|] eqn:Hinit;
    [|done].
  assert (Hwg0 : length wg0 = oc * ic).
  { destruct acc; cbn [negb] in Hinit; [by injection Hinit as <-|].
    unfold memset0 in Hinit. case_decide; [|done]. injection Hinit as <-.
    rewrite length_app, length_replicate, length_drop. lia. }
  obind. destruct batch as [|batch']; [lia|].
  unfold for_ at 1. rewrite for_from_S.
  pose proof (weight_rows_fault oc ic 0 og input wg0 Hic Hoc Hwg0) as Hrows.
  cbn zeta in Hrows. unfold for_ in Hrows |- *. by rewrite Hrows.
Qed.

(** *** [ExecBiasGrad] *)

Section BiasGrad.
Variables (acc : bool) (batch oc : nat) (bg og : list R).
Hypothesis Hog : length og = batch * oc.
Hypothesis Hbg : oc ≤ length bg.

(** What the general path starts from: it clears [batch * oc] elements
    unless it accumulates. *)
Let bias_init (p : nat) : R :=
  if acc then bg !!! p else if decide (p < batch * oc) then sc0 else bg !!! p.

(** Contents once the batch rows below [b] are added in full and, of row
    [b], the elements below [k]. *)
Let bias_partial (b k : nat) : list R :=
  tabulate (length bg) (λ p,
    bias_init p
    + (if decide (p < oc)
       then bias_grad_sum b oc og p + (if decide (p < k) then at2 og oc b p else sc0)
       else sc0))%S.

Lemma bias_general_init :
  (acc = false → batch * oc ≤ length bg) →
  (if negb acc then memset0 bg (batch * oc) else Some bg) = Some (bias_partial 0 0).
Proof.
  intros Hroom. rewrite <- (tabulate_self bg). destruct acc; obind.
  - f_equal. apply tabulate_ext. intros p Hp. unfold bias_init, bias_grad_sum.
    repeat case_decide; try lia; cbn [sum_upto]; ring.
  - rewrite memset0_tabulate by auto. f_equal. apply tabulate_ext. intros p Hp.
    unfold bias_init, bias_grad_sum.
    repeat case_decide; try lia; cbn [sum_upto]; ring.
Qed.

Lemma bias_next_batch b : bias_partial b oc = bias_partial (S b) 0.
Proof.
  apply tabulate_ext. intros p Hp. unfold bias_grad_sum.
  repeat case_decide; try lia; cbn [sum_upto]; ring.
Qed.

Lemma bias_block b t :
  b < batch → 4 * t + 4 ≤ oc →
  (ug ← Arm.Float4_load og (b * oc + 4 * t);
   d ← Arm.Float4_load (bias_partial b (4 * t)) (0 + 4 * t);
   Arm.Float4_save (bias_partial b (4 * t)) (0 + 4 * t) (Arm.Float4_add ug d))
  = Some (bias_partial b (4 * S t)).
Proof.
  intros Hb Ht. rewrite Nat.add_0_l.
  rewrite (Float4_load_Some og) by (rewrite Hog; nia). obind.
  unfold bias_partial. rewrite Float4_load_tabulate by lia. obind.
  rewrite Float4_save_tabulate by lia. f_equal.
  apply tabulate_ext. intros p Hp.
  cbn [Arm.Float4_add Arm.lane0 Arm.lane1 Arm.lane2 Arm.lane3]. unfold at2.
  repeat case_decide; try lia; subst; try done;
    rewrite ?Nat.add_assoc; ring.
Qed.

(** The general path, for [oc] a multiple of 4. *)
Lemma ExecBiasGrad_general_multiple_of_4 :
  oc mod 4 = 0 → (acc = false → batch * oc ≤ length bg) →
  Arm.ExecBiasGrad_general acc batch oc bg og
  = Some (tabulate (length bg) (λ p,
      bias_init p + (if decide (p < oc) then bias_grad_sum batch oc og p else sc0))%S).
Proof.
  intros Hoc Hroom. unfold Arm.ExecBiasGrad_general.
  rewrite bias_general_init by done. obind.
  pose proof (Nat.div_mod_eq oc 4) as Hq.
  rewrite (for_states (λ b, bias_partial b 0)).
  - f_equal. apply tabulate_ext. intros p Hp.
    repeat case_decide; try lia; ring.
  - intros b Hb. cbn zeta. rewrite for_step4_blocks.
    replace (bias_partial b 0) with (bias_partial b (4 * 0)) by (f_equal; lia).
    rewrite (for_states (λ t, bias_partial b (4 * t))).
    + obind. rewrite Hoc. unfold for_. cbn [for_from].
      rewrite <- bias_next_batch. do 2 f_equal. lia.
    + intros t Ht. apply bias_block; [done|lia].
Qed.

(** The fast path: one batch row copied over the destination, whatever
    [oc] is. *)
Lemma ExecBiasGrad_fast_path :
  batch = 1 → acc = false →
  Arm.ExecBiasGrad acc batch oc bg og
  = Some (tabulate (length bg) (λ p,
      bias_init p + (if decide (p < oc) then bias_grad_sum batch oc og p else sc0))%S).
Proof.
  intros Hbatch Hacc. unfold Arm.ExecBiasGrad. subst batch acc.
  rewrite bool_decide_eq_true_2 by done. cbn [andb negb].
  rewrite <- (tabulate_self bg) at 1.
  rewrite memcpy_tabulate by lia. f_equal. apply tabulate_ext. intros p Hp.
  unfold bias_init, bias_grad_sum, at2.
  repeat case_decide; try lia; cbn [sum_upto]; rewrite ?Nat.mul_0_l, ?Nat.add_0_l; ring.
Qed.

(** [ExecBiasGrad] for [oc] a multiple of 4. *)
Lemma ExecBiasGrad_multiple_of_4 :
  oc mod 4 = 0 → (acc = false → batch * oc ≤ length bg) →
  Arm.ExecBiasGrad acc batch oc bg og
  = Some (tabulate (length bg) (λ p,
      bias_init p + (if decide (p < oc) then bias_grad_sum batch oc og p else sc0))%S).
Proof.
  intros Hoc Hroom.
  destruct (decide (batch = 1 ∧ acc = false)) as [[Hb Ha]|Hgen].
  - by apply ExecBiasGrad_fast_path.
  - unfold Arm.ExecBiasGrad.
    replace (bool_decide (batch = 1) && negb acc) with false.
    + by apply ExecBiasGrad_general_multiple_of_4.
    + symmetry. apply andb_false_iff. destruct acc; [by right|left].
      apply bool_decide_eq_false_2. naive_solver.
Qed.

(** What the scalar reference starts from: it clears the [oc] elements of
    the bias gradient unless it accumulates. *)
Let reference_init (p : nat) : R :=
  if acc then bg !!! p else if decide (p < oc) then sc0 else bg !!! p.

Let reference_partial (b k : nat) : list R :=
  tabulate (length bg) (λ p,
    reference_init p
    + (if decide (p < oc)
       then bias_grad_sum b oc og p + (if decide (p < k) then at2 og oc b p else sc0)
       else sc0))%S.

Lemma bias_reference_step b n :
  b < batch → n < oc →
  (d ← load (reference_partial b n) n;
   s ← load og (b * oc + n);
   store (reference_partial b n) n (d + s)%S)
  = Some (reference_partial b (S n)).
Proof.
  intros Hb Hn. unfold reference_partial.
  rewrite load_tabulate by lia. obind.
  rewrite (load_Some og) by (rewrite Hog; nia). obind.
  rewrite store_tabulate by lia. f_equal.
  apply tabulate_ext. intros p Hp. unfold at2.
  repeat case_decide; try lia; subst; try done; ring.
Qed.

(** The scalar reference computes the sums for every width. *)
Lemma bias_grad_reference_correct :
  bias_grad_reference acc batch oc bg og
  = Some (tabulate (length bg) (λ p,
      reference_init p
      + (if decide (p < oc) then bias_grad_sum batch oc og p else sc0))%S).
Proof.
  unfold bias_grad_reference.
  assert (Hinit : (if negb acc then memset0 bg oc else Some bg)
                  = Some (reference_partial 0 0)).
  { rewrite <- (tabulate_self bg). destruct acc; obind.
    - f_equal. apply tabulate_ext. intros p Hp.
      unfold reference_init, bias_grad_sum.
      repeat case_decide; try lia; cbn [sum_upto]; ring.
    - rewrite memset0_tabulate by done. f_equal. apply tabulate_ext. intros p Hp.
      unfold reference_init, bias_grad_sum.
      repeat case_decide; try lia; cbn [sum_upto]; ring. }
  rewrite Hinit. obind.
  rewrite (for_states (λ b, reference_partial b 0)).
  - f_equal. apply tabulate_ext. intros p Hp.
    repeat case_decide; try lia; ring.
  - intros b Hb. rewrite (for_states (λ n, reference_partial b n)).
    + f_equal. apply tabulate_ext. intros p Hp. unfold bias_grad_sum.
      repeat case_decide; try lia; cbn [sum_upto]; ring.
    + intros n Hn. by apply bias_reference_step.
Qed.

(** The vectorized path agrees with the scalar reference when [oc] is a
    multiple of 4 and the path clears no more than the [oc] elements. *)
Lemma ExecBiasGrad_reference_multiple_of_4 :
  oc mod 4 = 0 → (acc = false → batch = 1) →
  Arm.ExecBiasGrad acc batch oc bg og = bias_grad_reference acc batch oc bg og.
Proof.
  intros Hoc Hone.
  rewrite ExecBiasGrad_multiple_of_4, bias_grad_reference_correct; try done.
  - f_equal. apply tabulate_ext. intros p Hp. unfold bias_init, reference_init.
    destruct acc; [done|]. rewrite Hone by done. rewrite Nat.mul_1_l. done.
  - intros Ha. rewrite Hone by done. lia.
Qed.

End BiasGrad.

(** For [oc] not a multiple of 4 the scalar tail of the general path starts
    [oc] elements into [bias_grad], at its end: the first access of the tail
    is past the end of the buffer. *)
Lemma ExecBiasGrad_general_remainder_faults acc batch oc bg og :
  oc mod 4 ≠ 0 → 0 < batch → length bg = oc →
  Arm.ExecBiasGrad_general acc batch oc bg og = None.
Proof.
  intros Hoc Hbatch Hbg. unfold Arm.ExecBiasGrad_general.
  destruct (if negb acc then memset0 bg (batch * oc) else Some bg) as [bg0|] eqn:Hinit;
    [|done].
  assert (Hbg0 : length bg0 = oc).
  { destruct acc; cbn [negb] in Hinit; [by injection Hinit as <-|].
    unfold memset0 in Hinit. case_decide; [|done]. injection Hinit as <-.
    rewrite length_app, length_replicate, length_drop. lia. }
  obind. destruct batch as [|batch']; [lia|].
  unfold for_ at 1. rewrite for_from_S. cbn zeta.
  destruct (for_step4 _ _ bg0) as [s2|] eqn:Hs2; [|done]. obind.
  assert (Hlen2 : length s2 = oc).
  { revert Hs2. unfold for_step4.
    apply (for_step4_from_preserves (λ u, length u = oc)); [|done].
    intros j u u' Hu. cbv beta.
    destruct (Arm.Float4_load og _) as [x0|]; [|done]. obind.
    destruct (Arm.Float4_load u _) as [w|]; [|done]. obind.
    intros Hsave. by rewrite (Float4_save_length _ _ _ _ Hsave). }
  destruct (oc mod 4) as [|r] eqn:Hr; [done|].
  unfold for_. rewrite for_from_S, shl2_shr2_id.
  rewrite (load_None s2) by (rewrite Hlen2; lia). done.
Qed.

End ArmFacts.

(** *** The single-row copy path of [ExecBiasGrad] *)

Section BiasFastPath.
Context `{Scalar R}.
Add Ring scalar_ring_fast_path : sc_ring.


End BiasFastPath.

(** ** The layout converter *)

Section LayoutFacts.
Context `{Scalar R}.

Lemma round_up4_blocks C : round_up4 C = (C + 3) / 4 * 4 ∧ round_up4 C / 4 = (C + 3) / 4.
Proof. unfold round_up4. split; [done|]. by rewrite Nat.div_mul. Qed.

Lemma packed_offset_roundtrip N C HW q :
  q < N * (C * HW) →
  nc4hw4_offset C HW q < N * (round_up4 C * HW)
  ∧ nchw_offset C HW (nc4hw4_offset C HW q) = Some q.
Proof.
  intros Hq.
  assert (HC : 0 < C) by (destruct C; lia).
  assert (HHW : 0 < HW) by (destruct HW; lia).
  unfold nc4hw4_offset, nchw_offset. cbn zeta.
  destruct (round_up4_blocks C) as [HR HR4]. rewrite HR4.
  set (K := (C + 3) / 4) in *. rewrite HR. clear HR HR4.
  set (n := q / (C * HW)). set (c := (q / HW) mod C). set (s := q mod HW).
  set (cb := c / 4). set (l := c mod 4).
  assert (Hs : s < HW) by (apply Nat.mod_upper_bound; lia).
  assert (Hc : c < C) by (apply Nat.mod_upper_bound; lia).
  assert (Hl : l < 4) by (apply Nat.mod_upper_bound; lia).
  assert (Hcl : c = 4 * cb + l) by apply Nat.div_mod_eq.
  assert (Hqn : q = n * (C * HW) + c * HW + s).
  { pose proof (Nat.div_mod_eq q HW) as H1.
    pose proof (Nat.div_mod_eq (q / HW) C) as H2.
    assert (Hn : q / HW / C = n).
    { unfold n. rewrite Nat.Div0.div_div. f_equal. lia. }
    fold s in H1. fold c in H2. rewrite Hn in H2. nia. }
  assert (Hn : n < N).
  { unfold n. apply Nat.Div0.div_lt_upper_bound. lia. }
  assert (HK : C ≤ 4 * K).
  { unfold K. pose proof (Nat.div_mod_eq (C + 3) 4).
    pose proof (Nat.mod_upper_bound (C + 3) 4). lia. }
  assert (Hcb : cb < K) by lia.
  set (p := n * (K * 4 * HW) + cb * (HW * 4) + s * 4 + l).
  assert (Hp1 : p / (K * 4 * HW) = n).
  { symmetry. apply (Nat.div_unique _ _ _ (cb * (HW * 4) + s * 4 + l)); [nia|].
    unfold p. lia. }
  assert (Hp2 : p / (HW * 4) = n * K + cb).
  { symmetry. apply (Nat.div_unique _ _ _ (s * 4 + l)); [nia|]. unfold p. nia. }
  assert (Hp3 : p mod 4 = l).
  { symmetry. apply (Nat.mod_unique _ _ (n * (K * HW) + cb * HW + s)); [done|].
    unfold p. nia. }
  assert (Hp4 : p / 4 = (n * K + cb) * HW + s).
  { symmetry. apply (Nat.div_unique _ _ _ l); [done|]. unfold p. nia. }
  split.
  { assert (cb * (HW * 4) + s * 4 + l < K * 4 * HW) by nia.
    assert ((n + 1) * (K * 4 * HW) ≤ N * (K * 4 * HW))
      by (apply Nat.mul_le_mono_r; lia).
    fold p. unfold p. lia. }
  fold p. rewrite Hp1, Hp2, Hp3, Hp4.
  assert (Hm1 : (n * K + cb) mod K = cb).
  { symmetry. apply (Nat.mod_unique _ _ n); [done|]. lia. }
  assert (Hm2 : ((n * K + cb) * HW + s) mod HW = s).
  { symmetry. apply (Nat.mod_unique _ _ (n * K + cb)); [done|]. lia. }
  rewrite Hm1, Hm2. case_decide; [|lia]. f_equal. nia.
Qed.

Lemma Count_split d :
  Count d 0 = default 1 (d !! 0) * (default 1 (d !! 1) * Count d 2).
Proof.
  destruct d as [|n [|c rest]]; unfold Count; cbn; rewrite ?drop_0; lia.
Qed.

(** Unpacking what was packed gives the tensor back: the padding lanes
    are dropped. *)
Lemma UnpackC4_PackC4 d (x : list R) :
  length x = Count d 0 → UnpackC4 d (PackC4 d x) = x.
Proof.
  intros Hx. apply (list_eq_same_length _ _ (Count d 0)); [done| |].
  { unfold UnpackC4. by rewrite length_fmap, length_seq. }
  intros q y z Hq. unfold UnpackC4.
  rewrite list_lookup_fmap, lookup_seq_lt by done. cbn [fmap option_fmap option_map].
  intros [= <-] Hz. rewrite Count_split in Hq.
  destruct (packed_offset_roundtrip _ _ _ _ Hq) as [Hp Hback].
  unfold PackC4. erewrite list_lookup_total_correct; last first.
  { rewrite list_lookup_fmap, lookup_seq_lt by done. reflexivity. }
  rewrite Nat.add_0_l, Hback. by apply list_lookup_total_correct.
Qed.

End LayoutFacts.

(** ** The device-independent gradient *)

Section TrainFacts.
Context `{Scalar R}.
Add Ring scalar_ring_train : sc_ring.
Implicit Types (F G : nat → nat → R).

Lemma flat_eq_iff cols r c q :
  c < cols → q = r * cols + c ↔ q / cols = r ∧ q mod cols = c.
Proof.
  intros Hc. split.
  - intros ->. by rewrite flat_div', flat_mod'.
  - intros [<- <-]. rewrite (Nat.div_mod_eq q cols) at 1. lia.
Qed.

Lemma tab2_ext rows cols F G :
  (∀ r c, r < rows → c < cols → F r c = G r c) →
  tab2 rows cols F = tab2 rows cols G.
Proof.
  intros HFG. apply tabulate_ext. intros p Hp.
  assert (0 < cols) by (destruct cols; lia).
  apply HFG.
  - apply Nat.Div0.div_lt_upper_bound. lia.
  - apply Nat.mod_upper_bound. lia.
Qed.

Lemma load_tab2 rows cols F r c :
  r < rows → c < cols → load (tab2 rows cols F) (r * cols + c) = Some (F r c).
Proof.
  intros Hr Hc. unfold tab2. rewrite load_tabulate by nia.
  by rewrite flat_div', flat_mod'.
Qed.

Lemma store_tab2 rows cols F r c v :
  r < rows → c < cols →
  store (tab2 rows cols F) (r * cols + c) v
  = Some (tab2 rows cols (λ r' c', if decide (r' = r ∧ c' = c) then v else F r' c')).
Proof.
  intros Hr Hc. unfold tab2. rewrite store_tabulate by nia. f_equal.
  apply tabulate_ext. intros q Hq.
  destruct (flat_eq_iff cols r c q Hc) as [Hto Hfrom].
  repeat case_decide; try done; exfalso; tauto.
Qed.

Lemma load_at2 m stride rows r c :
  length m = rows * stride → r < rows → c < stride →
  load m (r * stride + c) = Some (at2 m stride r c).
Proof. intros Hm Hr Hc. unfold at2. apply load_Some. nia. Qed.

Lemma tab2_replicate rows cols (x : R) :
  replicate (rows * cols) x = tab2 rows cols (λ _ _, x).
Proof. apply tabulate_replicate. Qed.

(** *** The summation loops *)

Section GradLoops.
Variables (has_bias : bool) (nb ni no : nat) (og input weight : list R).
Hypothesis Hog : length og = nb * no.
Hypothesis Hin : length input = nb * ni.
Hypothesis Hw : length weight = no * ni.

(** The bias gradient as the loops leave it: the batch sum, but nothing
    when there is no input column for the [k == 0] guard to fire on. *)
Let bias_full (o : nat) : R :=
  if decide (ni = 0) then sc0 else bias_grad_sum nb no og o.

(** The three buffers when the loops stand at the start of iteration
    [(j, k, i)]. *)
Let wg_at (j k i : nat) : list R :=
  tab2 no ni (λ r c,
    if decide (r < j ∨ (r = j ∧ c < k)) then weight_grad_sum nb no ni og input r c
    else if decide (r = j ∧ c = k)
    then sum_upto i (λ b, at2 og no b j * at2 input ni b k)%S
    else sc0).

Let ig_at (j k i : nat) : list R :=
  tab2 nb ni (λ r c,
    sum_upto j (λ o, at2 og no r o * at2 weight ni o c)
    + (if decide (c < k ∨ (c = k ∧ r < i)) then at2 og no r j * at2 weight ni j c
       else sc0))%S.

Let bg_at (j k i : nat) : list R :=
  if has_bias
  then tabulate no (λ o,
         if decide (o < j) then bias_full o
         else if decide (o = j)
         then (if decide (k = 0) then sum_upto i (λ b, at2 og no b j)
               else bias_grad_sum nb no og j)
         else sc0)
  else [].

Let bufs_at (j k i : nat) : Train.GradBuffers := (wg_at j k i, ig_at j k i, bg_at j k i).

Lemma grad_loops_init :
  (replicate (no * ni) sc0, replicate (nb * ni) sc0,
   if has_bias then replicate no sc0 else []) = bufs_at 0 0 0.
Proof.
  unfold bufs_at, wg_at, ig_at, bg_at. rewrite !tab2_replicate. f_equal; [f_equal|].
  - apply tab2_ext. intros r c Hr Hc.
    repeat case_decide; try lia; done.
  - apply tab2_ext. intros r c Hr Hc.
    repeat case_decide; try lia; try done; cbn [sum_upto]; ring.
  - destruct has_bias; [|done]. rewrite tabulate_replicate.
    apply tabulate_ext. intros o Ho.
    repeat case_decide; try lia; done.
Qed.

Lemma grad_loops_step j k i :
  j < no → k < ni → i < nb →
  (g ← load og (i * no + j);
   x ← load input (i * ni + k);
   w0 ← load (wg_at j k i) (j * ni + k);
   weight_grad ← store (wg_at j k i) (j * ni + k) (w0 + g * x)%S;
   w ← load weight (j * ni + k);
   g0 ← load (ig_at j k i) (i * ni + k);
   input_grad ← store (ig_at j k i) (i * ni + k) (g0 + g * w)%S;
   bias_grad ← (if has_bias && bool_decide (k = 0)
                then b0 ← load (bg_at j k i) j; store (bg_at j k i) j (b0 + g)%S
                else Some (bg_at j k i));
   Some (weight_grad, input_grad, bias_grad))
  = Some (bufs_at j k (S i)).
Proof.
  intros Hj Hk Hi.
  rewrite (load_at2 og no nb), (load_at2 input ni nb) by done. obind.
  unfold wg_at at 1 2. rewrite load_tab2 by done. obind.
  rewrite store_tab2 by done. obind.
  rewrite (load_at2 weight ni no) by done. obind.
  unfold ig_at at 1 2. rewrite load_tab2 by done. obind.
  rewrite store_tab2 by done. obind.
  assert (Hbias : (if has_bias && bool_decide (k = 0)
                   then b0 ← load (bg_at j k i) j;
                        store (bg_at j k i) j (b0 + at2 og no i j)%S
                   else Some (bg_at j k i)) = Some (bg_at j k (S i))).
  { unfold bg_at. destruct has_bias; [|done]. cbn [andb]. case_bool_decide.
    - rewrite load_tabulate by done. obind.
      rewrite store_tabulate by done. f_equal.
      apply tabulate_ext. intros o Ho.
      repeat case_decide; try lia; try done; cbn [sum_upto]; ring.
    - f_equal. apply tabulate_ext. intros o Ho.
      repeat case_decide; try lia; done. }
  rewrite Hbias. obind. unfold bufs_at. do 3 f_equal.
  - apply tab2_ext. intros r c Hr Hc. unfold wg_at.
    repeat case_decide; try lia; try done; destruct_and?; subst;
      cbn [sum_upto]; ring.
  - apply tab2_ext. intros r c Hr Hc.
    repeat case_decide; try lia; try done; destruct_and?; subst; ring.
Qed.

Lemma grad_loops_next_column j k : bufs_at j k nb = bufs_at j (S k) 0.
Proof.
  unfold bufs_at. f_equal; [f_equal|].
  - apply tab2_ext. intros r c Hr Hc. unfold weight_grad_sum.
    repeat case_decide; try lia; try done; destruct_and?; subst; done.
  - apply tab2_ext. intros r c Hr Hc.
    repeat case_decide; try lia; done.
  - unfold bg_at. destruct has_bias; [|done].
    apply tabulate_ext. intros o Ho. unfold bias_grad_sum.
    repeat case_decide; try lia; done.
Qed.

Lemma grad_loops_next_row j : bufs_at j ni 0 = bufs_at (S j) 0 0.
Proof.
  unfold bufs_at. f_equal; [f_equal|].
  - apply tab2_ext. intros r c Hr Hc.
    repeat case_decide; try lia; done.
  - apply tab2_ext. intros r c Hr Hc.
    repeat case_decide; try lia; try done; cbn [sum_upto]; ring.
  - unfold bg_at. destruct has_bias; [|done].
    apply tabulate_ext. intros o Ho. unfold bias_full.
    repeat case_decide; try lia; try done; subst; done.
Qed.

(** The three nested loops, started on zero-initialised buffers, leave the
    sums of the comment above them in the weight and input gradients; the
    bias gradient holds its batch sums when there is at least one input
    column. *)
Lemma grad_loops_correct :
  Train.grad_loops has_bias nb ni no og input weight
    (replicate (no * ni) sc0, replicate (nb * ni) sc0,
     if has_bias then replicate no sc0 else [])
  = Some (tab2 no ni (weight_grad_sum nb no ni og input),
          tab2 nb ni (input_grad_sum no ni og weight),
          if has_bias then tabulate no bias_full else []).
Proof.
  unfold Train.grad_loops. rewrite grad_loops_init.
  rewrite (for_states (λ j, bufs_at j 0 0)).
  - f_equal. unfold bufs_at. f_equal; [f_equal|].
    + apply tab2_ext. intros r c Hr Hc. repeat case_decide; try lia; done.
    + apply tab2_ext. intros r c Hr Hc. unfold input_grad_sum.
      repeat case_decide; try lia; try done; ring.
    + unfold bg_at. destruct has_bias; [|done].
      apply tabulate_ext. intros o Ho. repeat case_decide; try lia; done.
  - intros j Hj. rewrite (for_states (λ k, bufs_at j k 0)).
    + by rewrite grad_loops_next_row.
    + intros k Hk. rewrite (for_states (λ i, bufs_at j k i)).
      * by rewrite grad_loops_next_column.
      * intros i Hi. unfold bufs_at at 1. by apply grad_loops_step.
Qed.

End GradLoops.

Lemma Count_cons b rest : Count (b :: rest) 0 = b * Count (b :: rest) 1.
Proof. done. Qed.

Lemma length_UnpackC4 d (src : list R) : length (UnpackC4 d src) = Count d 0.
Proof. unfold UnpackC4. by rewrite length_fmap, length_seq. Qed.

(** *** [OnGrad] *)

Section OnGrad.
Variable TrainContext : Type.
Variable backward_grads_blob : TrainContext → gmap nat (RawBuffer R).
Variable UpdateGradValue : Blob R → RawBuffer R → TrainContext → TrainContext.
Variable UpdateGradValue_resource :
  RawBuffer R → RawBuffer R → TrainContext → TrainContext.

Local Abbreviation OnGrad :=
  (Train.OnGrad TrainContext backward_grads_blob UpdateGradValue
     UpdateGradValue_resource).

(** A float call whose validations pass: the gradients are computed from
    the canonical-layout views of the input and of the output gradient,
    the input gradient goes back to the input's resident layout, and the
    three buffers are handed over in the order input, weight, bias. *)
Lemma train_OnGrad_float input0 output0 layer_param resource output_grad context
    nb rest :
  let layer := Train.mkBaseLayer R [input0] [output0]
                 (Some (Train.InnerProductParam layer_param))
                 (Some (Train.InnerProductResource resource)) in
  let desc := blob_desc input0 in
  let ni := Count (dims desc) 1 in
  let no := num_output layer_param in
  let x := ConvertToNCHW (blob_data input0) (dims desc) (data_format desc) in
  let g := ConvertToNCHW (buffer_data output_grad) (buffer_dims output_grad)
             (buffer_format output_grad) in
  let w := buffer_data (weight_handle resource) in
  data_type desc = DATA_TYPE_FLOAT →
  data_type (blob_desc output0) = DATA_TYPE_FLOAT →
  backward_grads_blob context !! blob_addr output0 = Some output_grad →
  dims desc = nb :: rest →
  buffer_type (weight_handle resource) = DATA_TYPE_FLOAT →
  bytes_size (weight_handle resource) = no * ni * 4 →
  length w = no * ni →
  length x = nb * ni →
  length g = nb * no →
  (has_bias layer_param = true →
   GetBytesSize (buffer_type (bias_handle resource)) = 4) →
  ∃ input_grad weight_grad bias_grad,
    OnGrad layer context
    = Some (Status_OK,
        (if has_bias layer_param
         then UpdateGradValue_resource (bias_handle resource) bias_grad
         else id)
          (UpdateGradValue_resource (weight_handle resource) weight_grad
             (UpdateGradValue input0 input_grad context)))
    ∧ weight_grad
      = SetDataFormat
          (SetDataType
             (mkRawBuffer (no * ni * 4) [no; ni] DATA_TYPE_FLOAT DATA_FORMAT_NCHW
                (tab2 no ni (weight_grad_sum nb no ni g x)))
             DATA_TYPE_FLOAT)
          (buffer_format (weight_handle resource))
    ∧ input_grad
      = SetDataFormat
          (SetDataType
             (ConvertToNC4HW4
                (mkRawBuffer (nb * ni * 4) (dims desc) DATA_TYPE_FLOAT DATA_FORMAT_NCHW
                   (tab2 nb ni (input_grad_sum no ni g w))) desc)
             DATA_TYPE_FLOAT)
          (data_format desc)
    ∧ buffer_data bias_grad
      = tabulate no (λ o, if decide (ni = 0) then sc0 else bias_grad_sum nb no g o).
Proof.
  intros layer desc ni no x g w Hti Hto Hog Hdims Htw Hbytes Hw Hx Hg Hbias.
  assert (HC : Count (dims desc) 0 = nb * ni).
  { unfold ni. rewrite Hdims. apply Count_cons. }
  unfold Train.OnGrad. cbn [Train.input_blobs_ Train.output_blobs_ layer
    Train.param_ Train.resource_ Train.cast_param Train.cast_resource].
  fold desc. rewrite Hti, Hto. case_decide as Hd; [by destruct Hd as [[_ ?]|?]|].
  rewrite Hog, Hdims. cbn [lookup list_lookup mbind option_bind].
  rewrite Htw. case_decide; [done|]. cbn [GetBytesSize].
  rewrite <- Hdims. fold ni no.
  case_decide as Hsz; [by destruct Hsz; apply size_test_passes|].
  case_decide; [|done].
  rewrite Hbytes. unfold new_RawBuffer. cbn [buffer_data bytes_size buffer_dims
    buffer_type buffer_format].
  rewrite HC, !Nat.div_mul by done. fold x g w.
  pose proof (grad_loops_correct (has_bias layer_param) nb ni no g x w Hg Hx Hw)
    as Hloops.
  destruct (has_bias layer_param) eqn:Hhb.
  - rewrite Hbias by done. unfold Count at 1 2. cbn [drop foldr].
    rewrite Nat.mul_1_r, Nat.div_mul by done.
    rewrite Hloops. obind. eexists _, _, _. split; [reflexivity|]. done.
  - rewrite Hloops. obind.
    eexists _, _, (mkRawBuffer 0 [] DATA_TYPE_FLOAT DATA_FORMAT_NCHW _).
    split; [reflexivity|]. done.
Qed.


(** The same call on tensors that are the packed forms of canonical
    tensors [x] and [g]: the gradients are those of [x] and [g], and
    unpacking the input gradient handed over gives the canonical input
    gradient back. *)
Lemma train_OnGrad_packed input0 output0 layer_param resource output_grad
    context nb rest x g :
  let layer := Train.mkBaseLayer R [input0] [output0]
                 (Some (Train.InnerProductParam layer_param))
                 (Some (Train.InnerProductResource resource)) in
  let desc := blob_desc input0 in
  let ni := Count (dims desc) 1 in
  let no := num_output layer_param in
  let w := buffer_data (weight_handle resource) in
  data_format desc = DATA_FORMAT_NC4HW4 →
  blob_data input0 = PackC4 (dims desc) x →
  length x = Count (dims desc) 0 →
  buffer_format output_grad = DATA_FORMAT_NC4HW4 →
  buffer_data output_grad = PackC4 (buffer_dims output_grad) g →
  length g = Count (buffer_dims output_grad) 0 →
  data_type desc = DATA_TYPE_FLOAT →
  data_type (blob_desc output0) = DATA_TYPE_FLOAT →
  backward_grads_blob context !! blob_addr output0 = Some output_grad →
  dims desc = nb :: rest →
  Count (buffer_dims output_grad) 0 = nb * no →
  buffer_type (weight_handle resource) = DATA_TYPE_FLOAT →
  bytes_size (weight_handle resource) = no * ni * 4 →
  length w = no * ni →
  (has_bias layer_param = true →
   GetBytesSize (buffer_type (bias_handle resource)) = 4) →
  ∃ input_grad weight_grad bias_grad,
    OnGrad layer context
    = Some (Status_OK,
        (if has_bias layer_param
         then UpdateGradValue_resource (bias_handle resource) bias_grad
         else id)
          (UpdateGradValue_resource (weight_handle resource) weight_grad
             (UpdateGradValue input0 input_grad context)))
    ∧ buffer_data weight_grad = tab2 no ni (weight_grad_sum nb no ni g x)
    ∧ buffer_data input_grad
      = PackC4 (dims desc) (tab2 nb ni (input_grad_sum no ni g w))
    ∧ UnpackC4 (dims desc) (buffer_data input_grad)
      = tab2 nb ni (input_grad_sum no ni g w).
Proof.
  intros layer desc ni no w Hfi Hx Hlx Hfg Hg Hlg Hti Hto Hog Hdims Hgd Htw
    Hbytes Hw Hbias.
  assert (HC : Count (dims desc) 0 = nb * ni).
  { unfold ni. rewrite Hdims. apply Count_cons. }
  destruct (train_OnGrad_float input0 output0 layer_param resource output_grad
              context nb rest) as (ig & wg & bg & Hrun & Hwg & Hig & _);
    try done.
  - fold desc. rewrite Hfi. cbn [ConvertToNCHW]. rewrite length_UnpackC4.
    by fold desc ni.
  - rewrite Hfg. cbn [ConvertToNCHW]. by rewrite length_UnpackC4.
  - fold layer desc ni no w in Hrun, Hwg, Hig.
    rewrite Hfi, Hfg, Hx, Hg in Hwg. rewrite ?Hfi, Hfg, Hg in Hig.
    cbn [ConvertToNCHW] in Hwg, Hig.
    rewrite !UnpackC4_PackC4 in Hwg, Hig by done.
    exists ig, wg, bg. split; [done|].
    rewrite Hwg, Hig. unfold ConvertToNC4HW4. rewrite Hfi.
    cbn [SetDataFormat SetDataType buffer_data].
    rewrite ?(UnpackC4_PackC4 (dims desc) x) by done.
    split; [done|]. split; [done|].
    apply UnpackC4_PackC4. unfold tab2. by rewrite length_tabulate.
Qed.

(** The size test where no [int] wraps: an inner-product layer whose
    weight buffer declares a byte size other than
    [output_width * input_width * size_of(dtype)], both below [2 ^ 31].  The
    call returns a [TNN_TRAIN_ERROR] status and the context it was given,
    nothing handed over: the size test stands before the buffers, the
    conversions and the loops.  When the validations that precede the size
    test pass, the status is the one of the size test. *)
Lemma weight_size_mismatch_in_int_range input0 output0 layer_param resource context :
  let layer := Train.mkBaseLayer R [input0] [output0]
                 (Some (Train.InnerProductParam layer_param))
                 (Some (Train.InnerProductResource resource)) in
  let weight := weight_handle resource in
  let product := num_output layer_param * Count (dims (blob_desc input0)) 1
                 * GetBytesSize (buffer_type weight) in
  dims (blob_desc input0) ≠ [] →
  (Z.of_nat product < 2 ^ 31)%Z →
  (Z.of_nat (bytes_size weight) < 2 ^ 31)%Z →
  bytes_size weight ≠ product →
  ∃ msg,
    OnGrad layer context = Some (Train.error msg, context)
    ∧ ((data_type (blob_desc output0) = DATA_TYPE_BFP16
        ∨ data_type (blob_desc output0) = DATA_TYPE_FLOAT) →
       data_type (blob_desc input0) = data_type (blob_desc output0) →
       is_Some (backward_grads_blob context !! blob_addr output0) →
       buffer_type weight = DATA_TYPE_FLOAT →
       msg = "InnerProductLayerGrad weight dims error").
Proof.
  intros layer weight product Hdims Hproduct Hbytes Hsize. unfold Train.OnGrad.
  cbn [Train.input_blobs_ Train.output_blobs_ layer Train.param_ Train.resource_
       Train.cast_param Train.cast_resource].
  case_decide as Htypes.
  { eexists. split; [done|]. intros [Ho|Ho] Hio _ _; destruct Htypes as [[? ?]|?];
      congruence. }
  destruct (backward_grads_blob context !! blob_addr output0) as [output_grad|].
  2:{ eexists. split; [done|]. by intros _ _ [? ?]. }
  destruct (dims (blob_desc input0)) as [|batch rest] eqn:Hd; [done|].
  cbn [lookup list_lookup mbind option_bind]. fold weight.
  case_decide as Hwt.
  { eexists. split; [done|]. by intros _ _ _ ?. }
  case_decide as Hsz; [by eexists|].
  exfalso. apply Hsize.
  rewrite !int_mul_as_int in Hsz. fold product in Hsz.
  rewrite !as_int_small in Hsz by done. lia.
Qed.

(** A dtype other than float never reaches the hand-over: the call returns
    a [TNN_TRAIN_ERROR] status and the context it was given. *)
Lemma train_OnGrad_unsupported_dtype layer input0 context :
  Train.input_blobs_ layer = [input0] →
  dims (blob_desc input0) ≠ [] →
  data_type (blob_desc input0) ≠ DATA_TYPE_FLOAT →
  ∃ msg, OnGrad layer context = Some (Train.error msg, context).
Proof.
  intros Hin Hdims Htype. unfold Train.OnGrad. rewrite Hin.
  destruct (Train.output_blobs_ layer) as [|output0 [|? ?]]; [by eexists| |by eexists].
  case_decide; [by eexists|].
  destruct (Train.cast_param _) as [layer_param|]; [|by eexists].
  destruct (Train.cast_resource _) as [resource|]; [|by eexists].
  destruct (backward_grads_blob context !! blob_addr output0); [|by eexists].
  destruct (dims (blob_desc input0)) as [|batch rest]; [done|].
  cbn [lookup list_lookup mbind option_bind].
  case_decide; [by eexists|]. case_decide; [by eexists|].
  case_decide; [done|]. by eexists.
Qed.

(** A bfp16 call that passes every validation ends in the branch that
    declares the type unsupported. *)
Lemma train_OnGrad_bfp16 input0 output0 layer_param resource output_grad context :
  let layer := Train.mkBaseLayer R [input0] [output0]
                 (Some (Train.InnerProductParam layer_param))
                 (Some (Train.InnerProductResource resource)) in
  data_type (blob_desc input0) = DATA_TYPE_BFP16 →
  data_type (blob_desc output0) = DATA_TYPE_BFP16 →
  backward_grads_blob context !! blob_addr output0 = Some output_grad →
  dims (blob_desc input0) ≠ [] →
  buffer_type (weight_handle resource) = DATA_TYPE_FLOAT →
  bytes_size (weight_handle resource)
  = num_output layer_param * Count (dims (blob_desc input0)) 1 * 4 →
  OnGrad layer context
  = Some (Train.error "InnerProductLayerGrad don't support bft16 for now", context).
Proof.
  intros layer Hti Hto Hog Hdims Htw Hbytes. unfold Train.OnGrad.
  cbn [Train.input_blobs_ Train.output_blobs_ layer Train.param_ Train.resource_
       Train.cast_param Train.cast_resource].
  rewrite Hti, Hto, Hog. case_decide as Hd; [by destruct Hd as [[? _]|?]|].
  destruct (dims (blob_desc input0)) as [|batch rest]; [done|].
  cbn [lookup list_lookup mbind option_bind]. rewrite Htw.
  case_decide; [done|]. cbn [GetBytesSize].
  case_decide as Hsz; [by destruct Hsz; apply size_test_passes|].
  case_decide; done.
Qed.

End OnGrad.

End TrainFacts.

(** ** [ArmInnerProductLayerGrad::OnGrad] *)

Section ArmOnGradFacts.
Context `{Scalar R}.
Add Ring scalar_ring_ongrad : sc_ring.
Variable GetDim : DimsVector → nat → nat.
Variable GetDataCount : RawBuffer R → nat.

Local Abbreviation OnGrad := (Arm.OnGrad GetDim GetDataCount).

Lemma double_tabulate n (f : nat → R) :
  double (tabulate n f) = tabulate n (λ p, f p + f p)%S.
Proof. unfold double, tabulate. by rewrite <- list_fmap_compose. Qed.

(** Two calls of a kernel that adds the gradient [G] to what the flag keeps
    of the destination. *)
Lemma two_calls_dest_init acc n (G : nat → R) d0 d1 d2 :
  length d0 = n →
  d1 = tabulate n (λ p, dest_init acc d0 p + G p)%S →
  d2 = tabulate n (λ p, dest_init acc d1 p + G p)%S →
  two_calls acc d0 d1 d2 (tabulate n G).
Proof.
  intros Hn -> ->. unfold two_calls, dest_init. destruct acc.
  - rewrite Hn. split.
    + apply tabulate_ext. intros p Hp. by rewrite !lookup_total_tabulate.
    + intros Hz. rewrite double_tabulate. apply tabulate_ext. intros p Hp.
      rewrite lookup_total_tabulate, Hz by done.
      rewrite lookup_total_replicate_2 by done. ring.
  - done.
Qed.

(** A call that gets past the validations: the three kernels run on their
    own destinations. *)
Lemma arm_OnGrad_float args dst param res :
  Arm.arm_context args = Some () →
  Arm.inner_product_param args = Some param →
  Arm.inner_product_res args = Some res →
  let batch := GetDim (dims (blob_desc (Arm.input_0 args))) 0 in
  let ic := Count (dims (blob_desc (Arm.input_0 args))) 1 in
  let oc := GetDim (Arm.output_0_dims args) 1 in
  GetDataCount (weight_handle res) = oc * ic →
  data_type (blob_desc (Arm.input_0 args)) = DATA_TYPE_FLOAT →
  OnGrad args dst
  = (input_grad ← Arm.ExecInputGrad (Arm.acc_input_grad_0 args) batch oc ic
                    (Arm.input_grad_0 dst) (Arm.output_grad_0 args)
                    (buffer_data (weight_handle res));
     weight_grad ← Arm.ExecWeightGrad (Arm.acc_resource_grad_0 args) batch oc ic
                     (Arm.resource_grad_0 dst) (Arm.output_grad_0 args)
                     (blob_data (Arm.input_0 args));
     bias_grad ← (if has_bias param
                  then Arm.ExecBiasGrad (Arm.acc_resource_grad_1 args) batch oc
                         (Arm.resource_grad_1 dst) (Arm.output_grad_0 args)
                  else Some (Arm.resource_grad_1 dst));
     Some (Status_OK, Arm.mkGradDest input_grad weight_grad bias_grad)).
Proof.
  intros Hctx Hparam Hres batch ic oc Hcount Htype. unfold Arm.OnGrad.
  rewrite Hctx, Hparam, Hres. fold batch ic oc.
  case_decide as Hc; [destruct Hc; by rewrite int_mul_as_int, Hcount|].
  case_decide; [done|]. done.
Qed.

(** Whenever [OnGrad] returns a status other than [TNN_OK] the three
    destinations are what they were. *)
Lemma arm_OnGrad_error_untouched args dst st dst' :
  OnGrad args dst = Some (st, dst') → code st ≠ TNN_OK → dst' = dst.
Proof.
  unfold Arm.OnGrad.
  destruct (Arm.arm_context args); [|by intros [= <- <-]].
  destruct (Arm.inner_product_param args) as [param|]; [|by intros [= <- <-]].
  destruct (Arm.inner_product_res args) as [res|]; [|by intros [= <- <-]].
  case_decide; [by intros [= <- <-]|].
  case_decide; [|by intros [= <- <-]].
  destruct (Arm.ExecInputGrad _ _ _ _ _ _ _); [|done]. obind.
  destruct (Arm.ExecWeightGrad _ _ _ _ _ _ _); [|done]. obind.
  destruct (if has_bias param then _ else _); [|done]. obind.
  by intros [= <- <-].
Qed.

(** A weight buffer whose element count is not [oc * ic], both below
    [2 ^ 31], is refused before any kernel runs. *)
Lemma arm_OnGrad_weight_count_mismatch args dst res :
  let count := GetDataCount (weight_handle res) in
  let product := GetDim (Arm.output_0_dims args) 1
                 * Count (dims (blob_desc (Arm.input_0 args))) 1 in
  Arm.inner_product_res args = Some res →
  (Z.of_nat count < 2 ^ 31)%Z → (Z.of_nat product < 2 ^ 31)%Z →
  count ≠ product →
  ∃ st, OnGrad args dst = Some (st, dst) ∧ code st ≠ TNN_OK.
Proof.
  intros count product Hres Hc Hp Hcount. unfold Arm.OnGrad. rewrite Hres.
  destruct (Arm.arm_context args); [|by eexists].
  destruct (Arm.inner_product_param args); [|by eexists].
  case_decide as Heq; [by eexists|].
  exfalso. apply Hcount. rewrite int_mul_as_int in Heq.
  fold count product in Heq. rewrite !as_int_small in Heq by done. lia.
Qed.

(** A dtype other than float is refused before any kernel runs. *)
Lemma arm_OnGrad_unsupported_dtype args dst :
  data_type (blob_desc (Arm.input_0 args)) ≠ DATA_TYPE_FLOAT →
  ∃ st, OnGrad args dst = Some (st, dst) ∧ code st ≠ TNN_OK.
Proof.
  intros Htype. unfold Arm.OnGrad.
  destruct (Arm.arm_context args); [|by eexists].
  destruct (Arm.inner_product_param args); [|by eexists].
  destruct (Arm.inner_product_res args); [|by eexists].
  case_decide; [by eexists|]. case_decide; [done|]. by eexists.
Qed.

(** Two calls of [ExecBiasGrad], for [oc] a multiple of 4. *)
Lemma two_calls_bias acc batch oc bg og :
  length og = batch * oc → oc ≤ length bg → oc mod 4 = 0 →
  (acc = false → batch * oc ≤ length bg) →
  ∃ d1 d2,
    Arm.ExecBiasGrad acc batch oc bg og = Some d1
    ∧ Arm.ExecBiasGrad acc batch oc d1 og = Some d2
    ∧ length d1 = length bg
    ∧ two_calls acc bg d1 d2
        (tabulate (length bg) (λ p,
           if decide (p < oc) then bias_grad_sum batch oc og p else sc0)).
Proof.
  intros Hog Hbg Hoc Hroom. eexists _, _.
  split; [by apply ExecBiasGrad_multiple_of_4|].
  split; [apply ExecBiasGrad_multiple_of_4; rewrite ?length_tabulate; done|].
  rewrite !length_tabulate. split; [done|].
  unfold two_calls. destruct acc.
  - split.
    + apply tabulate_ext. intros p Hp. by rewrite !lookup_total_tabulate.
    + intros Hz. rewrite double_tabulate. apply tabulate_ext. intros p Hp.
      rewrite lookup_total_tabulate, Hz by done.
      rewrite lookup_total_replicate_2 by done. ring.
  - apply tabulate_ext. intros p Hp. rewrite lookup_total_tabulate by done.
    destruct batch as [|batch'].
    + unfold bias_grad_sum. cbn [sum_upto].
      repeat case_decide; try lia; ring.
    + repeat case_decide; try lia; try nia; ring.
Qed.

(** Two calls of [OnGrad] into the same three destinations, where the
    kernels stay inside their buffers: the widths are multiples of the
    vector width 4 and the bias destination has room for the [batch * oc]
    elements the overwrite path clears.  Each destination follows its own
    flag, whatever the other two flags are: with the flag set, the two calls
    add the gradient twice to what the destination held, which for a
    zero-initialised destination is exactly the double of the single-call
    result; with the flag clear, the second call leaves what the first one
    wrote. *)
Lemma accumulate_flags_two_calls args dst param res :
  let batch := GetDim (dims (blob_desc (Arm.input_0 args))) 0 in
  let ic := Count (dims (blob_desc (Arm.input_0 args))) 1 in
  let oc := GetDim (Arm.output_0_dims args) 1 in
  let x := blob_data (Arm.input_0 args) in
  let g := Arm.output_grad_0 args in
  let w := buffer_data (weight_handle res) in
  Arm.arm_context args = Some () →
  Arm.inner_product_param args = Some param →
  Arm.inner_product_res args = Some res →
  GetDataCount (weight_handle res) = oc * ic →
  data_type (blob_desc (Arm.input_0 args)) = DATA_TYPE_FLOAT →
  length x = batch * ic → length g = batch * oc → length w = oc * ic →
  length (Arm.input_grad_0 dst) = batch * ic →
  length (Arm.resource_grad_0 dst) = oc * ic →
  ic mod 4 = 0 →
  (has_bias param = true →
   oc mod 4 = 0 ∧ oc ≤ length (Arm.resource_grad_1 dst)
   ∧ (Arm.acc_resource_grad_1 args = false →
      batch * oc ≤ length (Arm.resource_grad_1 dst))) →
  ∃ d1 d2,
    OnGrad args dst = Some (Status_OK, d1)
    ∧ OnGrad args d1 = Some (Status_OK, d2)
    ∧ two_calls (Arm.acc_input_grad_0 args)
        (Arm.input_grad_0 dst) (Arm.input_grad_0 d1) (Arm.input_grad_0 d2)
        (tab2 batch ic (input_grad_sum oc ic g w))
    ∧ two_calls (Arm.acc_resource_grad_0 args)
        (Arm.resource_grad_0 dst) (Arm.resource_grad_0 d1) (Arm.resource_grad_0 d2)
        (tab2 oc ic (weight_grad_sum batch oc ic g x))
    ∧ (if has_bias param
       then two_calls (Arm.acc_resource_grad_1 args)
              (Arm.resource_grad_1 dst) (Arm.resource_grad_1 d1)
              (Arm.resource_grad_1 d2)
              (tabulate (length (Arm.resource_grad_1 dst)) (λ p,
                 if decide (p < oc) then bias_grad_sum batch oc g p else sc0))
       else Arm.resource_grad_1 d2 = Arm.resource_grad_1 dst).
Proof.
  intros batch ic oc x g w Hctx Hparam Hres Hcount Htype Hx Hg Hw Hig Hwg Hic Hbias.
  pose proof (ExecInputGrad_correct (Arm.acc_input_grad_0 args) batch oc ic
                (Arm.input_grad_0 dst) g w Hig Hg Hw) as Hi1.
  pose proof (ExecWeightGrad_multiple_of_4 (Arm.acc_resource_grad_0 args) batch oc ic
                (Arm.resource_grad_0 dst) g x Hwg Hg Hx Hic) as Hw1.
  assert (Hb : ∃ b1 b2,
    (if has_bias param
     then Arm.ExecBiasGrad (Arm.acc_resource_grad_1 args) batch oc
            (Arm.resource_grad_1 dst) g
     else Some (Arm.resource_grad_1 dst)) = Some b1
    ∧ (if has_bias param
       then Arm.ExecBiasGrad (Arm.acc_resource_grad_1 args) batch oc b1 g
       else Some b1) = Some b2
    ∧ (if has_bias param
       then two_calls (Arm.acc_resource_grad_1 args) (Arm.resource_grad_1 dst) b1 b2
              (tabulate (length (Arm.resource_grad_1 dst)) (λ p,
                 if decide (p < oc) then bias_grad_sum batch oc g p else sc0))
       else b2 = Arm.resource_grad_1 dst)).
  { destruct (has_bias param).
    - destruct Hbias as (Hoc & Hlen & Hroom); [done|].
      destruct (two_calls_bias (Arm.acc_resource_grad_1 args) batch oc
                  (Arm.resource_grad_1 dst) g Hg Hlen Hoc Hroom)
        as (b1 & b2 & H1 & H2 & _ & H12).
      by exists b1, b2.
    - by eexists _, _. }
  destruct Hb as (b1 & b2 & Hb1 & Hb2 & Hb12).
  eexists (Arm.mkGradDest _ _ b1), (Arm.mkGradDest _ _ b2).
  rewrite !(arm_OnGrad_float _ _ param res) by done.
  fold batch ic oc x g w.
  cbn [Arm.input_grad_0 Arm.resource_grad_0 Arm.resource_grad_1].
  split; [by rewrite Hi1, Hw1, Hb1|].
  split.
  { rewrite ExecInputGrad_correct, ExecWeightGrad_multiple_of_4
      by (rewrite ?length_tabulate; done).
    by rewrite Hb2. }
  split_and!.
  - eapply (two_calls_dest_init _ (batch * ic)); done.
  - eapply (two_calls_dest_init _ (oc * ic)); done.
  - done.
Qed.

End ArmOnGradFacts.

(** ** Unsupported element types, on both engines *)

Section UnsupportedDType.
Context `{Scalar R}.
Variable TrainContext : Type.
Variable backward_grads_blob : TrainContext → gmap nat (RawBuffer R).
Variable UpdateGradValue : Blob R → RawBuffer R → TrainContext → TrainContext.
Variable UpdateGradValue_resource :
  RawBuffer R → RawBuffer R → TrainContext → TrainContext.
Variable GetDim : DimsVector → nat → nat.
Variable GetDataCount : RawBuffer R → nat.

(** C8: a call whose input tensor is of a dtype other than float32 (bfp16
    among them) returns an error status on either engine and writes
    nothing: the device-independent engine hands no buffer to the context,
    the ARM engine leaves its three destinations as they were. *)
Theorem unsupported_dtype_fails layer input0 context args dst :
  Train.input_blobs_ layer = [input0] →
  dims (blob_desc input0) ≠ [] →
  data_type (blob_desc input0) ≠ DATA_TYPE_FLOAT →
  data_type (blob_desc (Arm.input_0 args)) ≠ DATA_TYPE_FLOAT →
  (∃ msg,
     Train.OnGrad TrainContext backward_grads_blob UpdateGradValue
       UpdateGradValue_resource layer context
     = Some (Train.error msg, context))
  ∧ (∃ st,
       Arm.OnGrad GetDim GetDataCount args dst = Some (st, dst)
       ∧ code st ≠ TNN_OK).
Proof.
  intros Hin Hdims Htrain Harm. split.
  - by eapply train_OnGrad_unsupported_dtype.
  - by apply arm_OnGrad_unsupported_dtype.
Qed.

End UnsupportedDType.

(** ** The kernel registry, its dispatch and the layer's forward pass *)

Section RegistryDispatch.
Context {LayerType : Type} `{Countable LayerType}.
Context {LayerParam F : Type}.
Implicit Types
  (km : gmap LayerType (X86.unary2_kernel_avx_func_t (LayerParam:=LayerParam) (F:=F))).
Implicit Types (type : LayerType) (kernel : X86.unary2_kernel_avx_func_t (LayerParam:=LayerParam) (F:=F)).

(** The dispatch, read off the map entry of the kind. *)
Lemma dispatch_by_lookup km d (src dst : list F) type (param : LayerParam) :
  X86.X86_UNARY2_CALCULATE km d src dst type param
  = match km !! type with
    | Some (Some f) => Some (Status_OK, X86.mkDispatched (f d src dst param) 1)
    | _ => Some (X86.kernel_not_found, X86.mkDispatched dst 0)
    end.
Proof.
  unfold X86.X86_UNARY2_CALCULATE, X86.GetUnary2Kernel, X86.unary2_kernel_avx_func_t in *.
  by destruct (km !! type) as [[f|]|].
Qed.

(** X1: registering a kernel [f] for a kind returns [TNN_OK], and a dispatch
    of that kind then returns [TNN_OK] after calling [f] exactly once on the
    arguments of the dispatch, whatever the map held before. *)
Theorem register_then_dispatch km type (f : X86.kernel_body) d (src dst : list F)
    (param : LayerParam) :
  (X86.RegisterUnary2Kernel type (Some f) km).1 = Status_OK
  ∧ X86.X86_UNARY2_CALCULATE (X86.RegisterUnary2Kernel type (Some f) km).2
      d src dst type param
    = Some (Status_OK, X86.mkDispatched (f d src dst param) 1).
Proof.
  split; [done|]. rewrite dispatch_by_lookup. cbn.
  unfold X86.unary2_kernel_avx_func_t in *. by rewrite lookup_insert_eq.
Qed.

(** X2: registering the null pointer for a kind that has a kernel is
    accepted with [TNN_OK] and takes the kernel away: a dispatch of the kind
    then fails with the kernel-not-found status, calls nothing and leaves
    the destination as it was. *)
Theorem null_registration_disables_dispatch km type (f : X86.kernel_body) d
    (src dst : list F) (param : LayerParam) :
  let km1 := (X86.RegisterUnary2Kernel type (Some f) km).2 in
  (X86.RegisterUnary2Kernel type None km1).1 = Status_OK
  ∧ X86.X86_UNARY2_CALCULATE (X86.RegisterUnary2Kernel type None km1).2
      d src dst type param
    = Some (X86.kernel_not_found, X86.mkDispatched dst 0).
Proof.
  split; [done|]. rewrite dispatch_by_lookup. cbn.
  unfold X86.unary2_kernel_avx_func_t in *. by rewrite lookup_insert_eq.
Qed.

(** X3: a registration for one kind changes neither the lookup nor the
    dispatch of any other kind. *)
Theorem registration_leaves_other_kinds km type type' k kernel d (src dst : list F)
    (param : LayerParam) :
  type' ≠ type →
  X86.GetUnary2Kernel (X86.RegisterUnary2Kernel type k km).2 type' kernel
  = X86.GetUnary2Kernel km type' kernel
  ∧ X86.X86_UNARY2_CALCULATE (X86.RegisterUnary2Kernel type k km).2 d src dst type' param
    = X86.X86_UNARY2_CALCULATE km d src dst type' param.
Proof.
  intros Hne. rewrite !dispatch_by_lookup. unfold X86.GetUnary2Kernel. cbn.
  unfold X86.unary2_kernel_avx_func_t in *. by rewrite !lookup_insert_ne.
Qed.

(** X4: registrations for two different kinds commute: the map does not
    depend on which of the two ran first. *)
Theorem registration_order_irrelevant km type1 type2 k1 k2 :
  type1 ≠ type2 →
  (X86.RegisterUnary2Kernel type2 k2 (X86.RegisterUnary2Kernel type1 k1 km).2).2
  = (X86.RegisterUnary2Kernel type1 k1 (X86.RegisterUnary2Kernel type2 k2 km).2).2.
Proof. intros Hne. cbn. by apply insert_insert_ne. Qed.

(** The entry of a kind after a sequence of registrations. *)
Lemma register_all_lookup regs km type :
  X86.register_all regs km !! type
  = match X86.last_registered type regs with
    | Some k => Some k
    | None => km !! type
    end.
Proof.
  revert km. induction regs as [|[t k] regs IH]; intros km; [done|].
  cbn [X86.register_all foldl]. fold (X86.register_all regs).
  etrans; [apply IH|]. cbn [X86.RegisterUnary2Kernel fst snd].
  unfold X86.last_registered. rewrite filter_cons. cbn [fst]. case_decide as Ht.
  - subst t. rewrite last_cons.
    destruct (list.last (filter _ regs)); [done|]. cbn.
    unfold X86.unary2_kernel_avx_func_t in *. by rewrite lookup_insert_eq.
  - destruct (list.last (filter _ regs)); [done|]. cbn.
    unfold X86.unary2_kernel_avx_func_t in *. by rewrite lookup_insert_ne.
Qed.

(** X5: after any sequence of registrations on the map as it is first
    constructed, the lookup of a kind succeeds exactly when the last
    registration of that kind gave a kernel, and it returns that kernel; a
    kind never registered, or last registered with the null pointer, gets
    the kernel-not-found status and the caller's pointer stays as it was. *)
Theorem lookup_after_registrations regs type kernel :
  X86.GetUnary2Kernel (X86.register_all regs X86.kernel_map_at_start) type kernel
  = match X86.last_registered type regs with
    | Some (Some f) => (Status_OK, Some f)
    | _ => (X86.kernel_not_found, kernel)
    end.
Proof.
  unfold X86.GetUnary2Kernel.
  pose proof (register_all_lookup regs X86.kernel_map_at_start type) as Hl.
  unfold X86.unary2_kernel_avx_func_t in *. rewrite Hl.
  destruct (X86.last_registered type regs) as [[f|]|]; done.
Qed.

Section DoForward.
Variable base : Blob F → list F.

(** X6: with at least one input and one output blob, [DoForward] returns
    [TNN_OK] in every case.  With a kernel registered for the layer's kind
    the output holds what the kernel made of the output's dims, the input
    data and the output data, in one call; with none (or the null pointer)
    the failure of the dispatch is dropped: the output is what it was, no
    kernel ran, and the status is still [TNN_OK]. *)
Theorem DoForward_reports_success km type_ (param_ : LayerParam) input output
    inputs outputs :
  inputs !! 0 = Some input → outputs !! 0 = Some output →
  X86.DoForward base km type_ param_ inputs outputs
  = Some (Status_OK,
      match km !! type_ with
      | Some (Some f) =>
          X86.mkDispatched
            (f (dims (blob_desc output)) (base input) (base output) param_) 1
      | _ => X86.mkDispatched (base output) 0
      end).
Proof.
  intros Hin Hout. unfold X86.DoForward. rewrite Hin, Hout. cbn [mbind option_bind].
  rewrite dispatch_by_lookup.
  destruct (km !! type_) as [[f|]|]; done.
Qed.

End DoForward.
End RegistryDispatch.

(** ** The ARM kernels, shape by shape *)

Section ArmKernelProperties.
Context `{Scalar R}.
Add Ring scalar_ring_kernels : sc_ring.

Lemma sum_upto_ext n (f g : nat → R) :
  (∀ i, i < n → f i = g i) → sum_upto n f = sum_upto n g.
Proof.
  induction n as [|n IH]; intros Hfg; [done|]. cbn [sum_upto].
  rewrite IH, Hfg by (intros; auto with lia). done.
Qed.

Lemma sum_upto_add a b (f : nat → R) :
  sum_upto (a + b) f = (sum_upto a f + sum_upto b (λ i, f (a + i)%nat))%S.
Proof.
  induction b as [|b IH].
  - rewrite Nat.add_0_r. cbn [sum_upto]. ring.
  - rewrite Nat.add_succ_r. cbn [sum_upto]. rewrite IH. ring.
Qed.

(** A flat buffer read as a matrix. *)
Lemma tabulate_tab2 rows cols (F : nat → nat → nat → R) :
  tabulate (rows * cols) (λ p, F p (p / cols) (p mod cols))
  = tab2 rows cols (λ r c, F (r * cols + c) r c).
Proof.
  apply tabulate_ext. intros p Hp. f_equal.
  rewrite (Nat.div_mod_eq p cols) at 1. lia.
Qed.

Lemma at2_app_l (m1 m2 : list R) stride rows r c :
  length m1 = rows * stride → r < rows → c < stride →
  at2 (m1 ++ m2) stride r c = at2 m1 stride r c.
Proof. intros Hm Hr Hc. unfold at2. apply lookup_total_app_l. nia. Qed.

Lemma at2_app_r (m1 m2 : list R) stride rows r c :
  length m1 = rows * stride →
  at2 (m1 ++ m2) stride (rows + r) c = at2 m2 stride r c.
Proof.
  intros Hm. unfold at2. rewrite lookup_total_app_r by nia. f_equal. nia.
Qed.

Lemma take_tabulate k n (f : nat → R) : k ≤ n → take k (tabulate n f) = tabulate k f.
Proof.
  intros Hk. unfold tabulate. rewrite <- fmap_take, take_seq.
  by rewrite Nat.min_l.
Qed.

(** X7: for an input width that is a multiple of 4, and any batch and
    output width, [ExecWeightGrad] leaves in element [(o, i)] of the weight
    gradient the sum over the batch of [output_grad[b,o] * input[b,i]], added
    to the previous contents when accumulating and to zero otherwise. *)
Theorem weight_gradient_on_vector_widths acc batch oc ic (wg og input : list R) :
  length wg = oc * ic → length og = batch * oc → length input = batch * ic →
  ic mod 4 = 0 →
  Arm.ExecWeightGrad acc batch oc ic wg og input
  = Some (tab2 oc ic (λ o i,
      dest_init acc wg (o * ic + i) + weight_grad_sum batch oc ic og input o i)%S).
Proof.
  intros Hwg Hog Hin Hic.
  rewrite (ExecWeightGrad_multiple_of_4 acc batch oc ic wg og input) by done.
  f_equal.
  apply (tabulate_tab2 oc ic (λ p o i,
    dest_init acc wg p + weight_grad_sum batch oc ic og input o i)%S).
Qed.

(** X8: for an input width that is not a multiple of 4, a non-empty batch
    and at least one output, [ExecWeightGrad] on a weight gradient of exactly
    [oc * ic] elements indexes past the end of it: the scalar tail starts
    [ic << 2 >> 2 = ic] elements into the row. *)
Theorem weight_gradient_tail_out_of_bounds acc batch oc ic (wg og input : list R) :
  ic mod 4 ≠ 0 → 0 < batch → 0 < oc → length wg = oc * ic →
  Arm.ExecWeightGrad acc batch oc ic wg og input = None.
Proof. apply ExecWeightGrad_remainder_faults. Qed.

(** X9: gradient accumulation over micro-batches.  For an input width that
    is a multiple of 4, one call on a batch of [b1 + b2] rows leaves what a
    call on the first [b1] rows followed by an accumulating call on the other
    [b2] rows leaves. *)
Theorem weight_gradient_micro_batches acc b1 b2 oc ic (wg og1 og2 in1 in2 : list R) :
  length wg = oc * ic →
  length og1 = b1 * oc → length og2 = b2 * oc →
  length in1 = b1 * ic → length in2 = b2 * ic →
  ic mod 4 = 0 →
  Arm.ExecWeightGrad acc (b1 + b2) oc ic wg (og1 ++ og2) (in1 ++ in2)
  = Arm.ExecWeightGrad acc b1 oc ic wg og1 in1
    ≫= λ wg', Arm.ExecWeightGrad true b2 oc ic wg' og2 in2.
Proof.
  intros Hwg Hog1 Hog2 Hin1 Hin2 Hic.
  rewrite (ExecWeightGrad_multiple_of_4 acc (b1 + b2))
    by (rewrite ?length_app; lia).
  rewrite (ExecWeightGrad_multiple_of_4 acc b1) by done. cbn [mbind option_bind].
  rewrite (ExecWeightGrad_multiple_of_4 true b2)
    by (rewrite ?length_tabulate; done).
  f_equal. apply tabulate_ext. intros p Hp.
  assert (0 < ic) by (destruct ic; lia).
  assert (Ho : p / ic < oc) by (apply Nat.Div0.div_lt_upper_bound; lia).
  assert (Hi : p mod ic < ic) by (apply Nat.mod_upper_bound; lia).
  unfold dest_init at 2. rewrite lookup_total_tabulate by done.
  unfold weight_grad_sum. rewrite sum_upto_add.
  rewrite (sum_upto_ext b1 _ (λ b, at2 og1 oc b (p / ic) * at2 in1 ic b (p mod ic))%S).
  2:{ intros b Hb. by rewrite (at2_app_l og1 og2 oc b1), (at2_app_l in1 in2 ic b1). }
  rewrite (sum_upto_ext b2 _ (λ b, at2 og2 oc b (p / ic) * at2 in2 ic b (p mod ic))%S).
  2:{ intros b Hb. by rewrite (at2_app_r og1 og2 oc b1), (at2_app_r in1 in2 ic b1). }
  ring.
Qed.

(** X10: [ExecInputGrad] passes its operands to the matrix product in the
    right roles ([m = batch], [n = ic], [k = oc], leading dimensions [oc],
    [ic], [ic]): with the product as [c += a * b], element [(b, i)] of the
    input gradient is the sum over the outputs of
    [output_grad[b,o] * weight[o,i]], added to the previous contents when
    accumulating and to zero otherwise, for every shape. *)
Theorem input_gradient_matmul acc batch oc ic (ig og weight : list R) :
  length ig = batch * ic → length og = batch * oc → length weight = oc * ic →
  Arm.ExecInputGrad acc batch oc ic ig og weight
  = Some (tab2 batch ic (λ b i,
      dest_init acc ig (b * ic + i) + input_grad_sum oc ic og weight b i)%S).
Proof.
  intros Hig Hog Hw.
  rewrite (ExecInputGrad_correct acc batch oc ic ig og weight) by done.
  f_equal.
  apply (tabulate_tab2 batch ic (λ p b i,
    dest_init acc ig p + input_grad_sum oc ic og weight b i)%S).
Qed.

(** X11: [ExecBiasGrad] for an output width that is a multiple of 4, or on
    its single-row copy path.  Element [p < oc] of the bias gradient
    receives the sum over the batch of [output_grad[b,p]].  What it is added
    to is the previous contents when accumulating; otherwise the call has
    cleared the first [batch * oc] elements of the destination, not only the
    first [oc], and elements from [batch * oc] on are untouched. *)
Theorem bias_gradient_sums acc batch oc (bg og : list R) :
  length og = batch * oc → oc ≤ length bg →
  oc mod 4 = 0 ∨ (batch = 1 ∧ acc = false) →
  (acc = false → batch * oc ≤ length bg) →
  Arm.ExecBiasGrad acc batch oc bg og
  = Some (tabulate (length bg) (λ p,
      (if acc then bg !!! p
       else if decide (p < batch * oc) then sc0 else bg !!! p)
      + (if decide (p < oc) then bias_grad_sum batch oc og p else sc0))%S).
Proof.
  intros Hog Hbg [Hoc|[Hb Ha]] Hroom.
  - by apply ExecBiasGrad_multiple_of_4.
  - by apply ExecBiasGrad_fast_path.
Qed.

(** X12: off the single-row copy path, for an output width that is not a
    multiple of 4 and a non-empty batch, [ExecBiasGrad] on a bias gradient of
    exactly [oc] elements indexes past the end of it. *)
Theorem bias_gradient_tail_out_of_bounds acc batch oc (bg og : list R) :
  oc mod 4 ≠ 0 → 0 < batch → length bg = oc → ¬ (batch = 1 ∧ acc = false) →
  Arm.ExecBiasGrad acc batch oc bg og = None.
Proof.
  intros Hoc Hbatch Hbg Hgen. unfold Arm.ExecBiasGrad.
  replace (bool_decide (batch = 1) && negb acc) with false.
  - by apply ExecBiasGrad_general_remainder_faults.
  - symmetry. apply andb_false_iff. destruct acc; [by right|left].
    apply bool_decide_eq_false_2. naive_solver.
Qed.

(** X13: without accumulation and off the single-row copy path,
    [ExecBiasGrad] clears [batch * oc] elements of the bias gradient: one
    with fewer elements than that is overrun, whatever [oc] is; so is a bias
    gradient of exactly [oc] elements, [oc] at least 1, with two or more
    batch rows. *)
Theorem bias_overwrite_clears_batch_rows batch oc (bg og : list R) :
  batch ≠ 1 → length bg < batch * oc →
  Arm.ExecBiasGrad false batch oc bg og = None.
Proof.
  intros Hbatch Hbg. unfold Arm.ExecBiasGrad.
  rewrite bool_decide_eq_false_2 by done. cbn [andb].
  unfold Arm.ExecBiasGrad_general, memset0. cbn [negb].
  case_decide; [lia|done].
Qed.

(** X14: an empty batch.  [ExecWeightGrad] only clears the [oc * ic]
    elements of the weight gradient (or leaves them when accumulating), for
    every input width; [ExecBiasGrad] leaves the bias gradient as it is even
    without accumulation, since it clears [batch * oc = 0] elements. *)
Theorem empty_batch_gradients acc oc ic (wg bg og input : list R) :
  oc * ic ≤ length wg →
  Arm.ExecWeightGrad acc 0 oc ic wg og input
  = Some (if acc then wg else replicate (oc * ic) sc0 ++ drop (oc * ic) wg)
  ∧ Arm.ExecBiasGrad acc 0 oc bg og = Some bg.
Proof.
  intros Hwg. split.
  - unfold Arm.ExecWeightGrad, memset0. destruct acc; cbn [negb]; [done|].
    case_decide; [done|lia].
  - unfold Arm.ExecBiasGrad. rewrite bool_decide_eq_false_2 by done. cbn [andb].
    unfold Arm.ExecBiasGrad_general, memset0. destruct acc; cbn [negb]; [done|].
    case_decide; [|lia]. done.
Qed.

End ArmKernelProperties.

Section ArmOnGradProperties.
Context `{Scalar R}.
Add Ring scalar_ring_arm_ongrad : sc_ring.
Variable GetDim : DimsVector → nat → nat.
Variable GetDataCount : RawBuffer R → nat.

Local Abbreviation OnGrad := (Arm.OnGrad GetDim GetDataCount).

(** X15: whenever the ARM [OnGrad] returns a status other than [TNN_OK],
    the input, weight and bias gradient destinations are what they were
    before the call: every check stands before the first kernel. *)
Theorem arm_failure_leaves_destinations args dst st dst' :
  OnGrad args dst = Some (st, dst') → code st ≠ TNN_OK → dst' = dst.
Proof. apply arm_OnGrad_error_untouched. Qed.

(** X16: for a layer without bias, no call of the ARM [OnGrad] that
    returns changes the bias gradient destination, whatever the bias
    accumulate flag says. *)
Theorem bias_destination_without_bias args dst param st dst' :
  Arm.inner_product_param args = Some param → has_bias param = false →
  OnGrad args dst = Some (st, dst') →
  Arm.resource_grad_1 dst' = Arm.resource_grad_1 dst.
Proof.
  intros Hparam Hbias. unfold Arm.OnGrad. rewrite Hparam, Hbias.
  destruct (Arm.arm_context args); [|by intros [= <- <-]].
  destruct (Arm.inner_product_res args) as [res|]; [|by intros [= <- <-]].
  case_decide; [by intros [= <- <-]|].
  case_decide; [|by intros [= <- <-]].
  destruct (Arm.ExecInputGrad _ _ _ _ _ _ _); [|done]. cbn [mbind option_bind].
  destruct (Arm.ExecWeightGrad _ _ _ _ _ _ _); [|done]. cbn [mbind option_bind].
  by intros [= <- <-].
Qed.

(** X17: a float call of the ARM [OnGrad] whose input width is a multiple
    of 4 (and, with a bias, whose output width is one too) returns [TNN_OK]
    and leaves the three gradients of the numeric contract in the three
    destinations, each added to its previous contents under its own
    accumulate flag and to zero otherwise. *)
Theorem arm_gradients_on_vector_widths args dst param res :
  let batch := GetDim (dims (blob_desc (Arm.input_0 args))) 0 in
  let ic := Count (dims (blob_desc (Arm.input_0 args))) 1 in
  let oc := GetDim (Arm.output_0_dims args) 1 in
  let x := blob_data (Arm.input_0 args) in
  let g := Arm.output_grad_0 args in
  let w := buffer_data (weight_handle res) in
  let bg := Arm.resource_grad_1 dst in
  Arm.arm_context args = Some () →
  Arm.inner_product_param args = Some param →
  Arm.inner_product_res args = Some res →
  GetDataCount (weight_handle res) = oc * ic →
  data_type (blob_desc (Arm.input_0 args)) = DATA_TYPE_FLOAT →
  length x = batch * ic → length g = batch * oc → length w = oc * ic →
  length (Arm.input_grad_0 dst) = batch * ic →
  length (Arm.resource_grad_0 dst) = oc * ic →
  ic mod 4 = 0 →
  (has_bias param = true →
   oc mod 4 = 0 ∧ oc ≤ length bg
   ∧ (Arm.acc_resource_grad_1 args = false → batch * oc ≤ length bg)) →
  OnGrad args dst
  = Some (Status_OK, Arm.mkGradDest
      (tab2 batch ic (λ b i,
         dest_init (Arm.acc_input_grad_0 args) (Arm.input_grad_0 dst) (b * ic + i)
         + input_grad_sum oc ic g w b i)%S)
      (tab2 oc ic (λ o i,
         dest_init (Arm.acc_resource_grad_0 args) (Arm.resource_grad_0 dst) (o * ic + i)
         + weight_grad_sum batch oc ic g x o i)%S)
      (if has_bias param
       then tabulate (length bg) (λ p,
              (if Arm.acc_resource_grad_1 args then bg !!! p
               else if decide (p < batch * oc) then sc0 else bg !!! p)
              + (if decide (p < oc) then bias_grad_sum batch oc g p else sc0))%S
       else bg)).
Proof.
  intros batch ic oc x g w bg Hctx Hparam Hres Hcount Htype Hx Hg Hw Hig Hwg Hic Hbias.
  rewrite (arm_OnGrad_float GetDim GetDataCount args dst param res) by done.
  fold batch ic oc x g w bg.
  rewrite (ExecInputGrad_correct _ batch oc ic _ g w) by done.
  cbn [mbind option_bind].
  rewrite (ExecWeightGrad_multiple_of_4 _ batch oc ic _ g x) by done.
  cbn [mbind option_bind].
  rewrite (tabulate_tab2 batch ic (λ p b i,
    dest_init (Arm.acc_input_grad_0 args) (Arm.input_grad_0 dst) p
    + input_grad_sum oc ic g w b i)%S).
  rewrite (tabulate_tab2 oc ic (λ p o i,
    dest_init (Arm.acc_resource_grad_0 args) (Arm.resource_grad_0 dst) p
    + weight_grad_sum batch oc ic g x o i)%S).
  destruct (has_bias param).
  - destruct Hbias as (Hoc & Hlen & Hroom); [done|].
    rewrite (ExecBiasGrad_multiple_of_4 _ batch oc bg g) by done. done.
  - done.
Qed.

(** X29: the defect of the scalar tails reaches the entry point.  A float
    call of the ARM [OnGrad] that passes the checks, on a non-empty batch
    with at least one output and destinations of exactly the gradients'
    sizes, indexes past the end of a destination as soon as the input width
    is not a multiple of 4, or the layer has a bias, the output width is not
    a multiple of 4 and the bias is not on its single-row copy path. *)
Theorem arm_engine_needs_vector_widths args dst param res :
  let batch := GetDim (dims (blob_desc (Arm.input_0 args))) 0 in
  let ic := Count (dims (blob_desc (Arm.input_0 args))) 1 in
  let oc := GetDim (Arm.output_0_dims args) 1 in
  Arm.arm_context args = Some () →
  Arm.inner_product_param args = Some param →
  Arm.inner_product_res args = Some res →
  GetDataCount (weight_handle res) = oc * ic →
  data_type (blob_desc (Arm.input_0 args)) = DATA_TYPE_FLOAT →
  0 < batch → 0 < oc →
  length (Arm.resource_grad_0 dst) = oc * ic →
  length (Arm.resource_grad_1 dst) = oc →
  ic mod 4 ≠ 0
  ∨ (has_bias param = true ∧ oc mod 4 ≠ 0
     ∧ ¬ (batch = 1 ∧ Arm.acc_resource_grad_1 args = false)) →
  OnGrad args dst = None.
Proof.
  intros batch ic oc Hctx Hparam Hres Hcount Htype Hbatch Hoc Hwg Hbg Hwidth.
  rewrite (arm_OnGrad_float GetDim GetDataCount args dst param res) by done.
  fold batch ic oc.
  destruct (Arm.ExecInputGrad _ _ _ _ _ _ _); [|done]. cbn [mbind option_bind].
  destruct Hwidth as [Hic|(Hhb & Hocm & Hgen)].
  - by rewrite ExecWeightGrad_remainder_faults.
  - destruct (Arm.ExecWeightGrad _ _ _ _ _ _ _); [|done]. cbn [mbind option_bind].
    rewrite Hhb. unfold Arm.ExecBiasGrad.
    replace (bool_decide (batch = 1) && negb (Arm.acc_resource_grad_1 args))
      with false.
    + by rewrite ExecBiasGrad_general_remainder_faults.
    + symmetry. apply andb_false_iff.
      destruct (Arm.acc_resource_grad_1 args); [by right|left].
      apply bool_decide_eq_false_2. naive_solver.
Qed.

End ArmOnGradProperties.

(** ** The device-independent engine, path by path *)

Section LoopFaults.
Context {St : Type}.

(** A loop one of whose iterations faults in every state an invariant
    allows, faults. *)
Lemma for_from_faults (P : St → Prop) lo n (body : nat → St → option St) s i0 :
  (∀ i t t', P t → body i t = Some t' → P t') →
  P s → lo ≤ i0 < lo + n → (∀ t, P t → body i0 t = None) →
  for_from lo n body s = None.
Proof.
  intros Hb. revert lo s. induction n as [|n IH]; intros lo s Hs Hi Hf; [lia|].
  rewrite for_from_S. destruct (decide (lo = i0)) as [->|Hne].
  - by rewrite Hf.
  - destruct (body lo s) as [t|] eqn:Ht; [|done]. cbn.
    apply IH; [by eapply Hb|lia|done].
Qed.

Lemma for_faults (P : St → Prop) n (body : nat → St → option St) s i0 :
  (∀ i t t', P t → body i t = Some t' → P t') →
  P s → i0 < n → (∀ t, P t → body i0 t = None) →
  for_ n body s = None.
Proof. intros Hb Hs Hi Hf. apply (for_from_faults P 0 n body s i0); auto with lia. Qed.

End LoopFaults.

Section TrainProperties.
Context `{Scalar R}.
Add Ring scalar_ring_train_paths : sc_ring.

(** The loops read element [(nb - 1, no - 1)] of the output gradient and
    element [(nb - 1, ni - 1)] of the input. *)
Lemma grad_loops_short_operand has_bias nb ni no (og input weight : list R) bufs :
  0 < nb → 0 < ni → 0 < no →
  length og < nb * no ∨ length input < nb * ni →
  Train.grad_loops has_bias nb ni no og input weight bufs = None.
Proof.
  intros Hnb Hni Hno Hshort. unfold Train.grad_loops.
  apply (for_faults (λ _, True) _ _ _ (no - 1)); [done|done|lia|]. intros t1 _.
  apply (for_faults (λ _, True) _ _ _ (ni - 1)); [done|done|lia|]. intros t2 _.
  apply (for_faults (λ _, True) _ _ _ (nb - 1)); [done|done|lia|].
  intros [[wg ig] bg] _.
  destruct Hshort as [Hog|Hin].
  - rewrite (load_None og) by nia. done.
  - destruct (load og _); [|done]. cbn [mbind option_bind].
    rewrite (load_None input) by nia. done.
Qed.

(** With a bias, the loops write element [no - 1] of the bias gradient. *)
Lemma grad_loops_short_bias nb ni no (og input weight : list R) wg ig bg :
  0 < nb → 0 < ni → 0 < no → length bg < no →
  Train.grad_loops true nb ni no og input weight (wg, ig, bg) = None.
Proof.
  intros Hnb Hni Hno Hbg. unfold Train.grad_loops.
  set (P := λ t : list R * list R * list R, length t.2 = length bg).
  assert (Hinner : ∀ j k i t t', P t →
    (let '(weight_grad, input_grad, bias_grad) := t in
     g ← load og (i * no + j);
     x ← load input (i * ni + k);
     w0 ← load weight_grad (j * ni + k);
     weight_grad ← store weight_grad (j * ni + k) (w0 + g * x)%S;
     w ← load weight (j * ni + k);
     g0 ← load input_grad (i * ni + k);
     input_grad ← store input_grad (i * ni + k) (g0 + g * w)%S;
     bias_grad ← (if true && bool_decide (k = 0)
                  then b0 ← load bias_grad j; store bias_grad j (b0 + g)%S
                  else Some bias_grad);
     Some (weight_grad, input_grad, bias_grad)) = Some t' → P t').
  { intros j k i [[wg0 ig0] bg0] t'. unfold P. cbn [snd]. intros Hlen.
    destruct (load og _); [|done]. cbn [mbind option_bind].
    destruct (load input _); [|done]. cbn [mbind option_bind].
    destruct (load wg0 _); [|done]. cbn [mbind option_bind].
    destruct (store wg0 _ _); [|done]. cbn [mbind option_bind].
    destruct (load weight _); [|done]. cbn [mbind option_bind].
    destruct (load ig0 _); [|done]. cbn [mbind option_bind].
    destruct (store ig0 _ _); [|done]. cbn [mbind option_bind].
    cbn [andb]. case_bool_decide.
    - destruct (load bg0 j); [|done]. cbn [mbind option_bind].
      destruct (store bg0 j _) as [bg1|] eqn:Hst; [|done]. cbn [mbind option_bind].
      intros [= <-]. cbn [snd]. by rewrite (store_length _ _ _ _ Hst).
    - cbn [mbind option_bind]. by intros [= <-]. }
  apply (for_faults P _ _ _ (no - 1)); [|done|lia|].
  { intros j t t' Ht. apply (for_preserves P); [|done].
    intros k u u' Hu. apply (for_preserves P); [|done].
    intros i v v' Hv. apply Hinner. done. }
  intros t1 Ht1.
  apply (for_faults P _ _ _ 0); [|done|lia|].
  { intros k u u' Hu. apply (for_preserves P); [|done].
    intros i v v' Hv. apply Hinner. done. }
  intros t2 Ht2.
  apply (for_faults P _ _ _ 0); [|done|lia|].
  { intros i v v' Hv. apply Hinner. done. }
  intros [[wg0 ig0] bg0]. unfold P. cbn [snd]. intros Hlen.
  destruct (load og _); [|done]. cbn [mbind option_bind].
  destruct (load input _); [|done]. cbn [mbind option_bind].
  destruct (load wg0 _); [|done]. cbn [mbind option_bind].
  destruct (store wg0 _ _); [|done]. cbn [mbind option_bind].
  destruct (load weight _); [|done]. cbn [mbind option_bind].
  destruct (load ig0 _); [|done]. cbn [mbind option_bind].
  destruct (store ig0 _ _); [|done]. cbn [mbind option_bind].
  rewrite bool_decide_eq_true_2 by done. cbn [andb].
  rewrite (load_None bg0) by lia. done.
Qed.

Section OnGrad.
Variable TrainContext : Type.
Variable backward_grads_blob : TrainContext → gmap nat (RawBuffer R).
Variable UpdateGradValue : Blob R → RawBuffer R → TrainContext → TrainContext.
Variable UpdateGradValue_resource :
  RawBuffer R → RawBuffer R → TrainContext → TrainContext.

Local Abbreviation OnGrad :=
  (Train.OnGrad TrainContext backward_grads_blob UpdateGradValue
     UpdateGradValue_resource).

(** X18: a float call on canonical-layout tensors whose validations pass,
    for every batch, input width and output width.  [OnGrad] returns
    [TNN_OK] and hands over, in this order, the input gradient (dims, dtype
    and layout of the input), the weight gradient (dims [[no; ni]], layout of
    the weight) and, with a bias, the bias gradient.  The input and weight
    gradients hold the sums of the numeric contract; the bias gradient holds
    its batch sums when the input width is at least 1, and zeros when it is
    0. *)
Theorem train_gradients input0 output0 layer_param resource output_grad context
    nb rest :
  let layer := Train.mkBaseLayer R [input0] [output0]
                 (Some (Train.InnerProductParam layer_param))
                 (Some (Train.InnerProductResource resource)) in
  let desc := blob_desc input0 in
  let ni := Count (dims desc) 1 in
  let no := num_output layer_param in
  let x := blob_data input0 in
  let g := buffer_data output_grad in
  let w := buffer_data (weight_handle resource) in
  data_format desc = DATA_FORMAT_NCHW →
  buffer_format output_grad = DATA_FORMAT_NCHW →
  data_type desc = DATA_TYPE_FLOAT →
  data_type (blob_desc output0) = DATA_TYPE_FLOAT →
  backward_grads_blob context !! blob_addr output0 = Some output_grad →
  dims desc = nb :: rest →
  buffer_type (weight_handle resource) = DATA_TYPE_FLOAT →
  bytes_size (weight_handle resource) = no * ni * 4 →
  length w = no * ni →
  length x = nb * ni →
  length g = nb * no →
  (has_bias layer_param = true →
   GetBytesSize (buffer_type (bias_handle resource)) = 4) →
  ∃ input_grad weight_grad bias_grad,
    OnGrad layer context
    = Some (Status_OK,
        (if has_bias layer_param
         then UpdateGradValue_resource (bias_handle resource) bias_grad
         else id)
          (UpdateGradValue_resource (weight_handle resource) weight_grad
             (UpdateGradValue input0 input_grad context)))
    ∧ input_grad
      = mkRawBuffer (nb * ni * 4) (dims desc) DATA_TYPE_FLOAT DATA_FORMAT_NCHW
          (tab2 nb ni (input_grad_sum no ni g w))
    ∧ weight_grad
      = mkRawBuffer (no * ni * 4) [no; ni] DATA_TYPE_FLOAT
          (buffer_format (weight_handle resource))
          (tab2 no ni (weight_grad_sum nb no ni g x))
    ∧ buffer_data bias_grad
      = tabulate no (λ o, if decide (ni = 0) then sc0 else bias_grad_sum nb no g o).
Proof.
  intros layer desc ni no x g w Hfi Hfg Hti Hto Hog Hdims Htw Hbytes Hw Hx Hg Hbias.
  destruct (train_OnGrad_float TrainContext backward_grads_blob UpdateGradValue
              UpdateGradValue_resource input0 output0 layer_param resource
              output_grad context nb rest)
    as (ig & wg & bg & Hrun & Hwg & Hig & Hbg); try done.
  - fold desc. by rewrite Hfi.
  - by rewrite Hfg.
  - fold layer desc ni no w in Hrun, Hwg, Hig, Hbg.
    rewrite ?Hfi, ?Hfg in Hwg. rewrite ?Hfi, ?Hfg in Hig. rewrite ?Hfi, ?Hfg in Hbg.
    cbn [ConvertToNCHW] in Hwg, Hig, Hbg.
    fold x g in Hwg, Hig, Hbg.
    exists ig, wg, bg. split; [done|]. rewrite Hwg, Hig.
    unfold ConvertToNC4HW4. rewrite Hfi. done.
Qed.

(** X19: whenever the device-independent [OnGrad] returns a status other
    than [TNN_OK], the context it returns is the one it was given: no
    gradient has been handed over. *)
Theorem train_failure_leaves_context layer context st context' :
  OnGrad layer context = Some (st, context') → code st ≠ TNN_OK →
  context' = context.
Proof.
  unfold Train.OnGrad.
  destruct (Train.input_blobs_ layer) as [|input0 [|? ?]]; try by intros [= <- <-].
  destruct (Train.output_blobs_ layer) as [|output0 [|? ?]]; try by intros [= <- <-].
  case_decide; [by intros [= <- <-]|].
  destruct (Train.cast_param _) as [layer_param|]; [|by intros [= <- <-]].
  destruct (Train.cast_resource _) as [resource|]; [|by intros [= <- <-]].
  destruct (backward_grads_blob context !! blob_addr output0) as [output_grad|];
    [|by intros [= <- <-]].
  destruct (dims (blob_desc input0) !! 0) as [input_batch|]; [|done].
  cbn [mbind option_bind].
  case_decide; [by intros [= <- <-]|].
  case_decide; [by intros [= <- <-]|].
  case_decide; [|by intros [= <- <-]].
  destruct (Train.grad_loops _ _ _ _ _ _ _ _) as [[[wg ig] bg]|]; [|done].
  cbn [mbind option_bind]. by intros [= <- <-].
Qed.

(** X20: [OnGrad] reports "output grad not found" (and returns the context
    unchanged) exactly when the layer has one input and one output of one
    dtype, float or bfp16, its parameter and resource are those of an inner
    product, and the context holds no upstream gradient for the output
    blob. *)
Theorem missing_upstream_gradient_reported layer context :
  OnGrad layer context
  = Some (Train.error "InnerProductLayerGrad output grad not found", context)
  ↔ ∃ input0 output0,
      Train.input_blobs_ layer = [input0]
      ∧ Train.output_blobs_ layer = [output0]
      ∧ (data_type (blob_desc output0) = DATA_TYPE_BFP16
         ∨ data_type (blob_desc output0) = DATA_TYPE_FLOAT)
      ∧ data_type (blob_desc input0) = data_type (blob_desc output0)
      ∧ is_Some (Train.cast_param (Train.param_ layer))
      ∧ is_Some (Train.cast_resource (Train.resource_ layer))
      ∧ backward_grads_blob context !! blob_addr output0 = None.
Proof.
  unfold Train.OnGrad. split.
  - destruct (Train.input_blobs_ layer) as [|input0 [|? ?]]; try by intros [= ?].
    destruct (Train.output_blobs_ layer) as [|output0 [|? ?]]; try by intros [= ?].
    case_decide as Htypes; [by intros [= ?]|].
    destruct (Train.cast_param _) as [layer_param|]; [|by intros [= ?]].
    destruct (Train.cast_resource _) as [resource|]; [|by intros [= ?]].
    destruct (backward_grads_blob context !! blob_addr output0) as [output_grad|]
      eqn:Hog.
    + destruct (dims (blob_desc input0) !! 0) as [input_batch|]; [|done].
      cbn [mbind option_bind].
      case_decide; [by intros [= ?]|].
      case_decide; [by intros [= ?]|].
      case_decide; [|by intros [= ?]].
      destruct (Train.grad_loops _ _ _ _ _ _ _ _) as [[[wg ig] bg]|]; [|done].
      cbn [mbind option_bind]. by intros [= ?].
    + intros _. exists input0, output0. split_and!; try done.
      * destruct (data_type (blob_desc output0)); try (by left); try (by right);
          exfalso; apply Htypes; left; by split.
      * destruct (decide (data_type (blob_desc input0) = data_type (blob_desc output0)));
          [done|]. exfalso. apply Htypes. by right.
  - intros (input0 & output0 & -> & -> & Ho & Hio & [p ->] & [r ->] & ->).
    case_decide as Htypes; [|done].
    destruct Htypes as [[? ?]|?]; [destruct Ho|]; done.
Qed.

(** X21: a layer with a number of inputs or of outputs other than one, or
    whose parameter or resource is null or of another layer type, is
    refused with one of the first three error messages and the context
    unchanged; nothing is dereferenced on the way. *)
Theorem malformed_layer_rejected layer context :
  length (Train.input_blobs_ layer) ≠ 1 ∨ length (Train.output_blobs_ layer) ≠ 1
  ∨ Train.cast_param (Train.param_ layer) = None
  ∨ Train.cast_resource (Train.resource_ layer) = None →
  ∃ msg, OnGrad layer context = Some (Train.error msg, context)
    ∧ (msg = "input size or output size not match in InnerProductLayerGrad"
       ∨ msg = "output datatype not match in InnerProductLayerGrad"
       ∨ msg = "InnerProductLayerGrad param or resource missing").
Proof.
  intros Hbad. unfold Train.OnGrad.
  destruct (Train.input_blobs_ layer) as [|input0 [|? ?]];
    try (eexists; split; [done|]; by left).
  destruct (Train.output_blobs_ layer) as [|output0 [|? ?]];
    try (eexists; split; [done|]; by left).
  case_decide; [eexists; split; [done|]; right; by left|].
  destruct Hbad as [Hb|[Hb|[Hb|Hb]]]; try done; rewrite Hb.
  - eexists; split; [done|]; right; by right.
  - destruct (Train.cast_param _); eexists; (split; [done|]); right; by right.
Qed.

(** X22: a weight buffer of a dtype other than float is refused with the
    context unchanged, also when the blobs are float and the byte size
    fits; when the validations that precede the test pass, the message is
    the one of the weight dtype test. *)
Theorem non_float_weight_rejected input0 output0 layer_param resource context :
  let layer := Train.mkBaseLayer R [input0] [output0]
                 (Some (Train.InnerProductParam layer_param))
                 (Some (Train.InnerProductResource resource)) in
  dims (blob_desc input0) ≠ [] →
  buffer_type (weight_handle resource) ≠ DATA_TYPE_FLOAT →
  ∃ msg,
    OnGrad layer context = Some (Train.error msg, context)
    ∧ ((data_type (blob_desc output0) = DATA_TYPE_BFP16
        ∨ data_type (blob_desc output0) = DATA_TYPE_FLOAT) →
       data_type (blob_desc input0) = data_type (blob_desc output0) →
       is_Some (backward_grads_blob context !! blob_addr output0) →
       msg = "InnerProductLayerGrad resource don't support ").
Proof.
  intros layer Hdims Hwt. unfold Train.OnGrad.
  cbn [Train.input_blobs_ Train.output_blobs_ layer Train.param_ Train.resource_
       Train.cast_param Train.cast_resource].
  case_decide as Htypes.
  { eexists. split; [done|]. intros [Ho|Ho] Hio _; destruct Htypes as [[? ?]|?];
      congruence. }
  destruct (backward_grads_blob context !! blob_addr output0) as [output_grad|].
  2:{ eexists. split; [done|]. by intros _ _ [? ?]. }
  destruct (dims (blob_desc input0)) as [|batch rest] eqn:Hd; [done|].
  cbn [lookup list_lookup mbind option_bind].
  case_decide; [|done]. by eexists.
Qed.

(** X24: the sizes of the input blob and of the upstream gradient are not
    checked against the dims.  On a float call that passes every validation,
    with batch and widths at least 1, an upstream gradient of fewer than
    [batch * output_width] elements, or an input of fewer than
    [batch * input_width], is read past its end. *)
Theorem operand_sizes_unchecked input0 output0 layer_param resource output_grad
    context nb rest :
  let layer := Train.mkBaseLayer R [input0] [output0]
                 (Some (Train.InnerProductParam layer_param))
                 (Some (Train.InnerProductResource resource)) in
  let desc := blob_desc input0 in
  let ni := Count (dims desc) 1 in
  let no := num_output layer_param in
  let x := ConvertToNCHW (blob_data input0) (dims desc) (data_format desc) in
  let g := ConvertToNCHW (buffer_data output_grad) (buffer_dims output_grad)
             (buffer_format output_grad) in
  data_type desc = DATA_TYPE_FLOAT →
  data_type (blob_desc output0) = DATA_TYPE_FLOAT →
  backward_grads_blob context !! blob_addr output0 = Some output_grad →
  dims desc = nb :: rest →
  buffer_type (weight_handle resource) = DATA_TYPE_FLOAT →
  bytes_size (weight_handle resource) = no * ni * 4 →
  0 < nb → 0 < ni → 0 < no →
  length g < nb * no ∨ length x < nb * ni →
  OnGrad layer context = None.
Proof.
  intros layer desc ni no x g Hti Hto Hog Hdims Htw Hbytes Hnb Hni Hno Hshort.
  unfold Train.OnGrad. cbn [Train.input_blobs_ Train.output_blobs_ layer
    Train.param_ Train.resource_ Train.cast_param Train.cast_resource].
  fold desc. rewrite Hti, Hto. case_decide as Hd; [by destruct Hd as [[_ ?]|?]|].
  rewrite Hog, Hdims. cbn [lookup list_lookup mbind option_bind].
  rewrite Htw. case_decide; [done|]. cbn [GetBytesSize].
  rewrite <- Hdims. fold ni no.
  case_decide as Hsz; [by destruct Hsz; apply size_test_passes|].
  case_decide; [|done]. fold x g.
  rewrite grad_loops_short_operand by done. done.
Qed.

(** X25: the dtype of the bias handle is not checked.  The bias gradient is
    allocated with [output_width * size_of(bias dtype)] bytes and written as
    [output_width] floats: on a float call with a bias that passes every
    validation, with batch and widths at least 1, a bias dtype of fewer than
    4 bytes makes the loops write past the end of the bias gradient. *)
Theorem bias_dtype_unchecked input0 output0 layer_param resource output_grad
    context nb rest :
  let layer := Train.mkBaseLayer R [input0] [output0]
                 (Some (Train.InnerProductParam layer_param))
                 (Some (Train.InnerProductResource resource)) in
  let desc := blob_desc input0 in
  let ni := Count (dims desc) 1 in
  let no := num_output layer_param in
  data_type desc = DATA_TYPE_FLOAT →
  data_type (blob_desc output0) = DATA_TYPE_FLOAT →
  backward_grads_blob context !! blob_addr output0 = Some output_grad →
  dims desc = nb :: rest →
  buffer_type (weight_handle resource) = DATA_TYPE_FLOAT →
  bytes_size (weight_handle resource) = no * ni * 4 →
  0 < nb → 0 < ni → 0 < no →
  has_bias layer_param = true →
  GetBytesSize (buffer_type (bias_handle resource)) < 4 →
  OnGrad layer context = None.
Proof.
  intros layer desc ni no Hti Hto Hog Hdims Htw Hbytes Hnb Hni Hno Hhb Hsz.
  unfold Train.OnGrad. cbn [Train.input_blobs_ Train.output_blobs_ layer
    Train.param_ Train.resource_ Train.cast_param Train.cast_resource].
  fold desc. rewrite Hti, Hto. case_decide as Hd; [by destruct Hd as [[_ ?]|?]|].
  rewrite Hog, Hdims. cbn [lookup list_lookup mbind option_bind].
  rewrite Htw. case_decide; [done|]. cbn [GetBytesSize].
  rewrite <- Hdims. fold ni no.
  case_decide as Hsz'; [by destruct Hsz'; apply size_test_passes|].
  case_decide; [|done]. rewrite Hhb.
  rewrite grad_loops_short_bias; [done..|].
  unfold new_RawBuffer. cbn [buffer_data]. rewrite length_replicate.
  unfold Count. cbn [drop foldr].
  apply Nat.Div0.div_lt_upper_bound. nia.
Qed.

(** X26: an input blob of rank 0 is not refused: once the dtypes, the
    parameter, the resource and the upstream gradient are found in order,
    [OnGrad] reads [input0_dims[0]] of the empty dims vector. *)
Theorem rank0_input_unchecked input0 output0 layer_param resource output_grad
    context :
  let layer := Train.mkBaseLayer R [input0] [output0]
                 (Some (Train.InnerProductParam layer_param))
                 (Some (Train.InnerProductResource resource)) in
  dims (blob_desc input0) = [] →
  data_type (blob_desc output0) = DATA_TYPE_BFP16
  ∨ data_type (blob_desc output0) = DATA_TYPE_FLOAT →
  data_type (blob_desc input0) = data_type (blob_desc output0) →
  backward_grads_blob context !! blob_addr output0 = Some output_grad →
  OnGrad layer context = None.
Proof.
  intros layer Hdims Ho Hio Hog. unfold Train.OnGrad.
  cbn [Train.input_blobs_ Train.output_blobs_ layer Train.param_ Train.resource_
       Train.cast_param Train.cast_resource].
  case_decide as Htypes; [destruct Htypes as [[? ?]|?]; [destruct Ho|]; done|].
  by rewrite Hog, Hdims.
Qed.

(** X27: a bfp16 layer that passes every validation is refused by the
    branch the source keeps for it, "don't support bft16 for now", after
    the buffers are set up and before any hand-over. *)
Theorem bfp16_declared_unsupported input0 output0 layer_param resource output_grad
    context :
  let layer := Train.mkBaseLayer R [input0] [output0]
                 (Some (Train.InnerProductParam layer_param))
                 (Some (Train.InnerProductResource resource)) in
  data_type (blob_desc input0) = DATA_TYPE_BFP16 →
  data_type (blob_desc output0) = DATA_TYPE_BFP16 →
  backward_grads_blob context !! blob_addr output0 = Some output_grad →
  dims (blob_desc input0) ≠ [] →
  buffer_type (weight_handle resource) = DATA_TYPE_FLOAT →
  bytes_size (weight_handle resource)
  = num_output layer_param * Count (dims (blob_desc input0)) 1 * 4 →
  OnGrad layer context
  = Some (Train.error "InnerProductLayerGrad don't support bft16 for now", context).
Proof. apply train_OnGrad_bfp16. Qed.

End OnGrad.
End TrainProperties.

(** ** The two engines side by side *)

Section EnginesAgree.
Context `{Scalar R}.
Add Ring scalar_ring_agree : sc_ring.
Variable TrainContext : Type.
Variable backward_grads_blob : TrainContext → gmap nat (RawBuffer R).
Variable UpdateGradValue : Blob R → RawBuffer R → TrainContext → TrainContext.
Variable UpdateGradValue_resource :
  RawBuffer R → RawBuffer R → TrainContext → TrainContext.
Variable GetDim : DimsVector → nat → nat.
Variable GetDataCount : RawBuffer R → nat.

(** X28: the two engines on one float layer in canonical layout, the ARM
    one called without accumulation on destinations of exactly the
    gradients' sizes.  The input width is a multiple of 4; a layer with a
    bias has one batch row, an input width of at least 1 and a 4-byte bias
    dtype.  Then both engines return [TNN_OK], and the ARM destinations hold
    the input gradient, the weight gradient and, with a bias, the bias
    gradient that the device-independent engine hands over; without a bias
    the ARM bias destination is what it was. *)
Theorem engines_agree input0 output0 layer_param resource output_grad context
    nb rest dst :
  let layer := Train.mkBaseLayer R [input0] [output0]
                 (Some (Train.InnerProductParam layer_param))
                 (Some (Train.InnerProductResource resource)) in
  let desc := blob_desc input0 in
  let ni := Count (dims desc) 1 in
  let no := num_output layer_param in
  let x := blob_data input0 in
  let g := buffer_data output_grad in
  let w := buffer_data (weight_handle resource) in
  let args := Arm.mkOnGradArgs input0 (dims (blob_desc output0)) g
                false false false (Some ()) (Some layer_param) (Some resource) in
  data_format desc = DATA_FORMAT_NCHW →
  buffer_format output_grad = DATA_FORMAT_NCHW →
  data_type desc = DATA_TYPE_FLOAT →
  data_type (blob_desc output0) = DATA_TYPE_FLOAT →
  backward_grads_blob context !! blob_addr output0 = Some output_grad →
  dims desc = nb :: rest →
  GetDim (dims desc) 0 = nb →
  GetDim (dims (blob_desc output0)) 1 = no →
  buffer_type (weight_handle resource) = DATA_TYPE_FLOAT →
  bytes_size (weight_handle resource) = no * ni * 4 →
  GetDataCount (weight_handle resource) = no * ni →
  length w = no * ni → length x = nb * ni → length g = nb * no →
  length (Arm.input_grad_0 dst) = nb * ni →
  length (Arm.resource_grad_0 dst) = no * ni →
  ni mod 4 = 0 →
  (has_bias layer_param = true →
   length (Arm.resource_grad_1 dst) = no ∧ nb = 1 ∧ 0 < ni
   ∧ GetBytesSize (buffer_type (bias_handle resource)) = 4) →
  ∃ input_grad weight_grad bias_grad d,
    Train.OnGrad TrainContext backward_grads_blob UpdateGradValue
      UpdateGradValue_resource layer context
    = Some (Status_OK,
        (if has_bias layer_param
         then UpdateGradValue_resource (bias_handle resource) bias_grad
         else id)
          (UpdateGradValue_resource (weight_handle resource) weight_grad
             (UpdateGradValue input0 input_grad context)))
    ∧ Arm.OnGrad GetDim GetDataCount args dst = Some (Status_OK, d)
    ∧ Arm.input_grad_0 d = buffer_data input_grad
    ∧ Arm.resource_grad_0 d = buffer_data weight_grad
    ∧ Arm.resource_grad_1 d
      = (if has_bias layer_param then buffer_data bias_grad
         else Arm.resource_grad_1 dst).
Proof.
  intros layer desc ni no x g w args Hfi Hfg Hti Hto Hog Hdims Hnb Hno Htw Hbytes
    Hcount Hw Hx Hg Hig Hwg Hni Hbias.
  destruct (train_OnGrad_float TrainContext backward_grads_blob UpdateGradValue
              UpdateGradValue_resource input0 output0 layer_param resource
              output_grad context nb rest)
    as (ig & wg & bg & Hrun & Hwgv & Higv & Hbgv); try done.
  { fold desc. by rewrite Hfi. }
  { by rewrite Hfg. }
  { intros Hb. by destruct (Hbias Hb) as (_ & _ & _ & ?). }
  fold layer desc ni no w in Hrun, Hwgv, Higv, Hbgv.
  rewrite ?Hfi, ?Hfg in Hwgv. rewrite ?Hfi, ?Hfg in Higv. rewrite ?Hfi, ?Hfg in Hbgv.
  cbn [ConvertToNCHW] in Hwgv, Higv, Hbgv. fold x g in Hwgv, Higv, Hbgv.
  exists ig, wg, bg.
  rewrite (arm_OnGrad_float GetDim GetDataCount args dst layer_param resource);
    try done.
  2:{ cbn [args Arm.input_0 Arm.output_0_dims]. fold desc. by rewrite Hno, Hcount. }
  cbn [args Arm.input_0 Arm.output_0_dims Arm.output_grad_0 Arm.acc_input_grad_0
       Arm.acc_resource_grad_0 Arm.acc_resource_grad_1].
  fold desc ni x w. rewrite Hnb, Hno.
  rewrite (ExecInputGrad_correct false nb no ni _ g w) by done.
  cbn [mbind option_bind].
  rewrite (ExecWeightGrad_multiple_of_4 false nb no ni _ g x) by done.
  cbn [mbind option_bind].
  assert (Hbd : ∃ b,
    (if has_bias layer_param
     then Arm.ExecBiasGrad false nb no (Arm.resource_grad_1 dst) g
     else Some (Arm.resource_grad_1 dst)) = Some b
    ∧ b = (if has_bias layer_param then buffer_data bg
           else Arm.resource_grad_1 dst)).
  { destruct (has_bias layer_param); [|by eexists].
    destruct Hbias as (Hlen & Hnb1 & Hni0 & _); [done|].
    rewrite (ExecBiasGrad_fast_path false nb no (Arm.resource_grad_1 dst) g)
      by (done || lia).
    eexists. split; [done|]. rewrite Hlen, Hbgv.
    apply tabulate_ext. intros p Hp.
    repeat case_decide; try lia; try nia; ring. }
  destruct Hbd as (b & -> & Hb). cbn [mbind option_bind].
  eexists. split; [done|]. split; [done|].
  cbn [Arm.input_grad_0 Arm.resource_grad_0 Arm.resource_grad_1].
  rewrite Higv, Hwgv. unfold ConvertToNC4HW4. rewrite Hfi.
  cbn [SetDataFormat SetDataType buffer_data].
  split_and!.
  - apply tabulate_ext. intros p Hp. unfold dest_init. ring.
  - apply tabulate_ext. intros p Hp. unfold dest_init. ring.
  - done.
Qed.

End EnginesAgree.

(** ** The engines on sample tensors *)

(** C1: runs that end off the numeric contract.  The device-independent
    engine, on one batch row with no input column and one output with a
    bias, returns [TNN_OK] and hands over the bias gradient 0 where the
    contract's sum over the batch is the upstream gradient 5: the bias is
    only added in the iterations with [k == 0], and there is none.  The ARM
    engine, on batch 2, input width 3 and output width 2, faults in
    [ExecWeightGrad]: the scalar tail indexes one row too far.  Given three
    elements of room after [weight_grad] and after [input], so that every
    access lands inside a buffer, [ExecWeightGrad] leaves the first row at
    zero and the second at [4, 5, 6], where the contract has
    [13, 17, 21] and [18, 24, 30].  On that shape the device-independent
    engine hands over the contract's values. *)
Theorem inner_product_gradient_runs :
  outcome (train_OnGrad
     (sample_layer DATA_TYPE_FLOAT DATA_FORMAT_NCHW [1; 0] [] 1 [] true)
     (sample_context (float_buffer [1; 1] DATA_FORMAT_NCHW [5%Z])))
  = Some (TNN_OK, [[]; []; [0%Z]])
  ∧ bias_grad_sum 1 1 [5%Z] 0 = 5%Z
  ∧ arm_OnGrad
      (sample_args DATA_TYPE_FLOAT [2; 3] [1; 2; 3; 4; 5; 6]%Z 2 [1; 0; 2; 0; 1; 3]%Z
         [1; 2; 3; 4]%Z true false false false)
      (Arm.mkGradDest (replicate 6 0%Z) (replicate 6 0%Z) (replicate 2 0%Z))
    = None
  ∧ Arm.ExecWeightGrad false 2 2 3 (replicate 9 0%Z) [1; 2; 3; 4]%Z
      [1; 2; 3; 4; 5; 6; 0; 0; 0]%Z
    = Some [0; 0; 0; 4; 5; 6; 8; 10; 12]%Z
  ∧ tab2 2 3 (weight_grad_sum 2 2 3 [1; 2; 3; 4]%Z [1; 2; 3; 4; 5; 6]%Z)
    = [13; 17; 21; 18; 24; 30]%Z
  ∧ outcome (train_OnGrad
       (sample_layer DATA_TYPE_FLOAT DATA_FORMAT_NCHW [2; 3] [1; 2; 3; 4; 5; 6]%Z 2
          [1; 0; 2; 0; 1; 3]%Z true)
       (sample_context (float_buffer [2; 2] DATA_FORMAT_NCHW [1; 2; 3; 4]%Z)))
    = Some (TNN_OK, [[1; 2; 8; 3; 4; 18]; [13; 17; 21; 18; 24; 30]; [4; 6]]%Z).
Proof. split_and!; by vm_compute. Qed.

(** C3: the vectorized paths against the naive scalar references, one
    batch row and one output row, for the widths 1, 3, 5 and 9 and for 4
    and 8.  At the multiples of 4 the two agree.  At the other widths the
    reference returns the sums and the vectorized path faults: its scalar
    tail starts at offset [n << 2 >> 2], which is [n] and not [n] rounded
    down to a multiple of 4.  Given room after the buffers, so that the
    tail's accesses land inside them, the vectorized path at width 5 leaves
    the fifth element at zero and puts a product into the sixth.  With two
    batch rows and no accumulation the bias path faults at width 4 too: it
    clears [batch * oc] elements of a buffer of [oc]. *)
Theorem vectorized_paths_against_reference :
  Forall (λ n,
    Arm.ExecWeightGrad false 1 1 n (replicate n 0%Z) [2%Z] (ramp n) = None
    ∧ weight_grad_reference false 1 1 n (replicate n 0%Z) [2%Z] (ramp n)
      = Some ((λ x, x * 2)%Z <$> ramp n)
    ∧ Arm.ExecBiasGrad true 1 n (replicate n 0%Z) (ramp n) = None
    ∧ bias_grad_reference true 1 n (replicate n 0%Z) (ramp n) = Some (ramp n))
    [1; 3; 5; 9]
  ∧ Forall (λ n,
      Arm.ExecWeightGrad false 1 1 n (replicate n 0%Z) [2%Z] (ramp n)
      = weight_grad_reference false 1 1 n (replicate n 0%Z) [2%Z] (ramp n)
      ∧ Arm.ExecBiasGrad true 1 n (replicate n 0%Z) (ramp n)
        = bias_grad_reference true 1 n (replicate n 0%Z) (ramp n))
      [4; 8]
  ∧ Arm.ExecWeightGrad false 1 1 5 (replicate 10 0%Z) [2%Z] (ramp 10)
    = Some [2; 4; 6; 8; 0; 12; 0; 0; 0; 0]%Z
  ∧ weight_grad_reference false 1 1 5 (replicate 10 0%Z) [2%Z] (ramp 10)
    = Some [2; 4; 6; 8; 10; 0; 0; 0; 0; 0]%Z
  ∧ Arm.ExecBiasGrad true 1 5 (replicate 10 0%Z) (ramp 10)
    = Some [1; 2; 3; 4; 0; 6; 0; 0; 0; 0]%Z
  ∧ bias_grad_reference true 1 5 (replicate 10 0%Z) (ramp 10)
    = Some [1; 2; 3; 4; 5; 0; 0; 0; 0; 0]%Z
  ∧ Arm.ExecBiasGrad false 2 4 (replicate 4 0%Z) (ramp 8) = None
  ∧ bias_grad_reference false 2 4 (replicate 4 0%Z) (ramp 8) = Some [6; 8; 10; 12]%Z.
Proof. split_and!; [repeat constructor; by vm_compute..| | | | | |]; by vm_compute. Qed.

(** C4: two calls of the ARM [OnGrad] into zero-initialised destinations
    of exactly the gradients' sizes, in each of the 8 flag combinations.
    On the shape batch 2, input width 3, output width 2 the first call
    already faults in every combination: the scalar tail of [ExecWeightGrad]
    indexes one row too far.  On batch 2 with both widths 4 the first call
    faults whenever the bias flag is clear: the overwrite path clears
    [batch * oc] elements of the [oc]-element bias gradient; with the bias
    flag set the two calls follow the accumulate semantics.  On batch 1 with
    both widths 4 the two calls follow the accumulate semantics in all 8
    combinations: double with the flag set, the same with the flag
    clear. *)
Theorem accumulate_flags_on_zero_destinations :
  Forall (λ '(ai, aw, ab),
    arm_OnGrad
      (sample_args DATA_TYPE_FLOAT [2; 3] [1; 2; 3; 4; 5; 6]%Z 2 [1; 0; 2; 0; 1; 3]%Z
         [1; 2; 3; 4]%Z true ai aw ab)
      (Arm.mkGradDest (replicate 6 0%Z) (replicate 6 0%Z) (replicate 2 0%Z))
    = None) flag_combinations
  ∧ Forall (λ '(ai, aw, ab),
      let args := sample_args DATA_TYPE_FLOAT [2; 4] (ramp 8) 4 (ramp 16) (ramp 8)
                    true ai aw ab in
      let d0 := Arm.mkGradDest (replicate 8 0%Z) (replicate 16 0%Z)
                  (replicate 4 0%Z) in
      if ab then accumulate_semantics (ai, aw, ab) (arm_twice args d0)
      else arm_OnGrad args d0 = None) flag_combinations
  ∧ Forall (λ flags,
      let '(ai, aw, ab) := flags in
      accumulate_semantics flags
        (arm_twice
           (sample_args DATA_TYPE_FLOAT [1; 4] (ramp 4) 4 (ramp 16) (ramp 4)
              true ai aw ab)
           (Arm.mkGradDest (replicate 4 0%Z) (replicate 16 0%Z) (replicate 4 0%Z))))
      flag_combinations.
Proof. split_and!; repeat constructor; by vm_compute. Qed.

(** C5: a weight buffer of 0 bytes under a float layer of 65536 outputs and
    input width 16384.  The byte size differs from
    [output_width * input_width * size_of(dtype) = 2 ^ 32], but on [int]s the
    product is 0 and the size test lets the buffer through: the
    device-independent [OnGrad] returns no error and its loops write through
    the 0-byte weight gradient.  The ARM [OnGrad] tests the element count
    against [oc * ic] on [int]s: with 65536 outputs and input width 65536 a
    weight of no element passes and [ExecInputGrad] reads past its end.
    Where no product wraps, both engines refuse the weight before any
    arithmetic, with their size errors and nothing written. *)
Theorem weight_size_test_wraps :
  let weight : RawBuffer Z := float_buffer [2 ^ 16; 2 ^ 14] DATA_FORMAT_NCHW [] in
  (Z.of_nat (bytes_size weight)
   ≠ Z.of_nat (2 ^ 16) * Z.of_nat (2 ^ 14) * Z.of_nat (GetBytesSize DATA_TYPE_FLOAT))%Z
  ∧ int_mul (int_mul (as_int (2 ^ 16)) (as_int (2 ^ 14)))
      (as_int (GetBytesSize DATA_TYPE_FLOAT))
    = as_int (bytes_size weight)
  ∧ train_OnGrad
      (sample_layer DATA_TYPE_FLOAT DATA_FORMAT_NCHW [1; 2 ^ 14]
         (replicate (2 ^ 14) 1%Z) (2 ^ 16) [] false)
      (sample_context
         (float_buffer [1; 2 ^ 16] DATA_FORMAT_NCHW (replicate (2 ^ 16) 1%Z)))
    = None
  ∧ int_mul (as_int (2 ^ 16)) (as_int (2 ^ 16)) = as_int 0
  ∧ arm_OnGrad
      (sample_args DATA_TYPE_FLOAT [1; 2 ^ 16] (replicate (2 ^ 16) 1%Z) (2 ^ 16) []
         (replicate (2 ^ 16) 1%Z) false false false false)
      (Arm.mkGradDest (replicate (2 ^ 16) 0%Z) [] [])
    = None
  ∧ train_OnGrad
      (sample_layer DATA_TYPE_FLOAT DATA_FORMAT_NCHW [2; 3] (ramp 6) 2 (ramp 5) true)
      (sample_context (float_buffer [2; 2] DATA_FORMAT_NCHW (ramp 4)))
    = Some (Train.error "InnerProductLayerGrad weight dims error",
            sample_context (float_buffer [2; 2] DATA_FORMAT_NCHW (ramp 4)))
  ∧ arm_OnGrad
      (sample_args DATA_TYPE_FLOAT [2; 4] (ramp 8) 4 (ramp 15) (ramp 8)
         true false false false)
      (Arm.mkGradDest (ramp 8) (ramp 16) (ramp 4))
    = Some (mkStatus TNNERR_TRAIN_ERROR "weight data count error",
            Arm.mkGradDest (ramp 8) (ramp 16) (ramp 4)).
Proof. split_and!; by vm_compute. Qed.


Lemma accumulate_flags_two_calls_witness :
  let args := sample_args DATA_TYPE_FLOAT [2; 4] (ramp 8) 4 (ramp 16) (ramp 8)
                true true false true in
  let d0 := Arm.mkGradDest (replicate 8 0%Z) (replicate 16 0%Z) (replicate 4 0%Z) in
  ∃ d1 d2,
    arm_OnGrad args d0 = Some (Status_OK, d1)
    ∧ arm_OnGrad args d1 = Some (Status_OK, d2)
    ∧ Arm.input_grad_0 d2 = double (Arm.input_grad_0 d1)
    ∧ Arm.resource_grad_0 d2 = Arm.resource_grad_0 d1
    ∧ Arm.resource_grad_1 d2 = double (Arm.resource_grad_1 d1).
Proof.
  intros args d0.
  destruct (accumulate_flags_two_calls sample_GetDim sample_GetDataCount args d0
              (mkInnerProductLayerParam 4 true)
              (mkInnerProductLayerResource Z
                 (float_buffer [4; 4] DATA_FORMAT_NCHW (ramp 16))
                 (float_buffer [4] DATA_FORMAT_NCHW (replicate 4 0%Z))))
    as (d1 & d2 & Hone & Htwo & Hin & Hw & Hb);
    try reflexivity.
  { intros _. split_and!; [reflexivity|vm_compute; lia|discriminate]. }
  exists d1, d2. split; [exact Hone|]. split; [exact Htwo|].
  split_and!.
  - apply Hin. reflexivity.
  - exact Hw.
  - apply Hb. reflexivity.
Defined.


Lemma unsupported_dtype_fails_witness :
  (∃ msg,
     train_OnGrad
       (sample_layer DATA_TYPE_BFP16 DATA_FORMAT_NCHW [2; 3] (ramp 6) 2 (ramp 6) true)
       (sample_context (float_buffer [2; 2] DATA_FORMAT_NCHW (ramp 4)))
     = Some (Train.error msg,
             sample_context (float_buffer [2; 2] DATA_FORMAT_NCHW (ramp 4))))
  ∧ (∃ st,
       arm_OnGrad
         (sample_args DATA_TYPE_INT8 [2; 4] (ramp 8) 4 (ramp 16) (ramp 8)
            true false false false)
         (Arm.mkGradDest (ramp 8) (ramp 16) (ramp 4))
       = Some (st, Arm.mkGradDest (ramp 8) (ramp 16) (ramp 4))
       ∧ code st ≠ TNN_OK).
Proof.
  apply (unsupported_dtype_fails Recorder upstream record_blob record_resource
           sample_GetDim sample_GetDataCount _
           (mkBlob 1 (mkBlobDesc [2; 3] DATA_TYPE_BFP16 DATA_FORMAT_NCHW) (ramp 6)));
    [reflexivity|discriminate..].
Defined.

Lemma unregistered_kind_fails_witness :
  let km : gmap nat (X86.unary2_kernel_avx_func_t (LayerParam:=unit) (F:=Z)) :=
    {[ 3 := Some (λ _ src _ _, src) ]} in
  (∀ kernel, X86.GetUnary2Kernel km 7 kernel = (X86.kernel_not_found, kernel))
  ∧ ∀ d src dst param,
      X86.X86_UNARY2_CALCULATE km d src dst 7 param
      = Some (X86.kernel_not_found, X86.mkDispatched dst 0).
Proof. intros km. apply (unregistered_kind_fails km 7). reflexivity. Defined.

Lemma lookup_never_null_witness :
  let km : gmap nat (X86.unary2_kernel_avx_func_t (LayerParam:=unit) (F:=Z)) :=
    {[ 3 := Some (λ _ src _ _, src) ]} in
  ∃ body, (X86.GetUnary2Kernel km 3 None).2 = Some body.
Proof.
  intros km.
  apply (proj1 (proj2 (proj2 (lookup_never_null km 3 None)))). reflexivity.
Defined.

(** ** The further properties on sample tensors *)

Lemma registration_leaves_other_kinds_witness :
  let km : gmap nat (X86.unary2_kernel_avx_func_t (LayerParam:=unit) (F:=Z)) :=
    {[ 3 := Some (λ _ src _ _, src) ]} in
  X86.GetUnary2Kernel (X86.RegisterUnary2Kernel 7 None km).2 3 None
  = X86.GetUnary2Kernel km 3 None
  ∧ X86.X86_UNARY2_CALCULATE (X86.RegisterUnary2Kernel 7 None km).2
      [2] [1; 2]%Z [0; 0]%Z 3 ()
    = X86.X86_UNARY2_CALCULATE km [2] [1; 2]%Z [0; 0]%Z 3 ().
Proof.
  intros km.
  apply (registration_leaves_other_kinds km 7 3 None None [2] [1; 2]%Z [0; 0]%Z ()).
  discriminate.
Defined.

Lemma registration_order_irrelevant_witness :
  let km : gmap nat (X86.unary2_kernel_avx_func_t (LayerParam:=unit) (F:=Z)) := ∅ in
  let f : X86.kernel_body := λ _ src _ _, src in
  (X86.RegisterUnary2Kernel 7 None (X86.RegisterUnary2Kernel 3 (Some f) km).2).2
  = (X86.RegisterUnary2Kernel 3 (Some f) (X86.RegisterUnary2Kernel 7 None km).2).2.
Proof.
  intros km f. apply (registration_order_irrelevant km 3 7 (Some f) None).
  discriminate.
Defined.

Lemma DoForward_reports_success_witness :
  let km : gmap nat (X86.unary2_kernel_avx_func_t (LayerParam:=unit) (F:=Z)) :=
    {[ 3 := Some (λ _ src _ _, src) ]} in
  let input := mkBlob 1 (mkBlobDesc [2] DATA_TYPE_FLOAT DATA_FORMAT_NCHW) [1; 2]%Z in
  let output := mkBlob 2 (mkBlobDesc [2] DATA_TYPE_FLOAT DATA_FORMAT_NCHW) [0; 0]%Z in
  X86.DoForward blob_data km 7 () [input] [output]
  = Some (Status_OK, X86.mkDispatched [0; 0]%Z 0)
  ∧ X86.DoForward blob_data km 3 () [input] [output]
    = Some (Status_OK, X86.mkDispatched [1; 2]%Z 1).
Proof.
  intros km input output. split.
  - etrans; [apply (DoForward_reports_success blob_data km 7 () input output);
             reflexivity|].
    reflexivity.
  - etrans; [apply (DoForward_reports_success blob_data km 3 () input output);
             reflexivity|].
    reflexivity.
Defined.

Lemma weight_gradient_on_vector_widths_witness :
  Arm.ExecWeightGrad false 2 1 4 (replicate 4 0%Z) [1; 2]%Z (ramp 8)
  = Some [11; 14; 17; 20]%Z.
Proof.
  etrans; [apply (weight_gradient_on_vector_widths false 2 1 4 (replicate 4 0%Z)
                    [1; 2]%Z (ramp 8)); reflexivity|].
  reflexivity.
Defined.

Lemma weight_gradient_tail_out_of_bounds_witness :
  Arm.ExecWeightGrad false 2 2 3 (replicate 6 0%Z) [1; 2; 3; 4]%Z (ramp 6) = None.
Proof.
  apply (weight_gradient_tail_out_of_bounds false 2 2 3 (replicate 6 0%Z)
           [1; 2; 3; 4]%Z (ramp 6)); [discriminate|lia|lia|reflexivity].
Defined.

Lemma weight_gradient_micro_batches_witness :
  Arm.ExecWeightGrad false 2 1 4 (replicate 4 0%Z) ([1%Z] ++ [2%Z])
    ([1; 2; 3; 4]%Z ++ [5; 6; 7; 8]%Z)
  = Arm.ExecWeightGrad false 1 1 4 (replicate 4 0%Z) [1%Z] [1; 2; 3; 4]%Z
    ≫= λ wg', Arm.ExecWeightGrad true 1 1 4 wg' [2%Z] [5; 6; 7; 8]%Z.
Proof.
  apply (weight_gradient_micro_batches false 1 1 1 4 (replicate 4 0%Z)
           [1%Z] [2%Z] [1; 2; 3; 4]%Z [5; 6; 7; 8]%Z); reflexivity.
Defined.

Lemma input_gradient_matmul_witness :
  Arm.ExecInputGrad true 2 2 3 (replicate 6 1%Z) [1; 2; 3; 4]%Z [1; 0; 2; 0; 1; 3]%Z
  = Some [2; 3; 9; 4; 5; 19]%Z.
Proof.
  etrans; [apply (input_gradient_matmul true 2 2 3 (replicate 6 1%Z) [1; 2; 3; 4]%Z
                    [1; 0; 2; 0; 1; 3]%Z); reflexivity|].
  reflexivity.
Defined.

Lemma bias_gradient_sums_witness :
  Arm.ExecBiasGrad false 2 4 (replicate 8 7%Z) (ramp 8)
  = Some [6; 8; 10; 12; 0; 0; 0; 0]%Z
  ∧ Arm.ExecBiasGrad false 1 3 (replicate 5 7%Z) (ramp 3) = Some [1; 2; 3; 7; 7]%Z.
Proof.
  split.
  - etrans; [apply (bias_gradient_sums false 2 4 (replicate 8 7%Z) (ramp 8));
             [reflexivity|vm_compute; lia|by left|intros _; vm_compute; lia]|].
    reflexivity.
  - etrans; [apply (bias_gradient_sums false 1 3 (replicate 5 7%Z) (ramp 3));
             [reflexivity|vm_compute; lia|by right|intros _; vm_compute; lia]|].
    reflexivity.
Defined.

Lemma bias_gradient_tail_out_of_bounds_witness :
  Arm.ExecBiasGrad true 1 3 (replicate 3 0%Z) (ramp 3) = None.
Proof.
  apply (bias_gradient_tail_out_of_bounds true 1 3 (replicate 3 0%Z) (ramp 3));
    [discriminate|lia|reflexivity|].
  intros [_ Hacc]. discriminate Hacc.
Defined.

Lemma bias_overwrite_clears_batch_rows_witness :
  Arm.ExecBiasGrad false 2 4 (replicate 4 0%Z) (ramp 8) = None.
Proof.
  apply (bias_overwrite_clears_batch_rows 2 4 (replicate 4 0%Z) (ramp 8));
    [discriminate|vm_compute; lia].
Defined.

Lemma empty_batch_gradients_witness :
  Arm.ExecWeightGrad false 0 1 3 [7; 7; 7]%Z [] [] = Some [0; 0; 0]%Z
  ∧ Arm.ExecBiasGrad false 0 1 [5%Z] [] = Some [5%Z].
Proof.
  destruct (empty_batch_gradients false 1 3 [7; 7; 7]%Z [5%Z] [] []) as [Hw Hb].
  - vm_compute. lia.
  - split; [rewrite Hw; reflexivity|exact Hb].
Defined.

Lemma arm_failure_leaves_destinations_witness :
  let args := sample_args DATA_TYPE_FLOAT [2; 4] (ramp 8) 4 (ramp 15) (ramp 8)
                true false false false in
  let dst := Arm.mkGradDest (ramp 8) (ramp 16) (ramp 4) in
  ∃ st dst',
    arm_OnGrad args dst = Some (st, dst')
    ∧ st = mkStatus TNNERR_TRAIN_ERROR "weight data count error"
    ∧ dst' = dst.
Proof.
  intros args dst. eexists _, _. split; [reflexivity|]. split; [reflexivity|].
  apply (arm_failure_leaves_destinations sample_GetDim sample_GetDataCount args dst
           (mkStatus TNNERR_TRAIN_ERROR "weight data count error"));
    [reflexivity|discriminate].
Defined.

Lemma bias_destination_without_bias_witness :
  let args := sample_args DATA_TYPE_FLOAT [2; 4] (ramp 8) 4 (ramp 16) (ramp 8)
                false false false true in
  let dst := Arm.mkGradDest (replicate 8 0%Z) (replicate 16 0%Z) (ramp 4) in
  ∃ dst',
    arm_OnGrad args dst = Some (Status_OK, dst')
    ∧ Arm.resource_grad_1 dst' = ramp 4.
Proof.
  intros args dst. eexists. split; [reflexivity|].
  apply (bias_destination_without_bias sample_GetDim sample_GetDataCount args dst
           (mkInnerProductLayerParam 4 false) Status_OK); reflexivity.
Defined.

Lemma arm_gradients_on_vector_widths_witness :
  arm_OnGrad
    (sample_args DATA_TYPE_FLOAT [2; 4] (ramp 8) 4 (ramp 16) (ramp 8)
       true true false true)
    (Arm.mkGradDest (replicate 8 1%Z) (replicate 16 1%Z) (replicate 4 1%Z))
  = Some (Status_OK, Arm.mkGradDest
      [91; 101; 111; 121; 203; 229; 255; 281]%Z
      [26; 32; 38; 44; 32; 40; 48; 56; 38; 48; 58; 68; 44; 56; 68; 80]%Z
      [7; 9; 11; 13]%Z).
Proof.
  etrans.
  - apply (arm_gradients_on_vector_widths sample_GetDim sample_GetDataCount
             (sample_args DATA_TYPE_FLOAT [2; 4] (ramp 8) 4 (ramp 16) (ramp 8)
                true true false true)
             (Arm.mkGradDest (replicate 8 1%Z) (replicate 16 1%Z) (replicate 4 1%Z))
             (mkInnerProductLayerParam 4 true)
             (mkInnerProductLayerResource Z
                (float_buffer [4; 4] DATA_FORMAT_NCHW (ramp 16))
                (float_buffer [4] DATA_FORMAT_NCHW (replicate 4 0%Z))));
      try reflexivity.
    intros _. split_and!; [reflexivity|vm_compute; lia|discriminate].
  - reflexivity.
Defined.

Lemma train_gradients_witness :
  let layer := sample_layer DATA_TYPE_FLOAT DATA_FORMAT_NCHW [2; 3]
                 [1; 2; 3; 4; 5; 6]%Z 2 [1; 0; 2; 0; 1; 3]%Z true in
  let context := sample_context (float_buffer [2; 2] DATA_FORMAT_NCHW [1; 2; 3; 4]%Z) in
  ∃ input_grad weight_grad bias_grad,
    handed <$> (snd <$> train_OnGrad layer context)
    = Some [input_grad; weight_grad; bias_grad]
    ∧ buffer_data input_grad = [1; 2; 8; 3; 4; 18]%Z
    ∧ buffer_data weight_grad = [13; 17; 21; 18; 24; 30]%Z
    ∧ buffer_data bias_grad = [4; 6]%Z.
Proof.
  intros layer context.
  destruct (train_gradients Recorder upstream record_blob record_resource
              (mkBlob 1 (mkBlobDesc [2; 3] DATA_TYPE_FLOAT DATA_FORMAT_NCHW)
                 [1; 2; 3; 4; 5; 6]%Z)
              (mkBlob 2 (mkBlobDesc [2; 2] DATA_TYPE_FLOAT DATA_FORMAT_NCHW) [])
              (mkInnerProductLayerParam 2 true)
              (mkInnerProductLayerResource Z
                 (float_buffer [2; 3] DATA_FORMAT_NCHW [1; 0; 2; 0; 1; 3]%Z)
                 (float_buffer [2] DATA_FORMAT_NCHW [0; 0]%Z))
              (float_buffer [2; 2] DATA_FORMAT_NCHW [1; 2; 3; 4]%Z)
              context 2 [3])
    as (ig & wg & bg & Hrun & Hig & Hwg & Hbg);
    try reflexivity.
  exists ig, wg, bg. split_and!.
  - match type of Hrun with
    | _ = ?r => assert (Hrun' : train_OnGrad layer context = r) by exact Hrun
    end.
    rewrite Hrun'. reflexivity.
  - rewrite Hig. reflexivity.
  - rewrite Hwg. reflexivity.
  - rewrite Hbg. reflexivity.
Defined.

Lemma train_failure_leaves_context_witness :
  let layer := sample_layer DATA_TYPE_FLOAT DATA_FORMAT_NCHW [2; 3] (ramp 6) 2
                 (ramp 6) true in
  let context := mkRecorder ∅ [] in
  ∃ st context',
    train_OnGrad layer context = Some (st, context')
    ∧ st = Train.error "InnerProductLayerGrad output grad not found"
    ∧ context' = context.
Proof.
  intros layer context. eexists _, _. split; [reflexivity|]. split; [reflexivity|].
  apply (train_failure_leaves_context Recorder upstream record_blob record_resource
           layer context (Train.error "InnerProductLayerGrad output grad not found"));
    [reflexivity|discriminate].
Defined.

Lemma malformed_layer_rejected_witness :
  let layer := Train.mkBaseLayer Z
                 [mkBlob 1 (mkBlobDesc [2; 3] DATA_TYPE_FLOAT DATA_FORMAT_NCHW) (ramp 6)]
                 [mkBlob 2 (mkBlobDesc [2; 2] DATA_TYPE_FLOAT DATA_FORMAT_NCHW) []]
                 (Some Train.OtherLayerParam) None in
  let context := sample_context (float_buffer [2; 2] DATA_FORMAT_NCHW (ramp 4)) in
  ∃ msg, train_OnGrad layer context = Some (Train.error msg, context)
    ∧ (msg = "input size or output size not match in InnerProductLayerGrad"
       ∨ msg = "output datatype not match in InnerProductLayerGrad"
       ∨ msg = "InnerProductLayerGrad param or resource missing").
Proof.
  intros layer context.
  apply (malformed_layer_rejected Recorder upstream record_blob record_resource
           layer context).
  right. right. left. reflexivity.
Defined.

Lemma non_float_weight_rejected_witness :
  let input0 := mkBlob 1 (mkBlobDesc [2; 3] DATA_TYPE_FLOAT DATA_FORMAT_NCHW) (ramp 6) in
  let output0 := mkBlob 2 (mkBlobDesc [2; 2] DATA_TYPE_FLOAT DATA_FORMAT_NCHW) [] in
  let resource := mkInnerProductLayerResource Z
                    (mkRawBuffer 12 [2; 3] DATA_TYPE_HALF DATA_FORMAT_NCHW (ramp 6))
                    (float_buffer [2] DATA_FORMAT_NCHW [0; 0]%Z) in
  let layer := Train.mkBaseLayer Z [input0] [output0]
                 (Some (Train.InnerProductParam (mkInnerProductLayerParam 2 true)))
                 (Some (Train.InnerProductResource resource)) in
  let context := sample_context (float_buffer [2; 2] DATA_FORMAT_NCHW (ramp 4)) in
  ∃ msg, train_OnGrad layer context = Some (Train.error msg, context)
    ∧ msg = "InnerProductLayerGrad resource don't support ".
Proof.
  intros input0 output0 resource layer context.
  destruct (non_float_weight_rejected Recorder upstream record_blob record_resource
              input0 output0 (mkInnerProductLayerParam 2 true) resource context)
    as (msg & Hrun & Hmsg).
  - discriminate.
  - discriminate.
  - exists msg. split; [exact Hrun|].
    apply Hmsg; [by right|reflexivity|by eexists].
Defined.

Lemma operand_sizes_unchecked_witness :
  train_OnGrad
    (sample_layer DATA_TYPE_FLOAT DATA_FORMAT_NCHW [2; 3] (ramp 6) 2 (ramp 6) true)
    (sample_context (float_buffer [2; 2] DATA_FORMAT_NCHW (ramp 3)))
  = None.
Proof.
  apply (operand_sizes_unchecked Recorder upstream record_blob record_resource
           (mkBlob 1 (mkBlobDesc [2; 3] DATA_TYPE_FLOAT DATA_FORMAT_NCHW) (ramp 6))
           (mkBlob 2 (mkBlobDesc [2; 2] DATA_TYPE_FLOAT DATA_FORMAT_NCHW) [])
           (mkInnerProductLayerParam 2 true)
           (mkInnerProductLayerResource Z
              (float_buffer [2; 3] DATA_FORMAT_NCHW (ramp 6))
              (float_buffer [2] DATA_FORMAT_NCHW [0; 0]%Z))
           (float_buffer [2; 2] DATA_FORMAT_NCHW (ramp 3))
           (sample_context (float_buffer [2; 2] DATA_FORMAT_NCHW (ramp 3))) 2 [3]);
    try reflexivity; try (vm_compute; lia).
Defined.

Lemma bias_dtype_unchecked_witness :
  let input0 := mkBlob 1 (mkBlobDesc [2; 3] DATA_TYPE_FLOAT DATA_FORMAT_NCHW) (ramp 6) in
  let output0 := mkBlob 2 (mkBlobDesc [2; 2] DATA_TYPE_FLOAT DATA_FORMAT_NCHW) [] in
  let resource := mkInnerProductLayerResource Z
                    (float_buffer [2; 3] DATA_FORMAT_NCHW (ramp 6))
                    (mkRawBuffer 4 [2] DATA_TYPE_HALF DATA_FORMAT_NCHW [0; 0]%Z) in
  let layer := Train.mkBaseLayer Z [input0] [output0]
                 (Some (Train.InnerProductParam (mkInnerProductLayerParam 2 true)))
                 (Some (Train.InnerProductResource resource)) in
  train_OnGrad layer (sample_context (float_buffer [2; 2] DATA_FORMAT_NCHW (ramp 4)))
  = None.
Proof.
  intros input0 output0 resource layer.
  apply (bias_dtype_unchecked Recorder upstream record_blob record_resource
           input0 output0 (mkInnerProductLayerParam 2 true) resource
           (float_buffer [2; 2] DATA_FORMAT_NCHW (ramp 4))
           (sample_context (float_buffer [2; 2] DATA_FORMAT_NCHW (ramp 4))) 2 [3]);
    try reflexivity; try (vm_compute; lia).
Defined.

Lemma rank0_input_unchecked_witness :
  train_OnGrad
    (sample_layer DATA_TYPE_FLOAT DATA_FORMAT_NCHW [] [1%Z] 1 [1%Z] true)
    (sample_context (float_buffer [1; 1] DATA_FORMAT_NCHW [5%Z]))
  = None.
Proof.
  apply (rank0_input_unchecked Recorder upstream record_blob record_resource
           (mkBlob 1 (mkBlobDesc [] DATA_TYPE_FLOAT DATA_FORMAT_NCHW) [1%Z])
           (mkBlob 2 (mkBlobDesc [1; 1] DATA_TYPE_FLOAT DATA_FORMAT_NCHW) [])
           (mkInnerProductLayerParam 1 true)
           (mkInnerProductLayerResource Z
              (float_buffer [1; 1] DATA_FORMAT_NCHW [1%Z])
              (float_buffer [1] DATA_FORMAT_NCHW [0%Z]))
           (float_buffer [1; 1] DATA_FORMAT_NCHW [5%Z])
           (sample_context (float_buffer [1; 1] DATA_FORMAT_NCHW [5%Z])));
    [reflexivity|by right|reflexivity|reflexivity].
Defined.

Lemma bfp16_declared_unsupported_witness :
  train_OnGrad
    (sample_layer DATA_TYPE_BFP16 DATA_FORMAT_NCHW [2; 3] (ramp 6) 2 (ramp 6) true)
    (sample_context (float_buffer [2; 2] DATA_FORMAT_NCHW (ramp 4)))
  = Some (Train.error "InnerProductLayerGrad don't support bft16 for now",
          sample_context (float_buffer [2; 2] DATA_FORMAT_NCHW (ramp 4))).
Proof.
  apply (bfp16_declared_unsupported Recorder upstream record_blob record_resource
           (mkBlob 1 (mkBlobDesc [2; 3] DATA_TYPE_BFP16 DATA_FORMAT_NCHW) (ramp 6))
           (mkBlob 2 (mkBlobDesc [2; 2] DATA_TYPE_BFP16 DATA_FORMAT_NCHW) [])
           (mkInnerProductLayerParam 2 true)
           (mkInnerProductLayerResource Z
              (float_buffer [2; 3] DATA_FORMAT_NCHW (ramp 6))
              (float_buffer [2] DATA_FORMAT_NCHW [0; 0]%Z))
           (float_buffer [2; 2] DATA_FORMAT_NCHW (ramp 4)));
    [reflexivity|reflexivity|reflexivity|discriminate|reflexivity|reflexivity].
Defined.

Lemma engines_agree_witness :
  let layer := sample_layer DATA_TYPE_FLOAT DATA_FORMAT_NCHW [1; 4] (ramp 4) 3
                 (ramp 12) true in
  let context := sample_context (float_buffer [1; 3] DATA_FORMAT_NCHW (ramp 3)) in
  let args := sample_args DATA_TYPE_FLOAT [1; 4] (ramp 4) 3 (ramp 12) (ramp 3)
                true false false false in
  let dst := Arm.mkGradDest (replicate 4 0%Z) (replicate 12 0%Z) (replicate 3 0%Z) in
  ∃ input_grad weight_grad bias_grad d,
    handed <$> (snd <$> train_OnGrad layer context)
    = Some [input_grad; weight_grad; bias_grad]
    ∧ arm_OnGrad args dst = Some (Status_OK, d)
    ∧ Arm.input_grad_0 d = buffer_data input_grad
    ∧ Arm.resource_grad_0 d = buffer_data weight_grad
    ∧ Arm.resource_grad_1 d = buffer_data bias_grad.
Proof.
  intros layer context args dst.
  destruct (engines_agree Recorder upstream record_blob record_resource
              sample_GetDim sample_GetDataCount
              (mkBlob 1 (mkBlobDesc [1; 4] DATA_TYPE_FLOAT DATA_FORMAT_NCHW) (ramp 4))
              (mkBlob 2 (mkBlobDesc [1; 3] DATA_TYPE_FLOAT DATA_FORMAT_NCHW) [])
              (mkInnerProductLayerParam 3 true)
              (mkInnerProductLayerResource Z
                 (float_buffer [3; 4] DATA_FORMAT_NCHW (ramp 12))
                 (float_buffer [3] DATA_FORMAT_NCHW (replicate 3 0%Z)))
              (float_buffer [1; 3] DATA_FORMAT_NCHW (ramp 3))
              context 1 [4] dst)
    as (ig & wg & bg & d & Hrun & Harm & Hig & Hwg & Hbg);
    try reflexivity.
  { intros _. split_and!; [reflexivity|reflexivity|vm_compute; lia|reflexivity]. }
  assert (Hhanded : handed <$> (snd <$> train_OnGrad layer context)
                    = Some [ig; wg; bg]).
  { match type of Hrun with
    | _ = ?r => assert (Hrun' : train_OnGrad layer context = r) by exact Hrun
    end.
    rewrite Hrun'. reflexivity. }
  exists ig, wg, bg, d. split_and!.
  - exact Hhanded.
  - exact Harm.
  - exact Hig.
  - exact Hwg.
  - exact Hbg.
Defined.

Lemma arm_engine_needs_vector_widths_witness :
  arm_OnGrad
    (sample_args DATA_TYPE_FLOAT [2; 3] (ramp 6) 2 (ramp 6) (ramp 4)
       false false false false)
    (Arm.mkGradDest (replicate 6 0%Z) (replicate 6 0%Z) (replicate 2 0%Z))
  = None
  ∧ arm_OnGrad
      (sample_args DATA_TYPE_FLOAT [2; 4] (ramp 8) 2 (ramp 8) (ramp 4)
         true false false true)
      (Arm.mkGradDest (replicate 8 0%Z) (replicate 8 0%Z) (replicate 2 0%Z))
    = None.
Proof.
  split.
  - apply (arm_engine_needs_vector_widths sample_GetDim sample_GetDataCount
             (sample_args DATA_TYPE_FLOAT [2; 3] (ramp 6) 2 (ramp 6) (ramp 4)
                false false false false)
             (Arm.mkGradDest (replicate 6 0%Z) (replicate 6 0%Z) (replicate 2 0%Z))
             (mkInnerProductLayerParam 2 false)
             (mkInnerProductLayerResource Z
                (float_buffer [2; 3] DATA_FORMAT_NCHW (ramp 6))
                (float_buffer [2] DATA_FORMAT_NCHW (replicate 2 0%Z))));
      try reflexivity; try (vm_compute; lia).
  - apply (arm_engine_needs_vector_widths sample_GetDim sample_GetDataCount
             (sample_args DATA_TYPE_FLOAT [2; 4] (ramp 8) 2 (ramp 8) (ramp 4)
                true false false true)
             (Arm.mkGradDest (replicate 8 0%Z) (replicate 8 0%Z) (replicate 2 0%Z))
             (mkInnerProductLayerParam 2 true)
             (mkInnerProductLayerResource Z
                (float_buffer [2; 4] DATA_FORMAT_NCHW (ramp 8))
                (float_buffer [2] DATA_FORMAT_NCHW (replicate 2 0%Z))));
      try reflexivity; try (vm_compute; lia).
Defined.
